(** * pgao: connection registry, metrics collection and threshold analysis

    A shallow embedding of the Go packages [models], [analyzer], [db],
    [collector] and [config] of pgao, and the properties of the
    health-evaluation pipeline proved about it.

    Conventions of the embedding:
    - Go [int] (64 bits wide on the platforms pgao is built for), [int32]
      and [int64] are [Z]; where the code computes with them the
      two's-complement wrap-around is written out ([wrap]).
    - Go [float64] is IEEE 754 binary64, taken from the Standard Library's
      executable specification [SpecFloat] (precision 53, emax 1024).
    - [time.Now()], the logger and the heap of [pgxpool.Pool] objects are
      effects; they are threaded through a state monad [Go] over [World].
    - [fmt.Sprintf] is kept symbolic: a format string and its arguments. *)

From Stdlib Require Import ZArith.
From Stdlib Require Import Floats.SpecFloat.
From stdpp Require Import gmap strings list pretty.

Open Scope Z_scope.

(** ** Machine integers *)

(** Two's-complement wrap-around of a [bits]-wide signed integer. *)
Definition wrap (bits : Z) (z : Z) : Z :=
  (z + 2 ^ (bits - 1)) `mod` 2 ^ bits - 2 ^ (bits - 1).

(** The largest [int]. *)
Definition int_max : Z := 2 ^ 63 - 1.

(** The builtin [len] of a slice. *)
Definition len {A} (l : list A) : Z := Z.of_nat (length l).

(** ** float64 *)

Module float64.

Definition t : Type := spec_float.

Definition prec : Z := 53.
Definition emax : Z := 1024.

(** The conversion [float64(n)] of an integer, rounded to nearest even. *)
Definition of_int (n : Z) : t := binary_normalize prec emax n 0 false.

(** The zero value of a [float64] field. *)
Definition zero : t := S754_zero false.

Definition mul : t → t → t := SFmul prec emax.
Definition div : t → t → t := SFdiv prec emax.

(** Go's comparisons; every comparison with a NaN is false. *)
Definition lt (x y : t) : bool := SFltb x y.
Definition le (x y : t) : bool := SFleb x y.
Definition gt (x y : t) : bool := SFltb y x.
Definition ge (x y : t) : bool := SFleb y x.

End float64.

(** ** Errors, formatting and results *)

(** The error values the packages build with [fmt.Errorf]; each
    constructor stands for one format string of the source. *)
Inductive error : Type :=
  | ErrDriver (msg : string)
      (* an error value returned by pgx or the network *)
  | ErrClusterExists (clusterID : string)
      (* "cluster %s already exists in pool" *)
  | ErrParseConnString (cause : error)
      (* "failed to parse connection string: %w" *)
  | ErrCreatePool (cause : error)
      (* "failed to create connection pool: %w" *)
  | ErrPing (cause : error)
      (* "failed to ping database: %w" *)
  | ErrNoPool (clusterID : string)
      (* "no connection pool found for cluster %s" *)
  | ErrClusterNotFound (clusterID : string)
      (* "cluster %s not found in pool" *)
  | ErrCollectMetrics (cause : error)
      (* "failed to collect metrics: %w" *).

(** The error taxonomy under which the messages are read. *)
Inductive ErrorKind : Type :=
  | AlreadyExists | NotFound | ConnectionError | QueryError | ValidationError.

Fixpoint kind (e : error) : ErrorKind :=
  match e with
  | ErrDriver _ => QueryError
  | ErrClusterExists _ => AlreadyExists
  | ErrParseConnString _ => ValidationError
  | ErrCreatePool _ => ConnectionError
  | ErrPing _ => ConnectionError
  | ErrNoPool _ => NotFound
  | ErrClusterNotFound _ => NotFound
  | ErrCollectMetrics cause => kind cause
  end.

Inductive result (A : Type) : Type :=
  | Ok (a : A)
  | Err (e : error).
Arguments Ok {A} a.
Arguments Err {A} e.

(** An argument of a formatting verb. *)
Inductive fmt_arg : Type :=
  | ArgS (s : string)          (* %s *)
  | ArgD (n : Z)               (* %d *)
  | ArgF (x : float64.t)       (* %.1f, %.2f *)
  | ArgV (e : error)           (* %v *).

(** The text of a message: a string literal, or [fmt.Sprintf format args]
    left unrendered. *)
Inductive text : Type :=
  | Lit (s : string)
  | Sprintf (format : string) (args : list fmt_arg).

(** ** The world: clock, log and pool heap *)

Module time.
(** A [time.Time], as nanoseconds since the epoch. *)
Definition Time : Type := Z.
(** A [time.Duration] is an [int64] count of nanoseconds. *)
Definition Duration : Type := Z.
Definition Second : Duration := 1000000000.
Definition Minute : Duration := 60 * Second.
Definition Hour : Duration := 60 * Minute.
End time.

Inductive Level : Type := DebugLevel | InfoLevel | WarnLevel | ErrorLevel.

(** What [pgxpool.ParseConfig] returns and [AddCluster] then configures. *)
Record PoolConfig : Type := mkPoolConfig {
  ConnString : string;
  MaxConns : Z;
  MinConns : Z;
  MaxConnLifetime : time.Duration;
  MaxConnIdleTime : time.Duration;
}.

(** A [pgxpool.Pool] object on the heap. *)
Record Pool : Type := mkPool {
  Config : PoolConfig;
  closed : bool;
}.

Definition mark_closed (p : Pool) : Pool := mkPool (Config p) true.

(** The mutable state the program runs in.  [readings n] is what the
    [n]-th call of [time.Now()] returns; [pools] is the map of the one
    [db.ConnectionPool] of the process, from cluster id to the address of
    its pool. *)
Record World : Type := mkWorld {
  readings : nat → time.Time;
  ticks : nat;
  log : list (Level * text);
  heap : gmap nat Pool;
  pools : gmap string nat;
}.

Definition Go (A : Type) : Type := World → A * World.

#[global] Instance Go_ret : MRet Go := λ A a w, (a, w).
#[global] Instance Go_bind : MBind Go :=
  λ A B f m w, let '(a, w') := m w in f a w'.

Definition time_Now : Go time.Time :=
  λ w, (readings w (ticks w),
        mkWorld (readings w) (S (ticks w)) (log w) (heap w) (pools w)).

Definition logf (lvl : Level) (msg : text) : Go unit :=
  λ w, (tt, mkWorld (readings w) (ticks w) (log w ++ [(lvl, msg)])
                    (heap w) (pools w)).

Definition get_pools : Go (gmap string nat) := λ w, (pools w, w).

Definition set_pools (ps : gmap string nat) : Go unit :=
  λ w, (tt, mkWorld (readings w) (ticks w) (log w) (heap w) ps).

(** Allocation of a fresh pool object. *)
Definition new_pool (p : Pool) : Go nat :=
  λ w, let r := fresh (dom (heap w)) in
       (r, mkWorld (readings w) (ticks w) (log w) (<[r := p]> (heap w))
                   (pools w)).

(** [pool.Close()] on the object at address [r]. *)
Definition pool_Close (r : nat) : Go unit :=
  λ w, (tt, mkWorld (readings w) (ticks w) (log w) (alter mark_closed r (heap w))
                    (pools w)).

(** ** Package models *)

Inductive AlertSeverity : Type :=
  | AlertSeverityCritical
  | AlertSeverityHigh
  | AlertSeverityMedium
  | AlertSeverityLow
  | AlertSeverityInfo.

Inductive AlertType : Type :=
  | AlertTypePerformance
  | AlertTypeAvailability
  | AlertTypeCapacity
  | AlertTypeSecurity
  | AlertTypeConfiguration
  | AlertTypeReplication
  | AlertTypeConnection
  | AlertTypeQuery.

#[global] Instance AlertSeverity_eq_dec : EqDecision AlertSeverity.
Proof. solve_decision. Defined.

#[global] Instance AlertType_eq_dec : EqDecision AlertType.
Proof. solve_decision. Defined.

(** A value of a [map[string]interface{}]. *)
Inductive any : Type :=
  | AnyString (s : string)
  | AnyInt (n : Z).

Module Alert.

Record t : Type := mk {
  ID : string;
  Type_ : AlertType;
  Severity : AlertSeverity;
  ClusterID : string;
  Title : string;
  Description : text;
  Metric : string;
  Threshold : float64.t;
  CurrentValue : float64.t;
  Timestamp : time.Time;
  Status : string;
  AcknowledgedAt : option time.Time;
  AcknowledgedBy : string;
  ResolvedAt : option time.Time;
  Metadata : gmap string any;
  Actions : list string;
}.

Definition set_Metric (v : string) (a : t) : t :=
  mk (ID a) (Type_ a) (Severity a) (ClusterID a) (Title a) (Description a)
     v (Threshold a) (CurrentValue a) (Timestamp a) (Status a)
     (AcknowledgedAt a) (AcknowledgedBy a) (ResolvedAt a) (Metadata a)
     (Actions a).

Definition set_Threshold (v : float64.t) (a : t) : t :=
  mk (ID a) (Type_ a) (Severity a) (ClusterID a) (Title a) (Description a)
     (Metric a) v (CurrentValue a) (Timestamp a) (Status a)
     (AcknowledgedAt a) (AcknowledgedBy a) (ResolvedAt a) (Metadata a)
     (Actions a).

Definition set_CurrentValue (v : float64.t) (a : t) : t :=
  mk (ID a) (Type_ a) (Severity a) (ClusterID a) (Title a) (Description a)
     (Metric a) (Threshold a) v (Timestamp a) (Status a)
     (AcknowledgedAt a) (AcknowledgedBy a) (ResolvedAt a) (Metadata a)
     (Actions a).

Definition set_Timestamp (v : time.Time) (a : t) : t :=
  mk (ID a) (Type_ a) (Severity a) (ClusterID a) (Title a) (Description a)
     (Metric a) (Threshold a) (CurrentValue a) v (Status a)
     (AcknowledgedAt a) (AcknowledgedBy a) (ResolvedAt a) (Metadata a)
     (Actions a).

Definition set_Metadata (v : gmap string any) (a : t) : t :=
  mk (ID a) (Type_ a) (Severity a) (ClusterID a) (Title a) (Description a)
     (Metric a) (Threshold a) (CurrentValue a) (Timestamp a) (Status a)
     (AcknowledgedAt a) (AcknowledgedBy a) (ResolvedAt a) v (Actions a).

Definition set_Actions (v : list string) (a : t) : t :=
  mk (ID a) (Type_ a) (Severity a) (ClusterID a) (Title a) (Description a)
     (Metric a) (Threshold a) (CurrentValue a) (Timestamp a) (Status a)
     (AcknowledgedAt a) (AcknowledgedBy a) (ResolvedAt a) (Metadata a) v.

(** [NewAlert]: the fields not listed in the composite literal take their
    zero values. *)
Definition NewAlert (alertType : AlertType) (severity : AlertSeverity)
    (clusterID title : string) (description : text) : Go t :=
  now ← time_Now;
  mret (mk "" alertType severity clusterID title description
           "" float64.zero float64.zero now "active"
           None "" None ∅ []).

(** [Acknowledge] and [Resolve], given the clock reading they take. *)
Definition Acknowledge (by_ : string) (a : t) : Go t :=
  now ← time_Now;
  mret (mk (ID a) (Type_ a) (Severity a) (ClusterID a) (Title a)
           (Description a) (Metric a) (Threshold a) (CurrentValue a)
           (Timestamp a) "acknowledged" (Some now) by_ (ResolvedAt a)
           (Metadata a) (Actions a)).

Definition Resolve (a : t) : Go t :=
  now ← time_Now;
  mret (mk (ID a) (Type_ a) (Severity a) (ClusterID a) (Title a)
           (Description a) (Metric a) (Threshold a) (CurrentValue a)
           (Timestamp a) "resolved" (AcknowledgedAt a) (AcknowledgedBy a)
           (Some now) (Metadata a) (Actions a)).

Definition AddAction (action : string) (a : t) : t :=
  set_Actions (Actions a ++ [action]) a.

End Alert.

Module HealthCheck.

Record t : Type := mk {
  Name : string;
  Status : string;
  Message : text;
  LastChecked : time.Time;
  Value : float64.t;
}.

End HealthCheck.

Module HealthStatus.

Record t : Type := mk {
  ClusterID : string;
  Status : string;
  Score : Z;
  ActiveAlerts : Z;
  CriticalAlerts : Z;
  LastCheck : time.Time;
  Checks : list HealthCheck.t;
}.

Definition NewHealthStatus (clusterID : string) : Go t :=
  now ← time_Now;
  mret (mk clusterID "unknown" 0 0 0 now []).

Definition set_ActiveAlerts (v : Z) (hs : t) : t :=
  mk (ClusterID hs) (Status hs) (Score hs) v (CriticalAlerts hs)
     (LastCheck hs) (Checks hs).

Definition set_CriticalAlerts (v : Z) (hs : t) : t :=
  mk (ClusterID hs) (Status hs) (Score hs) (ActiveAlerts hs) v
     (LastCheck hs) (Checks hs).

Definition set_Checks (v : list HealthCheck.t) (hs : t) : t :=
  mk (ClusterID hs) (Status hs) (Score hs) (ActiveAlerts hs)
     (CriticalAlerts hs) (LastCheck hs) v.

Definition set_Score_Status (score : Z) (status : string) (hs : t) : t :=
  mk (ClusterID hs) status score (ActiveAlerts hs) (CriticalAlerts hs)
     (LastCheck hs) (Checks hs).

(** The loop of [calculateScore] that counts the passed checks. *)
Definition passedChecks (checks : list HealthCheck.t) : Z :=
  fold_left
    (λ passed check,
       if bool_decide (HealthCheck.Status check = "ok") ||
          bool_decide (HealthCheck.Status check = "healthy")
       then wrap 64 (passed + 1) else passed)
    checks 0.

Definition calculateScore (hs : t) : t :=
  if len (Checks hs) =? 0 then set_Score_Status 0 "unknown" hs
  else
    let score := wrap 64 (passedChecks (Checks hs) * 100) ÷ len (Checks hs) in
    let status :=
      if 90 <=? score then "healthy"
      else if 70 <=? score then "warning"
      else if 50 <=? score then "degraded"
      else "critical" in
    set_Score_Status score status hs.

Definition AddCheck (check : HealthCheck.t) (hs : t) : t :=
  calculateScore (set_Checks (Checks hs ++ [check]) hs).

End HealthStatus.

Module Metrics.

Record t : Type := mk {
  ClusterID : string;
  Timestamp : time.Time;
  ConnectionsActive : Z;
  ConnectionsTotal : Z;
  TransactionsPerSec : float64.t;
  CacheHitRatio : float64.t;
  DiskIORead : float64.t;
  DiskIOWrite : float64.t;
  CPUUsage : float64.t;
  MemoryUsage : float64.t;
  LockWaits : Z;
  DeadlockCount : Z;
  ReplicationLag : Z;
  TableBloat : float64.t;
  IndexSize : Z;
  TableSize : Z;
}.

Definition NewMetrics (clusterID : string) : Go t :=
  now ← time_Now;
  mret (mk clusterID now 0 0 float64.zero float64.zero float64.zero
           float64.zero float64.zero float64.zero 0 0 0 float64.zero 0 0).

Definition set_Connections (active total : Z) (m : t) : t :=
  mk (ClusterID m) (Timestamp m) active total (TransactionsPerSec m)
     (CacheHitRatio m) (DiskIORead m) (DiskIOWrite m) (CPUUsage m)
     (MemoryUsage m) (LockWaits m) (DeadlockCount m) (ReplicationLag m)
     (TableBloat m) (IndexSize m) (TableSize m).

Definition set_CacheHitRatio (v : float64.t) (m : t) : t :=
  mk (ClusterID m) (Timestamp m) (ConnectionsActive m) (ConnectionsTotal m)
     (TransactionsPerSec m) v (DiskIORead m) (DiskIOWrite m) (CPUUsage m)
     (MemoryUsage m) (LockWaits m) (DeadlockCount m) (ReplicationLag m)
     (TableBloat m) (IndexSize m) (TableSize m).

Definition set_TransactionsPerSec (v : float64.t) (m : t) : t :=
  mk (ClusterID m) (Timestamp m) (ConnectionsActive m) (ConnectionsTotal m)
     v (CacheHitRatio m) (DiskIORead m) (DiskIOWrite m) (CPUUsage m)
     (MemoryUsage m) (LockWaits m) (DeadlockCount m) (ReplicationLag m)
     (TableBloat m) (IndexSize m) (TableSize m).

Definition set_LockWaits (v : Z) (m : t) : t :=
  mk (ClusterID m) (Timestamp m) (ConnectionsActive m) (ConnectionsTotal m)
     (TransactionsPerSec m) (CacheHitRatio m) (DiskIORead m) (DiskIOWrite m)
     (CPUUsage m) (MemoryUsage m) v (DeadlockCount m) (ReplicationLag m)
     (TableBloat m) (IndexSize m) (TableSize m).

Definition set_DeadlockCount (v : Z) (m : t) : t :=
  mk (ClusterID m) (Timestamp m) (ConnectionsActive m) (ConnectionsTotal m)
     (TransactionsPerSec m) (CacheHitRatio m) (DiskIORead m) (DiskIOWrite m)
     (CPUUsage m) (MemoryUsage m) (LockWaits m) v (ReplicationLag m)
     (TableBloat m) (IndexSize m) (TableSize m).

Definition set_ReplicationLag (v : Z) (m : t) : t :=
  mk (ClusterID m) (Timestamp m) (ConnectionsActive m) (ConnectionsTotal m)
     (TransactionsPerSec m) (CacheHitRatio m) (DiskIORead m) (DiskIOWrite m)
     (CPUUsage m) (MemoryUsage m) (LockWaits m) (DeadlockCount m) v
     (TableBloat m) (IndexSize m) (TableSize m).

Definition set_TableBloat (v : float64.t) (m : t) : t :=
  mk (ClusterID m) (Timestamp m) (ConnectionsActive m) (ConnectionsTotal m)
     (TransactionsPerSec m) (CacheHitRatio m) (DiskIORead m) (DiskIOWrite m)
     (CPUUsage m) (MemoryUsage m) (LockWaits m) (DeadlockCount m)
     (ReplicationLag m) v (IndexSize m) (TableSize m).

Definition set_DiskIO (read write : float64.t) (m : t) : t :=
  mk (ClusterID m) (Timestamp m) (ConnectionsActive m) (ConnectionsTotal m)
     (TransactionsPerSec m) (CacheHitRatio m) read write (CPUUsage m)
     (MemoryUsage m) (LockWaits m) (DeadlockCount m) (ReplicationLag m)
     (TableBloat m) (IndexSize m) (TableSize m).

End Metrics.

Module QueryMetrics.

Record t : Type := mk {
  QueryID : string;
  Query : string;
  ClusterID : string;
  Database : string;
  ExecutionTime : float64.t;
  PlanningTime : float64.t;
  RowsReturned : Z;
  RowsAffected : Z;
  SharedBlocksHit : Z;
  SharedBlocksRead : Z;
  TempBlocksRead : Z;
  TempBlocksWritten : Z;
  Timestamp : time.Time;
  CallCount : Z;
  MeanExecTime : float64.t;
  StddevExecTime : float64.t;
}.

End QueryMetrics.

(** ** Package analyzer *)

Module analyzer.

Record PerformanceThresholds : Type := mkThresholds {
  MaxConnectionsPercent : float64.t;
  MinCacheHitRatio : float64.t;
  MaxCPUPercent : float64.t;
  MaxMemoryPercent : float64.t;
  MaxReplicationLagMs : Z;
  MaxSlowQueryTimeMs : float64.t;
  MaxTableBloatPercent : float64.t;
}.

Definition DefaultThresholds : PerformanceThresholds :=
  {| MaxConnectionsPercent := float64.of_int 80;
     MinCacheHitRatio := float64.of_int 95;
     MaxCPUPercent := float64.of_int 80;
     MaxMemoryPercent := float64.of_int 85;
     MaxReplicationLagMs := 10000;
     MaxSlowQueryTimeMs := float64.of_int 1000;
     MaxTableBloatPercent := float64.of_int 20 |}.

Record PerformanceAnalyzer : Type := mkAnalyzer {
  thresholds : PerformanceThresholds;
}.

Definition NewPerformanceAnalyzer : PerformanceAnalyzer :=
  mkAnalyzer DefaultThresholds.

Definition NewPerformanceAnalyzerWithThresholds
    (thresholds : PerformanceThresholds) : PerformanceAnalyzer :=
  mkAnalyzer thresholds.

Definition getSeverity (value warning high critical : float64.t)
    : AlertSeverity :=
  if float64.ge value critical then AlertSeverityCritical
  else if float64.ge value high then AlertSeverityHigh
  else if float64.ge value warning then AlertSeverityMedium
  else AlertSeverityLow.

Definition getSeverityBelow (value warning high critical : float64.t)
    : AlertSeverity :=
  if float64.le value critical then AlertSeverityCritical
  else if float64.le value high then AlertSeverityHigh
  else if float64.le value warning then AlertSeverityMedium
  else AlertSeverityLow.

Definition getSeverityLag (value warning high critical : Z) : AlertSeverity :=
  if critical <=? value then AlertSeverityCritical
  else if high <=? value then AlertSeverityHigh
  else if warning <=? value then AlertSeverityMedium
  else AlertSeverityLow.

(** [(float64(active) / float64(total)) * 100] *)
Definition connPercent (metrics : Metrics.t) : float64.t :=
  float64.mul
    (float64.div (float64.of_int (Metrics.ConnectionsActive metrics))
                 (float64.of_int (Metrics.ConnectionsTotal metrics)))
    (float64.of_int 100).

(** The eight checks of [AnalyzeMetrics], in the order of the source; each
    takes the alert slice built so far and returns it, extended or not. *)

Definition checkConnectionUsage (pa : PerformanceAnalyzer)
    (metrics : Metrics.t) (alerts : list Alert.t) : Go (list Alert.t) :=
  if 0 <? Metrics.ConnectionsTotal metrics then
    let connPercent := connPercent metrics in
    if float64.gt connPercent (MaxConnectionsPercent (thresholds pa)) then
      alert ← Alert.NewAlert AlertTypeConnection
        (getSeverity connPercent (MaxConnectionsPercent (thresholds pa))
                     (float64.of_int 90) (float64.of_int 95))
        (Metrics.ClusterID metrics)
        "High Connection Usage"
        (Sprintf "Active connections at %.1f%% of maximum capacity"
                 [ArgF connPercent]);
      let alert := Alert.set_Metric "connections_active" alert in
      let alert :=
        Alert.set_Threshold (MaxConnectionsPercent (thresholds pa)) alert in
      let alert := Alert.set_CurrentValue connPercent alert in
      let alert := Alert.AddAction
        "Consider increasing max_connections or optimizing connection pooling"
        alert in
      mret (alerts ++ [alert])
    else mret alerts
  else mret alerts.

Definition checkCacheHitRatio (pa : PerformanceAnalyzer)
    (metrics : Metrics.t) (alerts : list Alert.t) : Go (list Alert.t) :=
  if float64.lt (Metrics.CacheHitRatio metrics)
                (MinCacheHitRatio (thresholds pa)) then
    alert ← Alert.NewAlert AlertTypePerformance
      (getSeverityBelow (Metrics.CacheHitRatio metrics)
                        (MinCacheHitRatio (thresholds pa))
                        (float64.of_int 90) (float64.of_int 85))
      (Metrics.ClusterID metrics)
      "Low Cache Hit Ratio"
      (Sprintf "Cache hit ratio at %.1f%%, below recommended %.1f%%"
               [ArgF (Metrics.CacheHitRatio metrics);
                ArgF (MinCacheHitRatio (thresholds pa))]);
    let alert := Alert.set_Metric "cache_hit_ratio" alert in
    let alert := Alert.set_Threshold (MinCacheHitRatio (thresholds pa)) alert in
    let alert := Alert.set_CurrentValue (Metrics.CacheHitRatio metrics) alert in
    let alert := Alert.AddAction "Consider increasing shared_buffers" alert in
    let alert :=
      Alert.AddAction "Review query patterns for optimization" alert in
    mret (alerts ++ [alert])
  else mret alerts.

Definition checkCPUUsage (pa : PerformanceAnalyzer)
    (metrics : Metrics.t) (alerts : list Alert.t) : Go (list Alert.t) :=
  if float64.gt (Metrics.CPUUsage metrics) (MaxCPUPercent (thresholds pa)) then
    alert ← Alert.NewAlert AlertTypePerformance
      (getSeverity (Metrics.CPUUsage metrics) (MaxCPUPercent (thresholds pa))
                   (float64.of_int 90) (float64.of_int 95))
      (Metrics.ClusterID metrics)
      "High CPU Usage"
      (Sprintf "CPU usage at %.1f%%" [ArgF (Metrics.CPUUsage metrics)]);
    let alert := Alert.set_Metric "cpu_usage" alert in
    let alert := Alert.set_Threshold (MaxCPUPercent (thresholds pa)) alert in
    let alert := Alert.set_CurrentValue (Metrics.CPUUsage metrics) alert in
    let alert :=
      Alert.AddAction "Identify and optimize expensive queries" alert in
    let alert := Alert.AddAction "Consider scaling up the instance" alert in
    mret (alerts ++ [alert])
  else mret alerts.

Definition checkMemoryUsage (pa : PerformanceAnalyzer)
    (metrics : Metrics.t) (alerts : list Alert.t) : Go (list Alert.t) :=
  if float64.gt (Metrics.MemoryUsage metrics)
                (MaxMemoryPercent (thresholds pa)) then
    alert ← Alert.NewAlert AlertTypeCapacity
      (getSeverity (Metrics.MemoryUsage metrics)
                   (MaxMemoryPercent (thresholds pa))
                   (float64.of_int 90) (float64.of_int 95))
      (Metrics.ClusterID metrics)
      "High Memory Usage"
      (Sprintf "Memory usage at %.1f%%" [ArgF (Metrics.MemoryUsage metrics)]);
    let alert := Alert.set_Metric "memory_usage" alert in
    let alert := Alert.set_Threshold (MaxMemoryPercent (thresholds pa)) alert in
    let alert := Alert.set_CurrentValue (Metrics.MemoryUsage metrics) alert in
    let alert :=
      Alert.AddAction "Review and optimize memory-intensive queries" alert in
    let alert :=
      Alert.AddAction "Consider increasing available memory" alert in
    mret (alerts ++ [alert])
  else mret alerts.

Definition checkReplicationLag (pa : PerformanceAnalyzer)
    (metrics : Metrics.t) (alerts : list Alert.t) : Go (list Alert.t) :=
  if MaxReplicationLagMs (thresholds pa) <? Metrics.ReplicationLag metrics then
    alert ← Alert.NewAlert AlertTypeReplication
      (getSeverityLag (Metrics.ReplicationLag metrics)
                      (MaxReplicationLagMs (thresholds pa)) 30000 60000)
      (Metrics.ClusterID metrics)
      "High Replication Lag"
      (Sprintf "Replication lag at %dms"
               [ArgD (Metrics.ReplicationLag metrics)]);
    let alert := Alert.set_Metric "replication_lag" alert in
    let alert := Alert.set_Threshold
      (float64.of_int (MaxReplicationLagMs (thresholds pa))) alert in
    let alert := Alert.set_CurrentValue
      (float64.of_int (Metrics.ReplicationLag metrics)) alert in
    let alert := Alert.AddAction
      "Check network connectivity between primary and replica" alert in
    let alert := Alert.AddAction "Review write load on primary" alert in
    mret (alerts ++ [alert])
  else mret alerts.

Definition checkLockWaits (pa : PerformanceAnalyzer)
    (metrics : Metrics.t) (alerts : list Alert.t) : Go (list Alert.t) :=
  if 100 <? Metrics.LockWaits metrics then
    alert ← Alert.NewAlert AlertTypePerformance AlertSeverityMedium
      (Metrics.ClusterID metrics)
      "High Lock Waits"
      (Sprintf "%d queries waiting for locks"
               [ArgD (Metrics.LockWaits metrics)]);
    let alert := Alert.set_Metric "lock_waits" alert in
    let alert := Alert.set_CurrentValue
      (float64.of_int (Metrics.LockWaits metrics)) alert in
    let alert := Alert.AddAction "Review long-running transactions" alert in
    let alert := Alert.AddAction "Optimize query access patterns" alert in
    mret (alerts ++ [alert])
  else mret alerts.

Definition checkDeadlocks (pa : PerformanceAnalyzer)
    (metrics : Metrics.t) (alerts : list Alert.t) : Go (list Alert.t) :=
  if 0 <? Metrics.DeadlockCount metrics then
    alert ← Alert.NewAlert AlertTypePerformance AlertSeverityHigh
      (Metrics.ClusterID metrics)
      "Deadlocks Detected"
      (Sprintf "%d deadlocks detected"
               [ArgD (Metrics.DeadlockCount metrics)]);
    let alert := Alert.set_Metric "deadlock_count" alert in
    let alert := Alert.set_CurrentValue
      (float64.of_int (Metrics.DeadlockCount metrics)) alert in
    let alert := Alert.AddAction "Review transaction ordering" alert in
    let alert := Alert.AddAction "Consider implementing retry logic" alert in
    mret (alerts ++ [alert])
  else mret alerts.

Definition checkTableBloat (pa : PerformanceAnalyzer)
    (metrics : Metrics.t) (alerts : list Alert.t) : Go (list Alert.t) :=
  if float64.gt (Metrics.TableBloat metrics)
                (MaxTableBloatPercent (thresholds pa)) then
    alert ← Alert.NewAlert AlertTypeCapacity
      (getSeverity (Metrics.TableBloat metrics)
                   (MaxTableBloatPercent (thresholds pa))
                   (float64.of_int 30) (float64.of_int 40))
      (Metrics.ClusterID metrics)
      "High Table Bloat"
      (Sprintf "Table bloat at %.1f%%" [ArgF (Metrics.TableBloat metrics)]);
    let alert := Alert.set_Metric "table_bloat" alert in
    let alert :=
      Alert.set_Threshold (MaxTableBloatPercent (thresholds pa)) alert in
    let alert := Alert.set_CurrentValue (Metrics.TableBloat metrics) alert in
    let alert := Alert.AddAction "Run VACUUM ANALYZE" alert in
    let alert := Alert.AddAction
      "Consider VACUUM FULL for heavily bloated tables" alert in
    mret (alerts ++ [alert])
  else mret alerts.

Definition AnalyzeMetrics (pa : PerformanceAnalyzer) (metrics : Metrics.t)
    : Go (list Alert.t) :=
  alerts ← checkConnectionUsage pa metrics [];
  alerts ← checkCacheHitRatio pa metrics alerts;
  alerts ← checkCPUUsage pa metrics alerts;
  alerts ← checkMemoryUsage pa metrics alerts;
  alerts ← checkReplicationLag pa metrics alerts;
  alerts ← checkLockWaits pa metrics alerts;
  alerts ← checkDeadlocks pa metrics alerts;
  alerts ← checkTableBloat pa metrics alerts;
  mret alerts.

Definition checkSlowQuery (pa : PerformanceAnalyzer)
    (qm : QueryMetrics.t) (alerts : list Alert.t) : Go (list Alert.t) :=
  if float64.gt (QueryMetrics.ExecutionTime qm)
                (MaxSlowQueryTimeMs (thresholds pa)) then
    let severity := AlertSeverityMedium in
    let severity :=
      if float64.gt (QueryMetrics.ExecutionTime qm)
           (float64.mul (MaxSlowQueryTimeMs (thresholds pa))
                        (float64.of_int 5))
      then AlertSeverityHigh else severity in
    let severity :=
      if float64.gt (QueryMetrics.ExecutionTime qm)
           (float64.mul (MaxSlowQueryTimeMs (thresholds pa))
                        (float64.of_int 10))
      then AlertSeverityCritical else severity in
    alert ← Alert.NewAlert AlertTypeQuery severity
      (QueryMetrics.ClusterID qm)
      "Slow Query Detected"
      (Sprintf "Query took %.2fms to execute"
               [ArgF (QueryMetrics.ExecutionTime qm)]);
    let alert := Alert.set_Metric "execution_time" alert in
    let alert :=
      Alert.set_Threshold (MaxSlowQueryTimeMs (thresholds pa)) alert in
    let alert :=
      Alert.set_CurrentValue (QueryMetrics.ExecutionTime qm) alert in
    let alert := Alert.set_Metadata
      (<["query_id" := AnyString (QueryMetrics.QueryID qm)]>
       (<["database" := AnyString (QueryMetrics.Database qm)]> ∅)) alert in
    let alert := Alert.AddAction "Analyze query with EXPLAIN ANALYZE" alert in
    let alert := Alert.AddAction "Check for missing indexes" alert in
    let alert := Alert.AddAction "Consider query optimization" alert in
    mret (alerts ++ [alert])
  else mret alerts.

Definition checkTempBlocks (pa : PerformanceAnalyzer)
    (qm : QueryMetrics.t) (alerts : list Alert.t) : Go (list Alert.t) :=
  if (10000 <? QueryMetrics.TempBlocksRead qm) ||
     (10000 <? QueryMetrics.TempBlocksWritten qm) then
    alert ← Alert.NewAlert AlertTypePerformance AlertSeverityMedium
      (QueryMetrics.ClusterID qm)
      "High Temp Block Usage"
      (Sprintf "Query using excessive temp blocks (read: %d, written: %d)"
               [ArgD (QueryMetrics.TempBlocksRead qm);
                ArgD (QueryMetrics.TempBlocksWritten qm)]);
    let alert := Alert.set_Metadata
      (<["query_id" := AnyString (QueryMetrics.QueryID qm)]>
       (<["temp_blocks_read" := AnyInt (QueryMetrics.TempBlocksRead qm)]>
        (<["temp_blocks_written" :=
             AnyInt (QueryMetrics.TempBlocksWritten qm)]> ∅))) alert in
    let alert := Alert.AddAction "Consider increasing work_mem" alert in
    let alert := Alert.AddAction "Optimize sort and hash operations" alert in
    mret (alerts ++ [alert])
  else mret alerts.

Definition AnalyzeQueryPerformance (pa : PerformanceAnalyzer)
    (qm : QueryMetrics.t) : Go (list Alert.t) :=
  alerts ← checkSlowQuery pa qm [];
  alerts ← checkTempBlocks pa qm alerts;
  mret alerts.

(** The loop of [GenerateHealthStatus] that tallies the active alerts:
    the state is the health record and the local [criticalCount]. *)
Definition countAlerts (alerts : list Alert.t) (health : HealthStatus.t)
    : HealthStatus.t * Z :=
  fold_left
    (λ '(health, criticalCount) alert,
       if bool_decide (Alert.Status alert = "active") then
         let health := HealthStatus.set_ActiveAlerts
           (wrap 64 (HealthStatus.ActiveAlerts health + 1)) health in
         if bool_decide (Alert.Severity alert = AlertSeverityCritical)
         then (health, wrap 64 (criticalCount + 1))
         else (health, criticalCount)
       else (health, criticalCount))
    alerts (health, 0).

Definition GenerateHealthStatus (pa : PerformanceAnalyzer)
    (clusterID : string) (metrics : Metrics.t) (alerts : list Alert.t)
    : Go HealthStatus.t :=
  health ← HealthStatus.NewHealthStatus clusterID;
  let '(health, criticalCount) := countAlerts alerts health in
  let health := HealthStatus.set_CriticalAlerts criticalCount health in
  now ← time_Now;
  let health := HealthStatus.AddCheck
    (HealthCheck.mk "Database Connectivity" "ok"
       (Lit "Database is reachable") now float64.zero) health in
  health ←
    (if 0 <? Metrics.ConnectionsTotal metrics then
       let connPercent := connPercent metrics in
       let status := "ok" in
       let message :=
         Sprintf "%.1f%% connections in use" [ArgF connPercent] in
       let status :=
         if float64.gt connPercent (MaxConnectionsPercent (thresholds pa))
         then "warning" else status in
       now ← time_Now;
       mret (HealthStatus.AddCheck
               (HealthCheck.mk "Connection Pool" status message now
                  connPercent) health)
     else mret health);
  let cacheStatus :=
    if float64.lt (Metrics.CacheHitRatio metrics)
                  (MinCacheHitRatio (thresholds pa))
    then "warning" else "ok" in
  now ← time_Now;
  let health := HealthStatus.AddCheck
    (HealthCheck.mk "Cache Performance" cacheStatus
       (Sprintf "%.1f%% cache hit ratio" [ArgF (Metrics.CacheHitRatio metrics)])
       now (Metrics.CacheHitRatio metrics)) health in
  let cpuStatus :=
    if float64.gt (Metrics.CPUUsage metrics) (MaxCPUPercent (thresholds pa))
    then "warning" else "ok" in
  now ← time_Now;
  let health := HealthStatus.AddCheck
    (HealthCheck.mk "CPU Usage" cpuStatus
       (Sprintf "%.1f%% CPU usage" [ArgF (Metrics.CPUUsage metrics)])
       now (Metrics.CPUUsage metrics)) health in
  let memStatus :=
    if float64.gt (Metrics.MemoryUsage metrics)
                  (MaxMemoryPercent (thresholds pa))
    then "warning" else "ok" in
  now ← time_Now;
  let health := HealthStatus.AddCheck
    (HealthCheck.mk "Memory Usage" memStatus
       (Sprintf "%.1f%% memory usage" [ArgF (Metrics.MemoryUsage metrics)])
       now (Metrics.MemoryUsage metrics)) health in
  mret health.

End analyzer.

(** ** Package db *)

Module db.

Record ConnectionConfig : Type := mkConnectionConfig {
  Host : string;
  Port : Z;
  User : string;
  Password : string;
  Database : string;
  MaxConnections : Z;
  MinConnections : Z;
  ConnMaxLifetime : time.Duration;
  ConnMaxIdleTime : time.Duration;
  SSLMode : string;
}.

(** What [pool.QueryRow(ctx, query).Scan(...)] yields for each of the
    statistics queries of the collector: the scanned values or an error. *)
Record Rows : Type := mkRows {
  connectionRow : result (Z * Z);
  cacheRow : result float64.t;
  transactionRow : result Z;
  lockRow : result Z;
  deadlocksRow : result Z;
  replicationRow : result Z;
  bloatRow : result float64.t;
  diskIORow : result (Z * Z);
}.

(** The pgx library and the network behind it, as they answer during one
    call: they are outside the repository and are taken as given. *)
Record Pgx : Type := mkPgx {
  ParseConfig : string → result PoolConfig;
  NewWithConfig : PoolConfig → option error;
  Ping : Pool → option error;
  Scan : Pool → Rows;
}.

(** [fmt.Sprintf("postgres://%s:%s@%s:%d/%s?sslmode=%s", ...)] *)
Definition connString (config : ConnectionConfig) : string :=
  "postgres://" +:+ User config +:+ ":" +:+ Password config +:+ "@" +:+
  Host config +:+ ":" +:+ pretty (Port config) +:+ "/" +:+
  Database config +:+ "?sslmode=" +:+ SSLMode config.

(** The pool configuration [AddCluster] derives from the parsed one. *)
Definition configurePool (config : ConnectionConfig)
    (poolConfig : PoolConfig) : PoolConfig :=
  {| ConnString := ConnString poolConfig;
     MaxConns :=
       if 0 <? MaxConnections config
       then wrap 32 (MaxConnections config) else 25;
     MinConns :=
       if 0 <? MinConnections config
       then wrap 32 (MinConnections config) else 5;
     MaxConnLifetime :=
       if 0 <? ConnMaxLifetime config
       then ConnMaxLifetime config else time.Hour;
     MaxConnIdleTime :=
       if 0 <? ConnMaxIdleTime config
       then ConnMaxIdleTime config else 30 * time.Minute |}.

(** [pool.Ping(ctx)] and the queries go through the pool object; an
    address the heap does not hold is never stored in the registry, and
    is answered like a pool that is gone. *)
Definition pool_Ping (pgx : Pgx) (r : nat) : Go (option error) :=
  λ w, (match heap w !! r with
        | Some p => Ping pgx p
        | None => Some (ErrDriver "closed pool")
        end, w).

Definition pool_Scan (pgx : Pgx) (r : nat) : Go Rows :=
  λ w, (match heap w !! r with
        | Some p => Scan pgx p
        | None =>
            let e := ErrDriver "closed pool" in
            mkRows (Err e) (Err e) (Err e) (Err e) (Err e) (Err e) (Err e)
                   (Err e)
        end, w).

(** [AddCluster] holds the write lock of the registry from entry to
    return, so it runs as one step on the world. *)
Definition AddCluster (pgx : Pgx) (clusterID : string)
    (config : ConnectionConfig) : Go (option error) :=
  ps ← get_pools;
  if bool_decide (is_Some (ps !! clusterID)) then
    mret (Some (ErrClusterExists clusterID))
  else
    match ParseConfig pgx (connString config) with
    | Err err => mret (Some (ErrParseConnString err))
    | Ok poolConfig =>
        let poolConfig := configurePool config poolConfig in
        match NewWithConfig pgx poolConfig with
        | Some err => mret (Some (ErrCreatePool err))
        | None =>
            pool ← new_pool (mkPool poolConfig false);
            err ← pool_Ping pgx pool;
            match err with
            | Some err =>
                pool_Close pool;;
                mret (Some (ErrPing err))
            | None =>
                set_pools (<[clusterID := pool]> ps);;
                logf InfoLevel
                  (Sprintf "Successfully connected to cluster %s"
                           [ArgS clusterID]);;
                mret None
            end
        end
    end.

Definition GetPool (clusterID : string) : Go (result nat) :=
  ps ← get_pools;
  match ps !! clusterID with
  | None => mret (Err (ErrNoPool clusterID))
  | Some pool => mret (Ok pool)
  end.

Definition HealthCheck (pgx : Pgx) (clusterID : string) : Go (option error) :=
  pool ← GetPool clusterID;
  match pool with
  | Err err => mret (Some err)
  | Ok pool => pool_Ping pgx pool
  end.

(** [GetAllClusters] ranges over the map; Go leaves the order of the
    iteration unspecified, the model takes the order of [map_to_list]. *)
Definition GetAllClusters : Go (list string) :=
  ps ← get_pools;
  mret (fold_left (λ clusters '(clusterID, _), clusters ++ [clusterID])
                  (map_to_list ps) []).

Definition RemoveCluster (clusterID : string) : Go (option error) :=
  ps ← get_pools;
  match ps !! clusterID with
  | None => mret (Some (ErrClusterNotFound clusterID))
  | Some pool =>
      pool_Close pool;;
      set_pools (delete clusterID ps);;
      logf InfoLevel
        (Sprintf "Removed cluster %s from pool" [ArgS clusterID]);;
      mret None
  end.

Definition Close : Go unit :=
  ps ← get_pools;
  fold_left
    (λ (k : Go unit) '(clusterID, pool),
       k;;
       pool_Close pool;;
       logf InfoLevel
         (Sprintf "Closed connection pool for cluster %s" [ArgS clusterID]))
    (map_to_list ps) (mret tt);;
  set_pools ∅.

End db.

(** ** Package collector *)

Module collector.

Import db.

(** Each sub-collection runs its query on the pool and, when the scan
    succeeds, stores the values in the [*models.Metrics] it was given; the
    pair returned is that record after the call and the [error]. *)

Definition collectConnectionMetrics (pgx : Pgx) (pool : nat)
    (metrics : Metrics.t) : Go (Metrics.t * option error) :=
  rows ← pool_Scan pgx pool;
  match connectionRow rows with
  | Err err => mret (metrics, Some err)
  | Ok (active, maxConn) =>
      mret (Metrics.set_Connections active maxConn metrics, None)
  end.

Definition collectCacheMetrics (pgx : Pgx) (pool : nat)
    (metrics : Metrics.t) : Go (Metrics.t * option error) :=
  rows ← pool_Scan pgx pool;
  match cacheRow rows with
  | Err err => mret (metrics, Some err)
  | Ok cacheHitRatio =>
      mret (Metrics.set_CacheHitRatio cacheHitRatio metrics, None)
  end.

Definition collectTransactionMetrics (pgx : Pgx) (pool : nat)
    (metrics : Metrics.t) : Go (Metrics.t * option error) :=
  rows ← pool_Scan pgx pool;
  match transactionRow rows with
  | Err err => mret (metrics, Some err)
  | Ok totalTxn =>
      mret (Metrics.set_TransactionsPerSec
              (float64.div (float64.of_int totalTxn) (float64.of_int 60))
              metrics,
            None)
  end.

Definition collectLockMetrics (pgx : Pgx) (pool : nat)
    (metrics : Metrics.t) : Go (Metrics.t * option error) :=
  rows ← pool_Scan pgx pool;
  match lockRow rows with
  | Err err => mret (metrics, Some err)
  | Ok lockWaits =>
      let metrics := Metrics.set_LockWaits lockWaits metrics in
      rows ← pool_Scan pgx pool;
      match deadlocksRow rows with
      | Ok deadlocks =>
          mret (Metrics.set_DeadlockCount deadlocks metrics, None)
      | Err _ => mret (metrics, None)
      end
  end.

Definition collectReplicationMetrics (pgx : Pgx) (pool : nat)
    (metrics : Metrics.t) : Go (Metrics.t * option error) :=
  rows ← pool_Scan pgx pool;
  match replicationRow rows with
  | Err err => mret (metrics, Some err)
  | Ok lagMs => mret (Metrics.set_ReplicationLag lagMs metrics, None)
  end.

Definition collectBloatMetrics (pgx : Pgx) (pool : nat)
    (metrics : Metrics.t) : Go (Metrics.t * option error) :=
  rows ← pool_Scan pgx pool;
  match bloatRow rows with
  | Err err => mret (metrics, Some err)
  | Ok bloatPct => mret (Metrics.set_TableBloat bloatPct metrics, None)
  end.

Definition collectDiskIOMetrics (pgx : Pgx) (pool : nat)
    (metrics : Metrics.t) : Go (Metrics.t * option error) :=
  rows ← pool_Scan pgx pool;
  match diskIORow rows with
  | Err err => mret (metrics, Some err)
  | Ok (blocksRead, blocksWritten) =>
      mret (Metrics.set_DiskIO
              (float64.mul (float64.of_int blocksRead) (float64.of_int 8))
              (float64.mul (float64.of_int blocksWritten) (float64.of_int 8))
              metrics,
            None)
  end.

(** [if err := collect(...); err != nil { mc.log.Warnf(what, err) }] *)
Definition warn_on_error (what : string)
    (collect : Go (Metrics.t * option error)) : Go Metrics.t :=
  r ← collect;
  match r with
  | (metrics, Some err) =>
      logf WarnLevel (Sprintf what [ArgV err]);; mret metrics
  | (metrics, None) => mret metrics
  end.

Definition CollectClusterMetrics (pgx : Pgx) (clusterID : string)
    : Go (result Metrics.t) :=
  metrics ← Metrics.NewMetrics clusterID;
  pool ← GetPool clusterID;
  match pool with
  | Err err => mret (Err err)
  | Ok pool =>
      metrics ← warn_on_error "Failed to collect connection metrics: %v"
                  (collectConnectionMetrics pgx pool metrics);
      metrics ← warn_on_error "Failed to collect cache metrics: %v"
                  (collectCacheMetrics pgx pool metrics);
      metrics ← warn_on_error "Failed to collect transaction metrics: %v"
                  (collectTransactionMetrics pgx pool metrics);
      metrics ← warn_on_error "Failed to collect lock metrics: %v"
                  (collectLockMetrics pgx pool metrics);
      metrics ← warn_on_error "Failed to collect replication metrics: %v"
                  (collectReplicationMetrics pgx pool metrics);
      metrics ← warn_on_error "Failed to collect bloat metrics: %v"
                  (collectBloatMetrics pgx pool metrics);
      metrics ← warn_on_error "Failed to collect disk I/O metrics: %v"
                  (collectDiskIOMetrics pgx pool metrics);
      logf DebugLevel
        (Sprintf "Collected metrics for cluster %s" [ArgS clusterID]);;
      mret (Ok metrics)
  end.

Definition GetMetricsSnapshot (pgx : Pgx) (clusterID : string)
    : Go (result Metrics.t) :=
  r ← CollectClusterMetrics pgx clusterID;
  match r with
  | Err err => mret (Err (ErrCollectMetrics err))
  | Ok metrics => mret (Ok metrics)
  end.



End collector.

(** ** Package config *)

Module config.

Import Stdlib.Strings.Ascii.

Module ServerConfig.
Record t : Type := mk {
  Host : string;
  Port : Z;
  ReadTimeout : time.Duration;
  WriteTimeout : time.Duration;
  IdleTimeout : time.Duration;
}.

Definition set_Host (v : string) (s : t) : t :=
  mk v (Port s) (ReadTimeout s) (WriteTimeout s) (IdleTimeout s).

Definition set_Port (v : Z) (s : t) : t :=
  mk (Host s) v (ReadTimeout s) (WriteTimeout s) (IdleTimeout s).
End ServerConfig.

Module ClusterConfig.
Record t : Type := mk {
  ID : string;
  Name : string;
  Host : string;
  Port : Z;
  User : string;
  Password : string;
  Database : string;
  SSLMode : string;
  MaxConnections : Z;
  MinConnections : Z;
  ConnMaxLifetime : time.Duration;
  ConnMaxIdleTime : time.Duration;
  Region : string;
  Environment : string;
  Tags : gmap string string;
}.
End ClusterConfig.

Module LoggingConfig.
Record t : Type := mk {
  Level : string;
  Format : string;
  Output : string;
}.

Definition set_Level (v : string) (l : t) : t := mk v (Format l) (Output l).
Definition set_Format (v : string) (l : t) : t := mk (Level l) v (Output l).
End LoggingConfig.

Module MetricsConfig.
Record t : Type := mk {
  CollectionInterval : time.Duration;
  RetentionDays : Z;
  EnablePrometheus : bool;
  PrometheusPort : Z;
}.

Definition set_CollectionInterval (v : time.Duration) (m : t) : t :=
  mk v (RetentionDays m) (EnablePrometheus m) (PrometheusPort m).
End MetricsConfig.

Module AWSConfig.
Record t : Type := mk {
  Region : string;
  AccessKeyID : string;
  SecretAccessKey : string;
  SessionToken : string;
  AssumeRoleARN : string;
  Accounts : list string;
}.

Definition set_Region (v : string) (a : t) : t :=
  mk v (AccessKeyID a) (SecretAccessKey a) (SessionToken a)
     (AssumeRoleARN a) (Accounts a).

Definition set_AccessKeyID (v : string) (a : t) : t :=
  mk (Region a) v (SecretAccessKey a) (SessionToken a)
     (AssumeRoleARN a) (Accounts a).

Definition set_SecretAccessKey (v : string) (a : t) : t :=
  mk (Region a) (AccessKeyID a) v (SessionToken a)
     (AssumeRoleARN a) (Accounts a).

Definition set_SessionToken (v : string) (a : t) : t :=
  mk (Region a) (AccessKeyID a) (SecretAccessKey a) v
     (AssumeRoleARN a) (Accounts a).
End AWSConfig.

Record Config : Type := mkConfig {
  Server : ServerConfig.t;
  Clusters : list ClusterConfig.t;
  Logging : LoggingConfig.t;
  Metrics : MetricsConfig.t;
  AWS : AWSConfig.t;
}.

Definition set_Server (v : ServerConfig.t) (c : Config) : Config :=
  mkConfig v (Clusters c) (Logging c) (Metrics c) (AWS c).

Definition set_Clusters (v : list ClusterConfig.t) (c : Config) : Config :=
  mkConfig (Server c) v (Logging c) (Metrics c) (AWS c).

Definition set_Logging (v : LoggingConfig.t) (c : Config) : Config :=
  mkConfig (Server c) (Clusters c) v (Metrics c) (AWS c).

Definition set_Metrics (v : MetricsConfig.t) (c : Config) : Config :=
  mkConfig (Server c) (Clusters c) (Logging c) v (AWS c).

Definition set_AWS (v : AWSConfig.t) (c : Config) : Config :=
  mkConfig (Server c) (Clusters c) (Logging c) (Metrics c) v.

(** The errors of the package; each constructor stands for one format
    string of the source.  The errors of the operating system and of the
    YAML decoder are kept as their message. *)
Inductive error : Type :=
  | ErrReadFile (cause : string)
      (* "failed to read config file: %w" *)
  | ErrParseFile (cause : string)
      (* "failed to parse config file: %w" *)
  | ErrInvalidConfiguration (cause : error)
      (* "invalid configuration: %w" *)
  | ErrServerPort (port : Z)
      (* "invalid server port: %d" *)
  | ErrLogLevel (level : string)
      (* "invalid log level: %s" *)
  | ErrNoClusters
      (* "at least one cluster must be configured" *)
  | ErrClusterID (i : Z)
      (* "cluster %d: ID is required" *)
  | ErrClusterHost (clusterID : string)
      (* "cluster %s: host is required" *)
  | ErrClusterPort (clusterID : string) (port : Z)
      (* "cluster %s: invalid port: %d" *)
  | ErrClusterUser (clusterID : string)
      (* "cluster %s: user is required" *)
  | ErrClusterDatabase (clusterID : string)
      (* "cluster %s: database is required" *)
  | ErrNotConfigured (clusterID : string)
      (* "cluster %s not found in configuration" *).

(** How a call ends: with a value, with an error, or in a run-time
    panic. *)
Inductive outcome (A : Type) : Type :=
  | Returns (a : A)
  | Fails (e : error)
  | Panics.
Arguments Returns {A} a.
Arguments Fails {A} e.
Arguments Panics {A}.

(** The operating system and the libraries outside the repository, as
    they answer during one call: the environment, the file system,
    [strconv.Atoi], [time.ParseDuration], the [ReplaceAllStringFunc] of
    the pattern compiled in [expandEnvVars] (a panic of the callback ends
    the call), and [yaml.Unmarshal] onto a configuration. *)
Record Os : Type := mkOs {
  Getenv : string → string;
  ReadFile : string → string + string;
  Atoi : string → option Z;
  ParseDuration : string → option time.Duration;
  ReplaceAllStringFunc : string → (string → option string) → option string;
  Unmarshal : string → Config → Config + string;
}.

(** The callback of [expandEnvVars], given one match of the pattern.
    Indexing past the end of the match, or slicing with a lower bound
    above the upper one, panics ([None]). *)
Definition expandMatch (os : Os) (match_ : string) : option string :=
  c ← String.get 1 match_;
  varName ←
    (if decide (c = "{"%char) then
       (* match[2 : len(match)-1] *)
       if decide (3 ≤ String.length match_)%nat then
         Some (String.substring 2 (String.length match_ - 3) match_)
       else None
     else
       (* match[1:] *)
       Some (String.substring 1 (String.length match_ - 1) match_));
  let val := Getenv os varName in
  if decide (val ≠ "") then Some val else Some match_.

Definition expandEnvVars (os : Os) (input : string) : option string :=
  ReplaceAllStringFunc os input (expandMatch os).

Definition defaultConfig : Config :=
  {| Server :=
       ServerConfig.mk "0.0.0.0" 8080 (15 * time.Second) (15 * time.Second)
                       (60 * time.Second);
     Clusters := [];
     Logging := LoggingConfig.mk "info" "json" "stdout";
     Metrics := MetricsConfig.mk (60 * time.Second) 30 true 9090;
     AWS := AWSConfig.mk "us-east-1" "" "" "" "" [] |}.

Definition getEnv (os : Os) (key defaultValue : string) : string :=
  let value := Getenv os key in
  if decide (value ≠ "") then value else defaultValue.

Definition getEnvInt (os : Os) (key : string) (defaultValue : Z) : Z :=
  let value := Getenv os key in
  if decide (value ≠ "") then
    match Atoi os value with
    | Some intVal => intVal
    | None => defaultValue
    end
  else defaultValue.

Definition overrideFromEnv (os : Os) (c : Config) : Config :=
  let host := Getenv os "SERVER_HOST" in
  let c :=
    if decide (host ≠ "")
    then set_Server (ServerConfig.set_Host host (Server c)) c else c in
  let port := Getenv os "SERVER_PORT" in
  let c :=
    if decide (port ≠ "") then
      match Atoi os port with
      | Some p => set_Server (ServerConfig.set_Port p (Server c)) c
      | None => c
      end
    else c in
  let level := Getenv os "LOG_LEVEL" in
  let c :=
    if decide (level ≠ "")
    then set_Logging (LoggingConfig.set_Level level (Logging c)) c else c in
  let format := Getenv os "LOG_FORMAT" in
  let c :=
    if decide (format ≠ "")
    then set_Logging (LoggingConfig.set_Format format (Logging c)) c else c in
  let region := Getenv os "AWS_REGION" in
  let c :=
    if decide (region ≠ "")
    then set_AWS (AWSConfig.set_Region region (AWS c)) c else c in
  let accessKey := Getenv os "AWS_ACCESS_KEY_ID" in
  let c :=
    if decide (accessKey ≠ "")
    then set_AWS (AWSConfig.set_AccessKeyID accessKey (AWS c)) c else c in
  let secretKey := Getenv os "AWS_SECRET_ACCESS_KEY" in
  let c :=
    if decide (secretKey ≠ "")
    then set_AWS (AWSConfig.set_SecretAccessKey secretKey (AWS c)) c
    else c in
  let sessionToken := Getenv os "AWS_SESSION_TOKEN" in
  let c :=
    if decide (sessionToken ≠ "")
    then set_AWS (AWSConfig.set_SessionToken sessionToken (AWS c)) c
    else c in
  let interval := Getenv os "METRICS_INTERVAL" in
  let c :=
    if decide (interval ≠ "") then
      match ParseDuration os interval with
      | Some d =>
          set_Metrics (MetricsConfig.set_CollectionInterval d (Metrics c)) c
      | None => c
      end
    else c in
  let dbHost := Getenv os "DATABASE_HOST" in
  if decide (dbHost ≠ "") then
    let cluster :=
      ClusterConfig.mk
        (getEnv os "DATABASE_ID" "default")
        (getEnv os "DATABASE_NAME" "default")
        dbHost
        (getEnvInt os "DATABASE_PORT" 5432)
        (getEnv os "DATABASE_USER" "postgres")
        (getEnv os "DATABASE_PASSWORD" "")
        (getEnv os "DATABASE_NAME" "postgres")
        (getEnv os "DATABASE_SSLMODE" "disable")
        0 0 0 0 "" "" ∅ in
    set_Clusters (Clusters c ++ [cluster]) c
  else c.

Definition validLevels : gmap string bool :=
  <["debug" := true]> (<["info" := true]> (<["warn" := true]>
    (<["error" := true]> (<["fatal" := true]> ∅)))).

(** The loop of [Validate] over the clusters, from index [i] on. *)
Fixpoint validateClusters (i : Z) (clusters : list ClusterConfig.t)
    : option error :=
  match clusters with
  | [] => None
  | cluster :: clusters =>
      if decide (ClusterConfig.ID cluster = "") then Some (ErrClusterID i)
      else if decide (ClusterConfig.Host cluster = "") then
        Some (ErrClusterHost (ClusterConfig.ID cluster))
      else if (ClusterConfig.Port cluster <? 1) ||
              (65535 <? ClusterConfig.Port cluster) then
        Some (ErrClusterPort (ClusterConfig.ID cluster)
                             (ClusterConfig.Port cluster))
      else if decide (ClusterConfig.User cluster = "") then
        Some (ErrClusterUser (ClusterConfig.ID cluster))
      else if decide (ClusterConfig.Database cluster = "") then
        Some (ErrClusterDatabase (ClusterConfig.ID cluster))
      else validateClusters (i + 1) clusters
  end.

Definition Validate (c : Config) : option error :=
  if (ServerConfig.Port (Server c) <? 1) ||
     (65535 <? ServerConfig.Port (Server c)) then
    Some (ErrServerPort (ServerConfig.Port (Server c)))
  else if negb (default false
                  (validLevels !! LoggingConfig.Level (Logging c))) then
    Some (ErrLogLevel (LoggingConfig.Level (Logging c)))
  else if len (Clusters c) =? 0 then Some ErrNoClusters
  else validateClusters 0 (Clusters c).

(** [GetCluster] returns a pointer to the loop variable, a copy of the
    first cluster with the id. *)
Fixpoint GetCluster_range (clusters : list ClusterConfig.t)
    (clusterID : string) : outcome ClusterConfig.t :=
  match clusters with
  | [] => Fails (ErrNotConfigured clusterID)
  | cluster :: clusters =>
      if decide (ClusterConfig.ID cluster = clusterID) then Returns cluster
      else GetCluster_range clusters clusterID
  end.

Definition GetCluster (c : Config) (clusterID : string)
    : outcome ClusterConfig.t :=
  GetCluster_range (Clusters c) clusterID.

Definition LoadConfig (os : Os) (configPath : string) : outcome Config :=
  let cfg := defaultConfig in
  let loaded :=
    if decide (configPath ≠ "") then
      match ReadFile os configPath with
      | inr err => Fails (ErrReadFile err)
      | inl data =>
          match expandEnvVars os data with
          | None => Panics
          | Some expandedData =>
              match Unmarshal os expandedData cfg with
              | inr err => Fails (ErrParseFile err)
              | inl cfg => Returns cfg
              end
          end
      end
    else Returns cfg in
  match loaded with
  | Returns cfg =>
      let cfg := overrideFromEnv os cfg in
      match Validate cfg with
      | Some err => Fails (ErrInvalidConfiguration err)
      | None => Returns cfg
      end
  | Fails e => Fails e
  | Panics => Panics
  end.

End config.

(** ** Package models: clusters *)

Module Cluster.

(** The values the cluster collector stores in a
    [map[string]interface{}]. *)
#[warnings="-register-all"]
Inductive value : Type :=
  | VString (s : string)
  | VBool (b : bool)
  | VStrings (l : list string)
  | VSettings (m : gmap string string)
  | VList (l : list value)
  | VMap (m : gmap string value).

(** A [models.Cluster].  [Configuration] is [None] for the nil map, on
    which an assignment panics; the map is taken as owned by its
    cluster. *)
Record t : Type := mk {
  ID : string;
  Name : string;
  Status : string;
  Configuration : option (gmap string value);
  Metrics : gmap string float64.t;
}.

Definition NewCluster (id name status : string)
    (configuration : option (gmap string value)) : t :=
  mk id name status configuration ∅.

Definition UpdateStatus (status : string) (c : t) : t :=
  mk (ID c) (Name c) status (Configuration c) (Metrics c).

(** [c.Configuration[key] = v] *)
Definition set_Configuration (key : string) (v : value) (c : t) : option t :=
  match Configuration c with
  | Some m => Some (mk (ID c) (Name c) (Status c) (Some (<[key := v]> m))
                       (Metrics c))
  | None => None
  end.

End Cluster.

(** ** Package collector: the cluster collector *)

Module ClusterCollector.

Import db.

(** The collector keeps pointers to clusters: [store] holds the clusters
    that were allocated, by address, and [clusters] is the map of the
    collector from id to address. *)
Record t : Type := mk {
  store : gmap nat Cluster.t;
  clusters : gmap string nat;
}.

Definition NewClusterCollector : t := mk ∅ ∅.

(** "cluster %s not found" *)
Inductive not_found : Type :=
  | ErrNotFound (clusterID : string).

(** How a call that may panic ends. *)
Inductive ending (A : Type) : Type :=
  | Done (a : A)
  | Panic.
Arguments Done {A} a.
Arguments Panic {A}.

(** [new(models.Cluster)]: a cluster at a fresh address. *)
Definition alloc (c : Cluster.t) (cc : t) : nat * t :=
  let r := fresh (dom (store cc)) in
  (r, mk (<[r := c]> (store cc)) (clusters cc)).

(** A write through the pointer [r]; a nil pointer or a panic of the
    write itself panics. *)
Definition through (r : nat) (f : Cluster.t → option Cluster.t) (cc : t)
    : option t :=
  c ← store cc !! r;
  c ← f c;
  Some (mk (<[r := c]> (store cc)) (clusters cc)).

(** The five queries are placeholders: each looks the pool up and
    returns a fixed answer. *)
Definition collectVersion (clusterID : string) : Go (result string) :=
  pool ← GetPool clusterID;
  match pool with
  | Err err => mret (Err err)
  | Ok _ => mret (Ok "PostgreSQL 15.3")
  end.

Definition collectSettings (clusterID : string)
    : Go (result (gmap string string)) :=
  pool ← GetPool clusterID;
  match pool with
  | Err err => mret (Err err)
  | Ok _ =>
      mret (Ok (<["max_connections" := "100"]>
                (<["shared_buffers" := "128MB"]>
                 (<["effective_cache_size" := "4GB"]>
                  (<["work_mem" := "4MB"]> ∅)))))
  end.

Definition collectDatabases (clusterID : string)
    : Go (result (list string)) :=
  pool ← GetPool clusterID;
  match pool with
  | Err err => mret (Err err)
  | Ok _ => mret (Ok ["postgres"; "myapp"])
  end.

Definition collectReplicationStatus (clusterID : string)
    : Go (result (gmap string Cluster.value)) :=
  pool ← GetPool clusterID;
  match pool with
  | Err err => mret (Err err)
  | Ok _ =>
      mret (Ok (<["is_primary" := Cluster.VBool true]>
                (<["replicas" := Cluster.VList []]> ∅)))
  end.

Definition collectExtensions (clusterID : string)
    : Go (result (list string)) :=
  pool ← GetPool clusterID;
  match pool with
  | Err err => mret (Err err)
  | Ok _ => mret (Ok ["pg_stat_statements"; "pgcrypto"])
  end.

(** [if err == nil { cluster.Configuration[key] = v }], on a collector
    that has not panicked. *)
Definition store_result {A} (key : string) (inj : A → Cluster.value)
    (r : result A) (cluster : nat) (cc : option t) : option t :=
  cc ← cc;
  match r with
  | Ok v => through cluster (Cluster.set_Configuration key (inj v)) cc
  | Err _ => Some cc
  end.

Definition CollectClusterInfo (pgx : Pgx) (clusterID : string) (cc : t)
    : Go (ending (option error) * t) :=
  pool ← GetPool clusterID;
  match pool with
  | Err err => mret (Done (Some err), cc)
  | Ok _ =>
      let '(cluster, cc) :=
        match clusters cc !! clusterID with
        | Some cluster => (cluster, cc)
        | None =>
            let '(cluster, cc) :=
              alloc (Cluster.NewCluster clusterID clusterID "unknown"
                       (Some ∅)) cc in
            (cluster, mk (store cc) (<[clusterID := cluster]> (clusters cc)))
        end in
      err ← HealthCheck pgx clusterID;
      match err with
      | Some err =>
          match through cluster (λ c, Some (Cluster.UpdateStatus "unhealthy" c))
                        cc with
          | None => mret (Panic, cc)
          | Some cc =>
              logf WarnLevel
                (Sprintf "Cluster %s is unhealthy: %v"
                         [ArgS clusterID; ArgV err]);;
              mret (Done (Some err), cc)
          end
      | None =>
          match through cluster (λ c, Some (Cluster.UpdateStatus "healthy" c))
                        cc with
          | None => mret (Panic, cc)
          | Some cc0 =>
              version ← collectVersion clusterID;
              let cc1 := store_result "version" Cluster.VString version
                           cluster (Some cc0) in
              settings ← collectSettings clusterID;
              let cc2 := store_result "settings" Cluster.VSettings settings
                           cluster cc1 in
              databases ← collectDatabases clusterID;
              let cc3 := store_result "databases" Cluster.VStrings databases
                           cluster cc2 in
              replStatus ← collectReplicationStatus clusterID;
              let cc4 := store_result "replication" Cluster.VMap replStatus
                           cluster cc3 in
              extensions ← collectExtensions clusterID;
              let cc5 := store_result "extensions" Cluster.VStrings extensions
                           cluster cc4 in
              match cc5 with
              | None => mret (Panic, cc0)
              | Some cc =>
                  logf DebugLevel
                    (Sprintf "Collected cluster info for %s" [ArgS clusterID]);;
                  mret (Done None, cc)
              end
          end
      end
  end.

Definition GetCluster (clusterID : string) (cc : t) : nat + not_found :=
  match clusters cc !! clusterID with
  | Some cluster => inl cluster
  | None => inr (ErrNotFound clusterID)
  end.

(** [GetAllClusters] ranges over the map, in the order of
    [map_to_list]. *)
Definition GetAllClusters (cc : t) : list nat :=
  fold_left (λ clusters '(_, cluster), clusters ++ [cluster])
            (map_to_list (clusters cc)) [].

(** [RegisterCluster] reads [cluster.ID] through the pointer it is
    given, which panics on a nil pointer. *)
Definition RegisterCluster (cluster : nat) (cc : t) : Go (ending unit * t) :=
  match store cc !! cluster with
  | None => mret (Panic, cc)
  | Some c =>
      let cc := mk (store cc) (<[Cluster.ID c := cluster]> (clusters cc)) in
      logf InfoLevel
        (Sprintf "Registered cluster %s for monitoring" [ArgS (Cluster.ID c)]);;
      mret (Done tt, cc)
  end.

Definition UnregisterCluster (clusterID : string) (cc : t)
    : Go (option not_found * t) :=
  match clusters cc !! clusterID with
  | None => mret (Some (ErrNotFound clusterID), cc)
  | Some _ =>
      let cc := mk (store cc) (delete clusterID (clusters cc)) in
      logf InfoLevel
        (Sprintf "Unregistered cluster %s from monitoring" [ArgS clusterID]);;
      mret (None, cc)
  end.

End ClusterCollector.

(** * Vocabulary of the statements *)

Import analyzer.

Definition eval {A} (m : Go A) (w : World) : A := (m w).1.
Definition exec {A} (m : Go A) (w : World) : World := (m w).2.

(** The same analysis invoked twice in a row. *)
Definition twice {A} (m : Go A) : Go (A * A) :=
  r1 ← m; r2 ← m; mret (r1, r2).

(** A check [emits P] when it returns the slice it was given followed by
    at most one new alert, which satisfies [P]. *)
Definition emits (P : Alert.t → Prop)
    (check : list Alert.t → Go (list Alert.t)) : Prop :=
  ∀ alerts w, ∃ extra,
    eval (check alerts) w = alerts ++ extra ∧ Forall P extra.

(** A check [emits_one Q] when it always appends exactly one alert, which
    satisfies [Q]. *)
Definition emits_one (Q : Alert.t → Prop)
    (check : list Alert.t → Go (list Alert.t)) : Prop :=
  ∀ alerts w, ∃ a, eval (check alerts) w = alerts ++ [a] ∧ Q a.

(** Checks run one after the other on the growing slice. *)
Fixpoint sequence_checks (checks : list (list Alert.t → Go (list Alert.t)))
    (alerts : list Alert.t) : Go (list Alert.t) :=
  match checks with
  | [] => mret alerts
  | check :: checks => alerts ← check alerts; sequence_checks checks alerts
  end.

Definition metrics_checks (pa : PerformanceAnalyzer) (metrics : Metrics.t)
    : list (list Alert.t → Go (list Alert.t)) :=
  [checkConnectionUsage pa metrics; checkCacheHitRatio pa metrics;
   checkCPUUsage pa metrics; checkMemoryUsage pa metrics;
   checkReplicationLag pa metrics; checkLockWaits pa metrics;
   checkDeadlocks pa metrics; checkTableBloat pa metrics].

Definition query_checks (pa : PerformanceAnalyzer) (qm : QueryMetrics.t)
    : list (list Alert.t → Go (list Alert.t)) :=
  [checkSlowQuery pa qm; checkTempBlocks pa qm].

(** ** Sample inputs *)

(** A world whose clock advances by a microsecond between two readings,
    with an empty log, heap and registry. *)
Definition world0 : World :=
  mkWorld (λ n, 1000 * Z.of_nat n) 0 [] ∅ ∅.

(** The snapshot [NewMetrics] returns, every metric at its zero value. *)
Definition zero_metrics (clusterID : string) : Metrics.t :=
  eval (Metrics.NewMetrics clusterID) world0.

Definition snapshot_90_of_100 : Metrics.t :=
  Metrics.set_Connections 90 100 (zero_metrics "c1").

Definition snapshot_cache_82 : Metrics.t :=
  Metrics.set_CacheHitRatio (float64.of_int 82) (zero_metrics "c1").

(** Seven active connections reported with a connection total of zero. *)
Definition snapshot_active_no_total : Metrics.t :=
  Metrics.set_Connections 7 0 (zero_metrics "c1").

(** ** Health checks *)

(** The health status after the checks were added one by one. *)
Definition with_checks (hs : HealthStatus.t) (checks : list HealthCheck.t)
    : HealthStatus.t :=
  fold_left (λ hs check, HealthStatus.AddCheck check hs) checks hs.

(** A check passes when its status is ok or healthy. *)
Definition passes (check : HealthCheck.t) : Prop :=
  HealthCheck.Status check = "ok" ∨ HealthCheck.Status check = "healthy".

#[global] Instance passes_dec check : Decision (passes check).
Proof. unfold passes. apply _. Defined.

(** The score as the specification words it: 100 times the count of the
    checks not in warning, over the count of checks, rounded down. *)
Definition score_of_not_warning (checks : list HealthCheck.t) : Z :=
  100 * len
          (filter (λ c, HealthCheck.Status c ≠ "warning") checks)
  / len checks.

(** A check of the given status. *)
Definition check_with_status (status : string) : HealthCheck.t :=
  HealthCheck.mk "Disk Space" status (Lit "") 0 float64.zero.

(** ** What an alert carries *)

(** The observed value each metric name of [AnalyzeMetrics] stands for. *)
Definition observed_value (metrics : Metrics.t) (metric : string)
    : option float64.t :=
  if decide (metric = "connections_active") then Some (connPercent metrics)
  else if decide (metric = "cache_hit_ratio") then
    Some (Metrics.CacheHitRatio metrics)
  else if decide (metric = "cpu_usage") then Some (Metrics.CPUUsage metrics)
  else if decide (metric = "memory_usage") then
    Some (Metrics.MemoryUsage metrics)
  else if decide (metric = "replication_lag") then
    Some (float64.of_int (Metrics.ReplicationLag metrics))
  else if decide (metric = "lock_waits") then
    Some (float64.of_int (Metrics.LockWaits metrics))
  else if decide (metric = "deadlock_count") then
    Some (float64.of_int (Metrics.DeadlockCount metrics))
  else if decide (metric = "table_bloat") then
    Some (Metrics.TableBloat metrics)
  else None.

(** The threshold configured for a metric name; lock waits and deadlocks
    are triggered by fixed constants and have none. *)
Definition configured_threshold (pa : PerformanceAnalyzer) (metric : string)
    : option float64.t :=
  if decide (metric = "connections_active") then
    Some (MaxConnectionsPercent (thresholds pa))
  else if decide (metric = "cache_hit_ratio") then
    Some (MinCacheHitRatio (thresholds pa))
  else if decide (metric = "cpu_usage") then
    Some (MaxCPUPercent (thresholds pa))
  else if decide (metric = "memory_usage") then
    Some (MaxMemoryPercent (thresholds pa))
  else if decide (metric = "replication_lag") then
    Some (float64.of_int (MaxReplicationLagMs (thresholds pa)))
  else if decide (metric = "table_bloat") then
    Some (MaxTableBloatPercent (thresholds pa))
  else None.

(** An alert on a snapshot names its metric, carries the observed value of
    that metric and, when the metric has a configured threshold, that
    threshold, and suggests at least one action. *)
Definition carries_metric (pa : PerformanceAnalyzer) (metrics : Metrics.t)
    (a : Alert.t) : Prop :=
  Alert.Metric a ≠ "" ∧
  observed_value metrics (Alert.Metric a) = Some (Alert.CurrentValue a) ∧
  (∀ t, configured_threshold pa (Alert.Metric a) = Some t →
        Alert.Threshold a = t) ∧
  Alert.Actions a ≠ [].

(** An alert on a statement suggests at least one action, and the
    slow-query alert carries the execution time and its threshold. *)
Definition carries_query (pa : PerformanceAnalyzer) (qm : QueryMetrics.t)
    (a : Alert.t) : Prop :=
  Alert.Actions a ≠ [] ∧
  (Alert.Type_ a = AlertTypeQuery →
     Alert.Metric a = "execution_time" ∧
     Alert.Threshold a = MaxSlowQueryTimeMs (thresholds pa) ∧
     Alert.CurrentValue a = QueryMetrics.ExecutionTime qm).

(** A statement that read twenty thousand temporary blocks. *)
Definition query_temp_blocks : QueryMetrics.t :=
  QueryMetrics.mk "q1" "SELECT * FROM t ORDER BY x" "c1" "postgres"
    float64.zero float64.zero 0 0 0 0 20000 0 0 1 float64.zero float64.zero.

(** Two alerts that agree on every field but the timestamp. *)
Definition same_but_Timestamp (a b : Alert.t) : Prop :=
  Alert.set_Timestamp 0 a = Alert.set_Timestamp 0 b.

(** A check is blind to the clock when, run on two slices that agree but
    for timestamps, in any two worlds, it returns two such slices. *)
Definition clock_blind (check : list Alert.t → Go (list Alert.t)) : Prop :=
  ∀ alerts1 alerts2 w1 w2,
    Forall2 same_but_Timestamp alerts1 alerts2 →
    Forall2 same_but_Timestamp (eval (check alerts1) w1)
                               (eval (check alerts2) w2).

(** ** The registry *)

Import db.

(** The connectivity probe of a configuration fails with [cause]: the
    connection string parses, the pool is created, and its ping fails. *)
Definition probe_fails (pgx : Pgx) (config : ConnectionConfig)
    (cause : error) : Prop :=
  ∃ poolConfig,
    ParseConfig pgx (connString config) = Ok poolConfig ∧
    NewWithConfig pgx (configurePool config poolConfig) = None ∧
    Ping pgx (mkPool (configurePool config poolConfig) false) = Some cause.

(** C4 as the specification words it, for every registry state. *)
Definition failed_probe_as_stated (pgx : Pgx) (clusterID : string)
    (config : ConnectionConfig) (w : World) : Prop :=
  let r := AddCluster pgx clusterID config w in
  ∀ cause, probe_fails pgx config cause →
    (∃ err, r.1 = Some err ∧ kind err = ConnectionError) ∧
    pools (r.2) = pools w ∧
    (clusterID ∉ eval GetAllClusters (r.2)) ∧
    (∃ err, eval (GetPool clusterID) (r.2) = Err err ∧ kind err = NotFound).

Definition no_rows : Rows :=
  let e := ErrDriver "connection refused" in
  mkRows (Err e) (Err e) (Err e) (Err e) (Err e) (Err e) (Err e) (Err e).

(** A server that answers every probe and query. *)
Definition pgx_reachable : Pgx :=
  {| ParseConfig := λ s, Ok (mkPoolConfig s 4 0 time.Hour time.Hour);
     NewWithConfig := λ _, None;
     Ping := λ _, None;
     Scan := λ _,
       mkRows (Ok (12, 100)) (Ok (float64.of_int 99)) (Ok 600) (Ok 3)
              (Ok 1) (Ok 0) (Ok (float64.of_int 2)) (Ok (10, 20)) |}.

(** A host that cannot be reached: pools are built, every ping and query
    fails. *)
Definition pgx_unreachable : Pgx :=
  {| ParseConfig := λ s, Ok (mkPoolConfig s 4 0 time.Hour time.Hour);
     NewWithConfig := λ _, None;
     Ping := λ _, Some (ErrDriver "connection refused");
     Scan := λ _, no_rows |}.

(** A server on which the cache-ratio query fails and the others answer. *)
Definition pgx_cache_query_fails : Pgx :=
  {| ParseConfig := ParseConfig pgx_reachable;
     NewWithConfig := NewWithConfig pgx_reachable;
     Ping := Ping pgx_reachable;
     Scan := λ _,
       mkRows (Ok (12, 100)) (Err (ErrDriver "canceling statement"))
              (Ok 600) (Ok 3) (Ok 1) (Ok 0) (Ok (float64.of_int 2))
              (Ok (10, 20)) |}.

Definition config0 : ConnectionConfig :=
  mkConnectionConfig "db.internal" 5432 "pgao" "secret" "postgres"
                     0 0 0 0 "disable".

(** The world after cluster c1 was registered on a reachable server. *)
Definition world_registered : World :=
  exec (AddCluster pgx_reachable "c1" config0) world0.

(** ** The collector *)

Import collector.

(** The scanned value, or the default when the query failed. *)
Definition or_default {A} (r : result A) (default : A) : A :=
  match r with
  | Ok a => a
  | Err _ => default
  end.

(** ** More of the registry *)

(** The connectivity probe of a configuration succeeds: the connection
    string parses to [poolConfig], the pool is created, and it answers
    the ping. *)
Definition probe_succeeds (pgx : Pgx) (config : ConnectionConfig)
    (poolConfig : PoolConfig) : Prop :=
  ParseConfig pgx (connString config) = Ok poolConfig ∧
  NewWithConfig pgx (configurePool config poolConfig) = None ∧
  Ping pgx (mkPool (configurePool config poolConfig) false) = None.

(** The heap after [pool.Close()] on each address of a list. *)
Definition close_all (addresses : list nat) (h : gmap nat Pool)
    : gmap nat Pool :=
  fold_left (λ h r, alter mark_closed r h) addresses h.

(** A configuration that sets its own pool bounds. *)
Definition config_sized : ConnectionConfig :=
  mkConnectionConfig "db.internal" 5432 "pgao" "secret" "postgres"
                     40 2 (2 * time.Hour) time.Minute "require".

(** ** More of the collector *)

(** The warning a sub-collection leaves in the log: one line when it
    returned an error, none otherwise. *)
Definition warning_of (what : string) (err : option error)
    : list (Level * text) :=
  match err with
  | Some err => [(WarnLevel, Sprintf what [ArgV err])]
  | None => []
  end.

Definition failure {A} (row : result A) : option error :=
  match row with
  | Ok _ => None
  | Err err => Some err
  end.

(** The warnings of one pass over the seven sub-collections, in order;
    the row of the deadlock counter has no line of its own. *)
Definition sub_collection_warnings (rows : Rows) : list (Level * text) :=
  warning_of "Failed to collect connection metrics: %v"
             (failure (connectionRow rows)) ++
  warning_of "Failed to collect cache metrics: %v"
             (failure (cacheRow rows)) ++
  warning_of "Failed to collect transaction metrics: %v"
             (failure (transactionRow rows)) ++
  warning_of "Failed to collect lock metrics: %v"
             (failure (lockRow rows)) ++
  warning_of "Failed to collect replication metrics: %v"
             (failure (replicationRow rows)) ++
  warning_of "Failed to collect bloat metrics: %v"
             (failure (bloatRow rows)) ++
  warning_of "Failed to collect disk I/O metrics: %v"
             (failure (diskIORow rows)).

(** A server on which only the deadlock counter cannot be read. *)
Definition pgx_deadlock_query_fails : Pgx :=
  {| ParseConfig := ParseConfig pgx_reachable;
     NewWithConfig := NewWithConfig pgx_reachable;
     Ping := Ping pgx_reachable;
     Scan := λ _,
       mkRows (Ok (12, 100)) (Ok (float64.of_int 99)) (Ok 600) (Ok 3)
              (Err (ErrDriver "permission denied")) (Ok 0)
              (Ok (float64.of_int 2)) (Ok (10, 20)) |}.

#[global] Instance Level_eq_dec : EqDecision Level.
Proof. solve_decision. Defined.


(** ** More of the analyzer *)

(** The metric names of the alerts of [AnalyzeMetrics], in the order in
    which the checks are written. *)
Definition metric_names : list string :=
  ["connections_active"; "cache_hit_ratio"; "cpu_usage"; "memory_usage";
   "replication_lag"; "lock_waits"; "deadlock_count"; "table_bloat"].

(** Whether the snapshot exceeds the limit of a metric. *)
Definition exceeds (pa : PerformanceAnalyzer) (metrics : Metrics.t)
    (metric : string) : bool :=
  if decide (metric = "connections_active") then
    (0 <? Metrics.ConnectionsTotal metrics) &&
    float64.gt (connPercent metrics) (MaxConnectionsPercent (thresholds pa))
  else if decide (metric = "cache_hit_ratio") then
    float64.lt (Metrics.CacheHitRatio metrics)
               (MinCacheHitRatio (thresholds pa))
  else if decide (metric = "cpu_usage") then
    float64.gt (Metrics.CPUUsage metrics) (MaxCPUPercent (thresholds pa))
  else if decide (metric = "memory_usage") then
    float64.gt (Metrics.MemoryUsage metrics) (MaxMemoryPercent (thresholds pa))
  else if decide (metric = "replication_lag") then
    MaxReplicationLagMs (thresholds pa) <? Metrics.ReplicationLag metrics
  else if decide (metric = "lock_waits") then
    100 <? Metrics.LockWaits metrics
  else if decide (metric = "deadlock_count") then
    0 <? Metrics.DeadlockCount metrics
  else if decide (metric = "table_bloat") then
    float64.gt (Metrics.TableBloat metrics)
               (MaxTableBloatPercent (thresholds pa))
  else false.

(** [[x]] when the condition holds, nothing otherwise. *)
Definition when {A} (cond : bool) (x : A) : list A :=
  if cond then [x] else [].

(** A check appends an alert on [metric] exactly when [cond] holds. *)
Definition emits_when (cond : bool) (metric : string)
    (check : list Alert.t → Go (list Alert.t)) : Prop :=
  ∀ alerts w,
    Alert.Metric <$> eval (check alerts) w
    = (Alert.Metric <$> alerts) ++ when cond metric.

(** The severities an alert is raised with. *)
Definition raised (severity : AlertSeverity) : Prop :=
  severity = AlertSeverityMedium ∨ severity = AlertSeverityHigh ∨
  severity = AlertSeverityCritical.

(** The rank of a severity, from info to critical. *)
Definition severity_rank (severity : AlertSeverity) : Z :=
  match severity with
  | AlertSeverityInfo => 0
  | AlertSeverityLow => 1
  | AlertSeverityMedium => 2
  | AlertSeverityHigh => 3
  | AlertSeverityCritical => 4
  end.

(** An alert counts as active, and as critical, in a health status. *)
Definition is_active (a : Alert.t) : Prop := Alert.Status a = "active".

Definition is_active_critical (a : Alert.t) : Prop :=
  Alert.Status a = "active" ∧ Alert.Severity a = AlertSeverityCritical.

#[global] Instance is_active_dec a : Decision (is_active a).
Proof. unfold is_active. apply _. Defined.

#[global] Instance is_active_critical_dec a : Decision (is_active_critical a).
Proof. unfold is_active_critical. apply _. Defined.

(** An alert as [NewAlert] leaves it: active, not acknowledged, not
    resolved, without an id. *)
Definition is_new (clusterID : string) (a : Alert.t) : Prop :=
  Alert.Status a = "active" ∧ Alert.ClusterID a = clusterID ∧
  Alert.ID a = "" ∧ Alert.AcknowledgedAt a = None ∧
  Alert.AcknowledgedBy a = "" ∧ Alert.ResolvedAt a = None.

(** An active, critical alert on cluster c1. *)
Definition alert_critical : Alert.t :=
  Alert.mk "" AlertTypeCapacity AlertSeverityCritical "c1" "High Table Bloat"
    (Lit "") "table_bloat" (float64.of_int 20) (float64.of_int 45) 0
    "active" None "" None ∅ ["Run VACUUM ANALYZE"].

(** Two alerts carry the same finding: they agree on everything but the
    lifecycle fields (status, acknowledgement, resolution). *)
Definition same_finding (a b : Alert.t) : Prop :=
  Alert.ID a = Alert.ID b ∧ Alert.Type_ a = Alert.Type_ b ∧
  Alert.Severity a = Alert.Severity b ∧
  Alert.ClusterID a = Alert.ClusterID b ∧ Alert.Title a = Alert.Title b ∧
  Alert.Description a = Alert.Description b ∧
  Alert.Metric a = Alert.Metric b ∧ Alert.Threshold a = Alert.Threshold b ∧
  Alert.CurrentValue a = Alert.CurrentValue b ∧
  Alert.Timestamp a = Alert.Timestamp b ∧
  Alert.Metadata a = Alert.Metadata b ∧ Alert.Actions a = Alert.Actions b.

(** The metric a health check reports on; connectivity has none. *)
Definition check_metric (name : string) : option string :=
  if decide (name = "Connection Pool") then Some "connections_active"
  else if decide (name = "Cache Performance") then Some "cache_hit_ratio"
  else if decide (name = "CPU Usage") then Some "cpu_usage"
  else if decide (name = "Memory Usage") then Some "memory_usage"
  else None.

(** The metrics the checks of [GenerateHealthStatus] report on. *)
Definition resource_metrics : list string :=
  ["connections_active"; "cache_hit_ratio"; "cpu_usage"; "memory_usage"].

(** How many of them are beyond their threshold in a snapshot. *)
Definition exceeded_resources (pa : PerformanceAnalyzer)
    (metrics : Metrics.t) : Z :=
  len (filter (λ metric, exceeds pa metrics metric = true) resource_metrics).

(** An alert on a statement as [AnalyzeQueryPerformance] leaves it: new,
    on the statement's cluster, and tagged with the statement's id. *)
Definition tagged_with_query (qm : QueryMetrics.t) (a : Alert.t) : Prop :=
  is_new (QueryMetrics.ClusterID qm) a ∧
  Alert.Metadata a !! "query_id" = Some (AnyString (QueryMetrics.QueryID qm)).

(** ** Configurations *)

(** A TCP port. *)
Definition port_ok (port : Z) : Prop := 1 ≤ port ≤ 65535.

(** The log levels a configuration may name. *)
Definition log_levels : list string :=
  ["debug"; "info"; "warn"; "error"; "fatal"].

(** A cluster entry with an id, a host, a port, a user and a database. *)
Definition cluster_ok (cluster : config.ClusterConfig.t) : Prop :=
  config.ClusterConfig.ID cluster ≠ "" ∧
  config.ClusterConfig.Host cluster ≠ "" ∧
  port_ok (config.ClusterConfig.Port cluster) ∧
  config.ClusterConfig.User cluster ≠ "" ∧
  config.ClusterConfig.Database cluster ≠ "".

Definition well_formed (c : config.Config) : Prop :=
  port_ok (config.ServerConfig.Port (config.Server c)) ∧
  config.LoggingConfig.Level (config.Logging c) ∈ log_levels ∧
  config.Clusters c ≠ [] ∧
  Forall cluster_ok (config.Clusters c).

(** The cluster [overrideFromEnv] builds from the DATABASE_ variables. *)
Definition env_cluster (os : config.Os) : config.ClusterConfig.t :=
  config.ClusterConfig.mk
    (config.getEnv os "DATABASE_ID" "default")
    (config.getEnv os "DATABASE_NAME" "default")
    (config.Getenv os "DATABASE_HOST")
    (config.getEnvInt os "DATABASE_PORT" 5432)
    (config.getEnv os "DATABASE_USER" "postgres")
    (config.getEnv os "DATABASE_PASSWORD" "")
    (config.getEnv os "DATABASE_NAME" "postgres")
    (config.getEnv os "DATABASE_SSLMODE" "disable")
    0 0 0 0 "" "" ∅.

(** The reference to a variable starts with an opening brace. *)
Definition braced (name : string) : Prop :=
  String.get 0 name = String.get 0 "{".

(** What a reference to the variable [name], written [reference], expands
    to: the value of the variable, or the reference itself when the
    variable is unset or empty. *)
Definition expansion (os : config.Os) (name reference : string) : string :=
  if decide (config.Getenv os name ≠ "") then config.Getenv os name
  else reference.

(** ** The cluster collector *)

(** Every id the collector tracks points at an allocated cluster, and
    that cluster carries the id. *)
Definition tracked_by_id (cc : ClusterCollector.t) : Prop :=
  ∀ clusterID r,
    ClusterCollector.clusters cc !! clusterID = Some r →
    ∃ c, ClusterCollector.store cc !! r = Some c ∧ Cluster.ID c = clusterID.

(** One operation on a collector and the world it runs in, which returns
    without a panic: a call of the collector, or what its callers can do
    with the pointers they hold (allocate a cluster, update the status of
    one), or any change to the world from elsewhere. *)
Inductive step (pgx : Pgx)
    : ClusterCollector.t * World → ClusterCollector.t * World → Prop :=
  | step_collect clusterID cc w err cc' w' :
      ClusterCollector.CollectClusterInfo pgx clusterID cc w
      = (ClusterCollector.Done err, cc', w') →
      step pgx (cc, w) (cc', w')
  | step_register cluster cc w cc' w' :
      ClusterCollector.RegisterCluster cluster cc w
      = (ClusterCollector.Done tt, cc', w') →
      step pgx (cc, w) (cc', w')
  | step_unregister clusterID cc w err cc' w' :
      ClusterCollector.UnregisterCluster clusterID cc w = (err, cc', w') →
      step pgx (cc, w) (cc', w')
  | step_new id name status configuration cc w :
      step pgx (cc, w)
           ((ClusterCollector.alloc
               (Cluster.NewCluster id name status configuration) cc).2, w)
  | step_status cluster status cc cc' w :
      ClusterCollector.through cluster
        (λ c, Some (Cluster.UpdateStatus status c)) cc = Some cc' →
      step pgx (cc, w) (cc', w)
  | step_world cc w w' :
      step pgx (cc, w) (cc, w').

(** The keys of the configuration a healthy cluster ends up with. *)
Definition collected_keys : gset string :=
  {["version"; "settings"; "databases"; "replication"; "extensions"]}.

(** The collector [cc'] holds the clusters of [cc] under the same ids,
    each with the id it had. *)
Definition keeps_ids (cc cc' : ClusterCollector.t) : Prop :=
  ClusterCollector.clusters cc' = ClusterCollector.clusters cc ∧
  ∀ r c, ClusterCollector.store cc !! r = Some c →
         ∃ c', ClusterCollector.store cc' !! r = Some c' ∧
               Cluster.ID c' = Cluster.ID c.

(** * Properties *)

(** ** Running a computation *)

Lemma eval_bind {A B} (m : Go A) (f : A → Go B) (w : World) :
  eval (m ≫= f) w = eval (f (eval m w)) (exec m w).
Proof. unfold eval, exec, mbind, Go_bind. by destruct (m w). Qed.

(** ** The checks of [AnalyzeMetrics] only append *)

Ltac run_check tac :=
  intros alerts w; unfold eval;
  repeat match goal with
         | |- context [if ?b then _ else _] =>
             lazymatch b with
             | context [if _ then _ else _] => fail
             | _ => destruct b eqn:?
             end
         end;
  cbn;
  first [ by (exists []; rewrite ?app_nil_r)
        | eexists [_]; split; [reflexivity|]; apply Forall_singleton; tac ].

Lemma AnalyzeMetrics_sequence pa metrics :
  AnalyzeMetrics pa metrics = sequence_checks (metrics_checks pa metrics) [].
Proof. reflexivity. Qed.

Lemma AnalyzeQueryPerformance_sequence pa qm :
  AnalyzeQueryPerformance pa qm = sequence_checks (query_checks pa qm) [].
Proof. reflexivity. Qed.

Lemma sequence_checks_app checks1 checks2 alerts w :
  sequence_checks (checks1 ++ checks2) alerts w =
  sequence_checks checks2 (eval (sequence_checks checks1 alerts) w)
                  (exec (sequence_checks checks1 alerts) w).
Proof.
  revert alerts w. induction checks1 as [|c checks1 IH]; intros alerts w.
  - reflexivity.
  - cbn [app sequence_checks]. unfold eval, exec, mbind, Go_bind in *.
    destruct (c alerts w) as [alerts' w']. apply IH.
Qed.

Lemma eval_sequence_checks_app checks1 checks2 alerts w :
  eval (sequence_checks (checks1 ++ checks2) alerts) w =
  eval (sequence_checks checks2 (eval (sequence_checks checks1 alerts) w))
       (exec (sequence_checks checks1 alerts) w).
Proof. unfold eval at 1. by rewrite sequence_checks_app. Qed.

Lemma eval_sequence_checks_cons check checks alerts w :
  eval (sequence_checks (check :: checks) alerts) w =
  eval (sequence_checks checks (eval (check alerts) w)) (exec (check alerts) w).
Proof. cbn [sequence_checks]. apply eval_bind. Qed.

Lemma sequence_checks_emits (P : Alert.t → Prop) checks :
  Forall (emits P) checks → emits P (sequence_checks checks).
Proof.
  induction 1 as [|c checks Hc _ IH]; intros alerts w.
  - exists []. by rewrite app_nil_r.
  - cbn [sequence_checks]. rewrite eval_bind.
    destruct (Hc alerts w) as (e1 & -> & HP1).
    destruct (IH (alerts ++ e1) (exec (c alerts) w)) as (e2 & -> & HP2).
    exists (e1 ++ e2). rewrite <- app_assoc. split; [done|].
    by apply Forall_app.
Qed.

Lemma filter_none {A} (sel : A → Prop) `{!∀ a, Decision (sel a)} (l : list A) :
  Forall (λ a, ¬ sel a) l → filter sel l = [].
Proof.
  induction 1 as [|a l Ha _ IH]; [done|].
  by rewrite filter_cons_False.
Qed.

(** When one check of a sequence always adds an alert selected by [sel],
    and no other check ever adds a selected one, the result holds exactly
    one more selected alert than the slice it started from. *)
Lemma sequence_checks_one (sel : Alert.t → Prop) `{!∀ a, Decision (sel a)}
    (Q : Alert.t → Prop) before check after :
  Forall (emits (λ a, ¬ sel a)) before →
  emits_one (λ a, sel a ∧ Q a) check →
  Forall (emits (λ a, ¬ sel a)) after →
  ∀ alerts w, ∃ a,
    filter sel (eval (sequence_checks (before ++ check :: after) alerts) w)
    = filter sel alerts ++ [a] ∧ Q a.
Proof.
  intros Hb Hc Ha alerts w.
  rewrite eval_sequence_checks_app.
  destruct (sequence_checks_emits _ _ Hb alerts w) as (e1 & -> & HP1).
  rewrite eval_sequence_checks_cons.
  destruct (Hc (alerts ++ e1) (exec (sequence_checks before alerts) w))
    as (a & -> & Hsel & HQ).
  destruct (sequence_checks_emits _ _ Ha ((alerts ++ e1) ++ [a])
    (exec (check (alerts ++ e1)) (exec (sequence_checks before alerts) w)))
    as (e2 & -> & HP2).
  exists a. split; [|done].
  rewrite !filter_app, (filter_none sel e1), (filter_none sel e2) by done.
  rewrite !app_nil_r. by rewrite filter_cons_True, filter_nil.
Qed.

(** ** Alerts of [AnalyzeMetrics] at given readings *)

Lemma connPercent_90_of_100 metrics :
  Metrics.ConnectionsActive metrics = 90 →
  Metrics.ConnectionsTotal metrics = 100 →
  connPercent metrics = float64.of_int 90.
Proof. unfold connPercent. intros -> ->. by vm_compute. Qed.

Lemma checkConnectionUsage_90_of_100 metrics :
  Metrics.ConnectionsActive metrics = 90 →
  Metrics.ConnectionsTotal metrics = 100 →
  emits_one (λ a, Alert.Type_ a = AlertTypeConnection ∧
                  Alert.Severity a = AlertSeverityHigh)
            (checkConnectionUsage NewPerformanceAnalyzer metrics).
Proof.
  intros Ha Ht alerts w. unfold eval, checkConnectionUsage.
  rewrite (connPercent_90_of_100 _ Ha Ht), Ht.
  change (0 <? 100) with true. cbv iota.
  replace (float64.gt _ _) with true by (by vm_compute).
  replace (getSeverity _ _ _ _) with AlertSeverityHigh by (by vm_compute).
  eexists. split; [reflexivity|]. done.
Qed.

Lemma checks_after_connection_emit (P : Alert.t → Prop) pa metrics :
  emits P (checkCacheHitRatio pa metrics) →
  emits P (checkCPUUsage pa metrics) →
  emits P (checkMemoryUsage pa metrics) →
  emits P (checkReplicationLag pa metrics) →
  emits P (checkLockWaits pa metrics) →
  emits P (checkDeadlocks pa metrics) →
  emits P (checkTableBloat pa metrics) →
  Forall (emits P) (tail (metrics_checks pa metrics)).
Proof. intros. repeat constructor; assumption. Qed.

Lemma only_checkConnectionUsage_emits_connection pa metrics :
  Forall (emits (λ a, ¬ Alert.Type_ a = AlertTypeConnection))
         (tail (metrics_checks pa metrics)).
Proof.
  apply checks_after_connection_emit.
  - unfold checkCacheHitRatio. run_check done.
  - unfold checkCPUUsage. run_check done.
  - unfold checkMemoryUsage. run_check done.
  - unfold checkReplicationLag. run_check done.
  - unfold checkLockWaits. run_check done.
  - unfold checkDeadlocks. run_check done.
  - unfold checkTableBloat. run_check done.
Qed.

(** C3: at 90 active connections of 100, a utilization of exactly 90
    percent, and the default thresholds, [AnalyzeMetrics] returns exactly
    one alert of the connection category, and its severity is high. *)
Theorem C3_one_connection_alert_high (metrics : Metrics.t) (w : World) :
  Metrics.ConnectionsActive metrics = 90 →
  Metrics.ConnectionsTotal metrics = 100 →
  connPercent metrics = float64.of_int 90 ∧
  ∃ a,
    filter (λ a, Alert.Type_ a = AlertTypeConnection)
           (eval (AnalyzeMetrics NewPerformanceAnalyzer metrics) w) = [a]
    ∧ Alert.Severity a = AlertSeverityHigh.
Proof.
  intros Ha Ht. split; [by apply connPercent_90_of_100|].
  rewrite AnalyzeMetrics_sequence.
  change (metrics_checks NewPerformanceAnalyzer metrics)
    with ([] ++ checkConnectionUsage NewPerformanceAnalyzer metrics ::
          tail (metrics_checks NewPerformanceAnalyzer metrics)).
  apply (sequence_checks_one (λ a, Alert.Type_ a = AlertTypeConnection)
           (λ a, Alert.Severity a = AlertSeverityHigh)).
  - constructor.
  - by apply checkConnectionUsage_90_of_100.
  - apply only_checkConnectionUsage_emits_connection.
Qed.

Lemma checkCacheHitRatio_82 metrics :
  Metrics.CacheHitRatio metrics = float64.of_int 82 →
  emits_one (λ a, Alert.Metric a = "cache_hit_ratio" ∧
                  Alert.Severity a = AlertSeverityCritical)
            (checkCacheHitRatio NewPerformanceAnalyzer metrics).
Proof.
  intros Hc alerts w. unfold eval, checkCacheHitRatio. rewrite Hc.
  replace (float64.lt _ _) with true by (by vm_compute).
  replace (getSeverityBelow _ _ _ _) with AlertSeverityCritical
    by (by vm_compute).
  eexists. split; [reflexivity|]. done.
Qed.

Lemma only_checkCacheHitRatio_emits_cache_hit_ratio pa metrics :
  emits (λ a, ¬ Alert.Metric a = "cache_hit_ratio")
        (checkConnectionUsage pa metrics) ∧
  Forall (emits (λ a, ¬ Alert.Metric a = "cache_hit_ratio"))
         (tail (tail (metrics_checks pa metrics))).
Proof.
  split; [|repeat apply Forall_cons_2; [..|apply Forall_nil_2]].
  - unfold checkConnectionUsage. run_check done.
  - unfold checkCPUUsage. run_check done.
  - unfold checkMemoryUsage. run_check done.
  - unfold checkReplicationLag. run_check done.
  - unfold checkLockWaits. run_check done.
  - unfold checkDeadlocks. run_check done.
  - unfold checkTableBloat. run_check done.
Qed.

(** C1 (amended): at a cache-hit ratio of 82 and the default thresholds
    (minimum 95, lower tiers 90 and 85), [AnalyzeMetrics] returns exactly
    one cache-hit-ratio alert, and its severity is critical, since 82 is
    at or below the lowest tier 85. *)
Theorem C1_cache_alert_at_82_is_critical (metrics : Metrics.t) (w : World) :
  Metrics.CacheHitRatio metrics = float64.of_int 82 →
  ∃ a,
    filter (λ a, Alert.Metric a = "cache_hit_ratio")
           (eval (AnalyzeMetrics NewPerformanceAnalyzer metrics) w) = [a]
    ∧ Alert.Severity a = AlertSeverityCritical.
Proof.
  intros Hc. rewrite AnalyzeMetrics_sequence.
  destruct (only_checkCacheHitRatio_emits_cache_hit_ratio
              NewPerformanceAnalyzer metrics) as [Hbefore Hafter].
  change (metrics_checks NewPerformanceAnalyzer metrics)
    with ([checkConnectionUsage NewPerformanceAnalyzer metrics] ++
          checkCacheHitRatio NewPerformanceAnalyzer metrics ::
          tail (tail (metrics_checks NewPerformanceAnalyzer metrics))).
  apply (sequence_checks_one (λ a, Alert.Metric a = "cache_hit_ratio")
           (λ a, Alert.Severity a = AlertSeverityCritical)).
  - by constructor.
  - by apply checkCacheHitRatio_82.
  - done.
Qed.

(** Witness: the snapshot with 90 active connections of 100. *)
Lemma C3_one_connection_alert_high_witness :
  connPercent snapshot_90_of_100 = float64.of_int 90 ∧
  ∃ a,
    filter (λ a, Alert.Type_ a = AlertTypeConnection)
           (eval (AnalyzeMetrics NewPerformanceAnalyzer snapshot_90_of_100)
                 world0) = [a]
    ∧ Alert.Severity a = AlertSeverityHigh.
Proof.
  apply (C3_one_connection_alert_high snapshot_90_of_100 world0);
    reflexivity.
Defined.

(** Witness: the snapshot whose only non-zero metric is a cache-hit
    ratio of 82. *)
Lemma C1_cache_alert_at_82_is_critical_witness :
  ∃ a,
    filter (λ a, Alert.Metric a = "cache_hit_ratio")
           (eval (AnalyzeMetrics NewPerformanceAnalyzer snapshot_cache_82)
                 world0) = [a]
    ∧ Alert.Severity a = AlertSeverityCritical.
Proof.
  apply (C1_cache_alert_at_82_is_critical snapshot_cache_82 world0).
  reflexivity.
Defined.

(** C1 as stated fails: on the snapshot whose only non-zero metric is a
    cache-hit ratio of 82, no alert on the cache-hit ratio has severity
    high. *)
Lemma C1_counterexample :
  ¬ ∃ a, a ∈ eval (AnalyzeMetrics NewPerformanceAnalyzer snapshot_cache_82)
                  world0
         ∧ Alert.Metric a = "cache_hit_ratio"
         ∧ Alert.Severity a = AlertSeverityHigh.
Proof.
  intros (a & Hin & _ & Hhigh).
  assert (Hall : Forall (λ a, Alert.Severity a = AlertSeverityCritical)
            (eval (AnalyzeMetrics NewPerformanceAnalyzer snapshot_cache_82)
                  world0)).
  { vm_compute. repeat constructor. }
  rewrite Forall_forall in Hall. apply Hall in Hin. congruence.
Qed.

(** ** The health score *)

Lemma wrap_small bits z :
  0 < bits → - 2 ^ (bits - 1) ≤ z < 2 ^ (bits - 1) → wrap bits z = z.
Proof.
  intros Hb Hz. unfold wrap.
  assert (H2 : 2 ^ bits = 2 * 2 ^ (bits - 1)).
  { rewrite <- Z.pow_succ_r by lia. f_equal. lia. }
  rewrite Z.mod_small; lia.
Qed.

Lemma len_app {A} (l1 l2 : list A) :
  len (l1 ++ l2) = len l1 + len l2.
Proof. unfold len. rewrite length_app. lia. Qed.

Lemma len_nonneg {A} (l : list A) : 0 ≤ len l.
Proof. unfold len. lia. Qed.

Lemma len_filter_le {A} (P : A → Prop) `{!∀ a, Decision (P a)} (l : list A) :
  len (filter P l) ≤ len l.
Proof. unfold len. pose proof (length_filter P l). lia. Qed.

(** The counting loop, started from any count [passed] that leaves room
    for the checks still to come. *)
Lemma passedChecks_from checks passed :
  0 ≤ passed → passed + len checks ≤ int_max →
  fold_left
    (λ passed check,
       if bool_decide (HealthCheck.Status check = "ok") ||
          bool_decide (HealthCheck.Status check = "healthy")
       then wrap 64 (passed + 1) else passed)
    checks passed
  = passed + len (filter passes checks).
Proof.
  revert passed. induction checks as [|c checks IH]; intros passed H0 Hmax.
  - cbn. unfold len. cbn. lia.
  - change (c :: checks) with ([c] ++ checks) in Hmax.
    rewrite len_app in Hmax. change (len [c]) with 1 in Hmax.
    pose proof (len_nonneg checks). unfold int_max in *.
    cbn [fold_left]. destruct (decide (passes c)) as [Hp|Hp].
    + rewrite filter_cons_True by done.
      replace (bool_decide _ || bool_decide _) with true.
      2:{ symmetry. destruct Hp as [->| ->]; [done|].
          apply orb_true_iff. right. by apply bool_decide_eq_true. }
      rewrite wrap_small by lia. rewrite IH by lia.
      change (c :: filter passes checks) with ([c] ++ filter passes checks).
      rewrite len_app. change (len [c]) with 1. lia.
    + rewrite filter_cons_False by done.
      replace (bool_decide _ || bool_decide _) with false.
      2:{ symmetry. apply orb_false_iff.
          split; apply bool_decide_eq_false; intros ?; apply Hp;
            [by left|by right]. }
      apply IH; lia.
Qed.

Lemma passedChecks_count checks :
  len checks ≤ int_max →
  HealthStatus.passedChecks checks = len (filter passes checks).
Proof.
  intros H. unfold HealthStatus.passedChecks.
  rewrite passedChecks_from; lia.
Qed.

Lemma with_checks_snoc hs checks check :
  with_checks hs (checks ++ [check])
  = HealthStatus.AddCheck check (with_checks hs checks).
Proof. unfold with_checks. by rewrite fold_left_app. Qed.

Lemma calculateScore_Checks hs :
  HealthStatus.Checks (HealthStatus.calculateScore hs) = HealthStatus.Checks hs.
Proof. unfold HealthStatus.calculateScore. by destruct (_ =? _). Qed.

Lemma with_checks_Checks hs checks :
  HealthStatus.Checks (with_checks hs checks) = HealthStatus.Checks hs ++ checks.
Proof.
  induction checks as [|c checks IH] using rev_ind.
  - by rewrite app_nil_r.
  - rewrite with_checks_snoc. unfold HealthStatus.AddCheck.
    rewrite calculateScore_Checks. cbn. rewrite IH. by rewrite app_assoc.
Qed.

(** What [calculateScore] stores for a non-empty check list. *)
Lemma calculateScore_nonempty hs :
  HealthStatus.Checks hs ≠ [] →
  len (HealthStatus.Checks hs) * 100 ≤ int_max →
  let hs' := HealthStatus.calculateScore hs in
  let score := 100 * len (filter passes (HealthStatus.Checks hs))
               / len (HealthStatus.Checks hs) in
  HealthStatus.Score hs' = score ∧
  HealthStatus.Status hs' =
    (if 90 <=? score then "healthy"
     else if 70 <=? score then "warning"
     else if 50 <=? score then "degraded"
     else "critical").
Proof.
  intros Hne Hmax. cbn zeta. unfold HealthStatus.calculateScore.
  set (checks := HealthStatus.Checks hs) in *.
  assert (Hlen : 0 < len checks).
  { unfold len. destruct checks; [done|]. cbn. lia. }
  pose proof (len_filter_le passes checks) as Hle.
  pose proof (len_nonneg (filter passes checks)) as Hnn.
  destruct (len checks =? 0) eqn:Hz; [lia|].
  rewrite passedChecks_count by (unfold int_max in *; lia).
  rewrite wrap_small by (unfold int_max in *; lia).
  rewrite Z.quot_div_nonneg by lia.
  rewrite (Z.mul_comm _ 100). done.
Qed.

(** The score and status after adding a non-empty list of checks to a
    health status that had none. *)
Lemma with_checks_score hs checks :
  HealthStatus.Checks hs = [] → checks ≠ [] →
  len checks * 100 ≤ int_max →
  let score :=
    100 * len (filter passes checks) / len checks in
  HealthStatus.Score (with_checks hs checks) = score ∧
  HealthStatus.Status (with_checks hs checks) =
    (if 90 <=? score then "healthy"
     else if 70 <=? score then "warning"
     else if 50 <=? score then "degraded"
     else "critical").
Proof.
  intros Hnil Hne Hmax.
  destruct (exists_last Hne) as (checks' & check & ->).
  rewrite with_checks_snoc. unfold HealthStatus.AddCheck.
  set (hs' := HealthStatus.set_Checks _ _).
  assert (Hchecks : HealthStatus.Checks hs' = checks' ++ [check]).
  { subst hs'. cbn [HealthStatus.set_Checks HealthStatus.Checks].
    by rewrite with_checks_Checks, Hnil. }
  rewrite <- Hchecks. apply calculateScore_nonempty.
  - rewrite Hchecks. by destruct checks'.
  - by rewrite Hchecks.
Qed.

(** C2 (amended): the score is 100 times the count of the checks whose
    status is ok or healthy, over the count of checks, rounded down; the
    status is healthy from 90, warning from 70, degraded from 50, critical
    below; with no check the score is 0 and the status unknown; and the
    statuses ok, ok, warning, ok give score 75 and status warning. *)
Theorem C2_score_counts_passed_checks
    (clusterID : string) (w : World) (checks : list HealthCheck.t) :
  len checks * 100 ≤ int_max →
  let hs :=
    with_checks (eval (HealthStatus.NewHealthStatus clusterID) w) checks in
  let score :=
    100 * len (filter passes checks) / len checks in
  (checks = [] →
     HealthStatus.Score hs = 0 ∧ HealthStatus.Status hs = "unknown") ∧
  (checks ≠ [] →
     HealthStatus.Score hs = score ∧
     HealthStatus.Status hs =
       (if 90 <=? score then "healthy"
        else if 70 <=? score then "warning"
        else if 50 <=? score then "degraded"
        else "critical")) ∧
  (HealthCheck.Status <$> checks = ["ok"; "ok"; "warning"; "ok"] →
     HealthStatus.Score hs = 75 ∧ HealthStatus.Status hs = "warning").
Proof.
  intros Hmax hs score.
  split; [|split].
  - by intros ->.
  - intros Hne. by apply with_checks_score.
  - intros Hst.
    destruct (with_checks_score
                (eval (HealthStatus.NewHealthStatus clusterID) w) checks)
      as [Hscore Hstatus]; [done|by intros ->|done|].
    subst hs. rewrite Hscore, Hstatus. clear Hscore Hstatus.
    destruct checks as [|[] [|[] [|[] [|[] [|]]]]]; try discriminate Hst.
    cbn in Hst. injection Hst as -> -> -> ->. by vm_compute.
Qed.

(** Witness: four checks with statuses ok, ok, warning, ok. *)
Lemma C2_score_counts_passed_checks_witness :
  let checks := check_with_status <$> ["ok"; "ok"; "warning"; "ok"] in
  let hs := with_checks (eval (HealthStatus.NewHealthStatus "c1") world0)
                        checks in
  HealthStatus.Score hs = 75 ∧ HealthStatus.Status hs = "warning".
Proof.
  refine (proj2 (proj2 (C2_score_counts_passed_checks "c1" world0
            (check_with_status <$> ["ok"; "ok"; "warning"; "ok"]) _)) _).
  - by vm_compute.
  - reflexivity.
Defined.

(** C2 as stated fails: a single check whose status is error is not in
    warning, so the stated formula gives 100, while the code counts no
    passed check and stores 0, with status critical. *)
Lemma C2_counterexample :
  let checks := [check_with_status "error"] in
  let hs := with_checks (eval (HealthStatus.NewHealthStatus "c1") world0)
                        checks in
  score_of_not_warning checks = 100 ∧
  HealthStatus.Score hs = 0 ∧ HealthStatus.Status hs = "critical" ∧
  HealthStatus.Score hs ≠ score_of_not_warning checks.
Proof. by vm_compute. Qed.

(** ** The checks of [GenerateHealthStatus] *)

Lemma countAlerts_Checks alerts health :
  HealthStatus.Checks (countAlerts alerts health).1
  = HealthStatus.Checks health.
Proof.
  unfold countAlerts. generalize 0 as criticalCount.
  revert health. induction alerts as [|a alerts IH]; intros health cc.
  - done.
  - cbn [fold_left].
    destruct (bool_decide (Alert.Status a = "active")); [|apply IH].
    destruct (bool_decide (Alert.Severity a = AlertSeverityCritical));
      by rewrite IH.
Qed.

(** The checks [GenerateHealthStatus] adds, by name and status, in order:
    connectivity, then the connection pool when the snapshot has a
    positive connection total, then cache, CPU and memory. *)
Lemma GenerateHealthStatus_checks pa clusterID metrics alerts w :
  ∃ health checks,
    HealthStatus.Checks health = [] ∧
    eval (GenerateHealthStatus pa clusterID metrics alerts) w
    = with_checks health checks ∧
    (λ c, (HealthCheck.Name c, HealthCheck.Status c)) <$> checks =
      [("Database Connectivity", "ok")] ++
      (if 0 <? Metrics.ConnectionsTotal metrics then
         [("Connection Pool",
           if float64.gt (connPercent metrics)
                         (MaxConnectionsPercent (thresholds pa))
           then "warning" else "ok")]
       else []) ++
      [("Cache Performance",
        if float64.lt (Metrics.CacheHitRatio metrics)
                      (MinCacheHitRatio (thresholds pa))
        then "warning" else "ok");
       ("CPU Usage",
        if float64.gt (Metrics.CPUUsage metrics) (MaxCPUPercent (thresholds pa))
        then "warning" else "ok");
       ("Memory Usage",
        if float64.gt (Metrics.MemoryUsage metrics)
                      (MaxMemoryPercent (thresholds pa))
        then "warning" else "ok")].
Proof.
  unfold GenerateHealthStatus, eval, HealthStatus.NewHealthStatus, time_Now,
    mbind, Go_bind, mret, Go_ret.
  cbn [fst snd ticks readings].
  pose proof (countAlerts_Checks alerts
    (HealthStatus.mk clusterID "unknown" 0 0 0 (readings w (ticks w)) []))
    as Hc.
  destruct (countAlerts alerts _) as [health criticalCount]. cbn in Hc.
  exists (HealthStatus.set_CriticalAlerts criticalCount health).
  destruct (0 <? Metrics.ConnectionsTotal metrics);
    cbn [fst snd ticks readings].
  - eexists [_; _; _; _; _]. split; [exact Hc|].
    split; [unfold with_checks; cbn [fold_left]; reflexivity|].
    reflexivity.
  - eexists [_; _; _; _]. split; [exact Hc|].
    split; [unfold with_checks; cbn [fold_left]; reflexivity|].
    reflexivity.
Qed.

(** C10: [GenerateHealthStatus] always puts first a Database Connectivity
    check with status ok; so at least one of its at most five checks
    passes, the score is at least 20, and the status is never unknown. *)
Theorem C10_health_status_has_connectivity_check
    (pa : PerformanceAnalyzer) (clusterID : string) (metrics : Metrics.t)
    (alerts : list Alert.t) (w : World) :
  let hs := eval (GenerateHealthStatus pa clusterID metrics alerts) w in
  (∃ check rest,
     HealthStatus.Checks hs = check :: rest ∧
     HealthCheck.Name check = "Database Connectivity" ∧
     HealthCheck.Status check = "ok") ∧
  1 ≤ len (filter passes (HealthStatus.Checks hs)) ∧
  len (HealthStatus.Checks hs) ≤ 5 ∧
  20 ≤ HealthStatus.Score hs ∧
  HealthStatus.Status hs ≠ "unknown".
Proof.
  intros hs. subst hs.
  destruct (GenerateHealthStatus_checks pa clusterID metrics alerts w)
    as (health & checks & Hnil & -> & Hchecks).
  rewrite with_checks_Checks, Hnil, app_nil_l.
  assert (Hshape : checks ≠ [] ∧ len checks * 100 ≤ int_max).
  { apply (f_equal length) in Hchecks.
    rewrite length_fmap, !length_app in Hchecks. unfold len.
    split; [by destruct checks|].
    destruct (0 <? _); cbn in Hchecks; rewrite Hchecks; by vm_compute. }
  destruct Hshape as [Hne Hmax].
  destruct (with_checks_score health checks Hnil Hne Hmax) as [-> ->].
  clear Hne Hmax Hnil.
  destruct (0 <? _); cbn [app] in Hchecks;
    destruct checks as [|[] [|[] [|[] [|[] [|[] [|]]]]]];
    try discriminate Hchecks; cbn in Hchecks.
  - injection Hchecks as -> -> -> -> -> -> -> -> -> ->.
    split; [eexists _, _; split; [reflexivity|split; reflexivity]|].
    destruct (float64.gt _ _), (float64.lt _ _), (float64.gt _ _),
      (float64.gt _ _); by vm_compute.
  - injection Hchecks as -> -> -> -> -> -> -> ->.
    split; [eexists _, _; split; [reflexivity|split; reflexivity]|].
    destruct (float64.lt _ _), (float64.gt _ _), (float64.gt _ _);
      by vm_compute.
Qed.

(** ** Snapshots without a connection total *)

Lemma checkConnectionUsage_without_total (P : Alert.t → Prop) pa metrics :
  Metrics.ConnectionsTotal metrics ≤ 0 →
  emits P (checkConnectionUsage pa metrics).
Proof.
  intros Ht alerts w. unfold checkConnectionUsage.
  replace (0 <? Metrics.ConnectionsTotal metrics) with false
    by (symmetry; apply Z.ltb_ge; lia).
  exists []. by rewrite app_nil_r.
Qed.

(** C9: when the connection total of the snapshot is zero or negative, the
    guard keeps the percentage from being computed: [AnalyzeMetrics]
    returns no alert of the connection category, whatever the active
    count, and [GenerateHealthStatus] adds no Connection Pool check. *)
Theorem C9_no_connection_percentage_without_total
    (pa : PerformanceAnalyzer) (clusterID : string) (metrics : Metrics.t)
    (alerts : list Alert.t) (w w' : World) :
  Metrics.ConnectionsTotal metrics ≤ 0 →
  Forall (λ a, Alert.Type_ a ≠ AlertTypeConnection)
         (eval (AnalyzeMetrics pa metrics) w) ∧
  Forall (λ c, HealthCheck.Name c ≠ "Connection Pool")
         (HealthStatus.Checks
            (eval (GenerateHealthStatus pa clusterID metrics alerts) w')).
Proof.
  intros Ht. split.
  - rewrite AnalyzeMetrics_sequence.
    destruct (sequence_checks_emits
                (λ a, Alert.Type_ a ≠ AlertTypeConnection)
                (metrics_checks pa metrics)) with (alerts := @nil Alert.t)
                                                  (w := w)
      as (extra & -> & Hextra); [|done].
    apply Forall_cons_2.
    + by apply checkConnectionUsage_without_total.
    + apply only_checkConnectionUsage_emits_connection.
  - destruct (GenerateHealthStatus_checks pa clusterID metrics alerts w')
      as (health & checks & Hnil & -> & Hchecks).
    rewrite with_checks_Checks, Hnil, app_nil_l.
    replace (0 <? Metrics.ConnectionsTotal metrics) with false in Hchecks
      by (symmetry; apply Z.ltb_ge; lia).
    cbn [app] in Hchecks.
    destruct checks as [|[] [|[] [|[] [|[] [|]]]]];
      try discriminate Hchecks; cbn in Hchecks.
    injection Hchecks as -> -> -> -> -> -> -> ->.
    repeat apply Forall_cons_2; try apply Forall_nil_2; discriminate.
Qed.

(** Witness: a snapshot with seven active connections and no total. *)
Lemma C9_no_connection_percentage_without_total_witness :
  Forall (λ a, Alert.Type_ a ≠ AlertTypeConnection)
         (eval (AnalyzeMetrics NewPerformanceAnalyzer snapshot_active_no_total)
               world0) ∧
  Forall (λ c, HealthCheck.Name c ≠ "Connection Pool")
         (HealthStatus.Checks
            (eval (GenerateHealthStatus NewPerformanceAnalyzer "c1"
                     snapshot_active_no_total []) world0)).
Proof.
  apply (C9_no_connection_percentage_without_total NewPerformanceAnalyzer
           "c1" snapshot_active_no_total [] world0 world0).
  by vm_compute.
Defined.

(** ** What every alert carries *)

Ltac alert_fields :=
  unfold Alert.AddAction;
  cbn [Alert.set_Metric Alert.set_Threshold Alert.set_CurrentValue
       Alert.set_Metadata Alert.set_Actions Alert.set_Timestamp
       Alert.ID Alert.Type_ Alert.Severity Alert.ClusterID Alert.Title
       Alert.Description Alert.Metric Alert.Threshold Alert.CurrentValue
       Alert.Timestamp Alert.Status Alert.AcknowledgedAt
       Alert.AcknowledgedBy Alert.ResolvedAt Alert.Metadata Alert.Actions
       app].

Ltac carries :=
  unfold carries_metric; alert_fields;
  split; [discriminate|];
  split; [reflexivity|];
  split; [|discriminate];
  intros t Ht; unfold configured_threshold in Ht;
  repeat case_decide; congruence.

Lemma metrics_checks_carry pa metrics :
  Forall (emits (carries_metric pa metrics)) (metrics_checks pa metrics).
Proof.
  repeat apply Forall_cons_2; [..|apply Forall_nil_2].
  - unfold checkConnectionUsage. run_check carries.
  - unfold checkCacheHitRatio. run_check carries.
  - unfold checkCPUUsage. run_check carries.
  - unfold checkMemoryUsage. run_check carries.
  - unfold checkReplicationLag. run_check carries.
  - unfold checkLockWaits. run_check carries.
  - unfold checkDeadlocks. run_check carries.
  - unfold checkTableBloat. run_check carries.
Qed.

Lemma query_checks_carry pa qm :
  Forall (emits (carries_query pa qm)) (query_checks pa qm).
Proof.
  repeat apply Forall_cons_2; [..|apply Forall_nil_2].
  - unfold checkSlowQuery.
    run_check ltac:(unfold carries_query; alert_fields;
                    split; [discriminate|intros _; repeat split]).
  - unfold checkTempBlocks.
    run_check ltac:(unfold carries_query; alert_fields;
                    split; discriminate).
Qed.

(** C7 (amended): every alert of [AnalyzeMetrics] and of
    [AnalyzeQueryPerformance] suggests at least one action; every alert of
    [AnalyzeMetrics] names its metric and carries the observed value of
    it, and the threshold configured for it when there is one; the
    slow-query alert carries the execution time and the slow-query
    threshold. *)
Theorem C7_alerts_carry_metric_value_and_actions
    (pa : PerformanceAnalyzer) (metrics : Metrics.t) (qm : QueryMetrics.t)
    (w w' : World) :
  Forall (carries_metric pa metrics) (eval (AnalyzeMetrics pa metrics) w) ∧
  Forall (carries_query pa qm) (eval (AnalyzeQueryPerformance pa qm) w').
Proof.
  split.
  - rewrite AnalyzeMetrics_sequence.
    destruct (sequence_checks_emits _ _ (metrics_checks_carry pa metrics)
                [] w) as (extra & -> & Hextra).
    done.
  - rewrite AnalyzeQueryPerformance_sequence.
    destruct (sequence_checks_emits _ _ (query_checks_carry pa qm)
                [] w') as (extra & -> & Hextra).
    done.
Qed.

(** C7 as stated fails: the alert on temporary blocks has no metric name;
    its threshold and current value are left at zero. *)
Lemma C7_counterexample :
  ¬ Forall (λ a, Alert.Metric a ≠ "")
      (eval (AnalyzeQueryPerformance NewPerformanceAnalyzer query_temp_blocks)
            world0).
Proof.
  intros Hall.
  assert (Hin : Exists (λ a, Alert.Metric a = "")
            (eval (AnalyzeQueryPerformance NewPerformanceAnalyzer
                     query_temp_blocks) world0)).
  { vm_compute. by constructor. }
  apply Exists_exists in Hin as (a & Hin & Hempty).
  rewrite Forall_forall in Hall. by apply (Hall a).
Qed.

(** ** Two analyses of one snapshot *)

Lemma eval_twice {A} (m : Go A) (w : World) :
  eval (twice m) w = (eval m w, eval m (exec m w)).
Proof.
  unfold twice, eval, exec, mbind, Go_bind, mret, Go_ret.
  destruct (m w) as [r1 w1]. cbn. by destruct (m w1).
Qed.

Lemma sequence_checks_clock_blind checks :
  Forall clock_blind checks → clock_blind (sequence_checks checks).
Proof.
  induction 1 as [|c checks Hc _ IH]; intros alerts1 alerts2 w1 w2 Hsame.
  - done.
  - rewrite !eval_sequence_checks_cons. apply IH. by apply Hc.
Qed.

Ltac run_blind :=
  intros alerts1 alerts2 w1 w2 Hsame; unfold eval;
  repeat match goal with
         | |- context [if ?b then _ else _] =>
             lazymatch b with
             | context [if _ then _ else _] => fail
             | _ => destruct b eqn:?
             end
         end;
  cbn;
  first [ exact Hsame
        | apply Forall2_app; [exact Hsame|];
          constructor; [reflexivity|constructor] ].

Lemma metrics_checks_clock_blind pa metrics :
  Forall clock_blind (metrics_checks pa metrics).
Proof.
  repeat apply Forall_cons_2; [..|apply Forall_nil_2].
  - unfold checkConnectionUsage. run_blind.
  - unfold checkCacheHitRatio. run_blind.
  - unfold checkCPUUsage. run_blind.
  - unfold checkMemoryUsage. run_blind.
  - unfold checkReplicationLag. run_blind.
  - unfold checkLockWaits. run_blind.
  - unfold checkDeadlocks. run_blind.
  - unfold checkTableBloat. run_blind.
Qed.

(** C8 (amended): [AnalyzeMetrics] invoked twice on one snapshot with the
    same thresholds returns two alert lists of equal length whose alerts
    agree, position by position, on every field but [Timestamp], which
    records the clock reading at which the alert was created. *)
Theorem C8_analysis_repeats_but_for_timestamps
    (pa : PerformanceAnalyzer) (metrics : Metrics.t) (w : World) :
  let r := eval (twice (AnalyzeMetrics pa metrics)) w in
  length r.1 = length r.2 ∧ Forall2 same_but_Timestamp r.1 r.2.
Proof.
  cbn zeta. rewrite eval_twice. cbn [fst snd].
  assert (H : Forall2 same_but_Timestamp
            (eval (AnalyzeMetrics pa metrics) w)
            (eval (AnalyzeMetrics pa metrics)
                  (exec (AnalyzeMetrics pa metrics) w))).
  { rewrite AnalyzeMetrics_sequence.
    apply sequence_checks_clock_blind; [|constructor].
    apply metrics_checks_clock_blind. }
  split; [|exact H]. by eapply Forall2_length.
Qed.

(** C8 as stated fails: the clock of [world0] advances between the two
    invocations, and the two alerts on the cache-hit ratio differ in their
    [Timestamp]. *)
Lemma C8_counterexample :
  let r := eval (twice (AnalyzeMetrics NewPerformanceAnalyzer
                          snapshot_cache_82)) world0 in
  r.1 ≠ r.2.
Proof.
  cbn zeta. intros H.
  apply (f_equal (fmap Alert.Timestamp)) in H.
  vm_compute in H. discriminate H.
Qed.

(** ** The registry *)

Lemma collect_keys (l : list (string * nat)) (clusters : list string) :
  fold_left (λ clusters '(clusterID, _), clusters ++ [clusterID]) l clusters
  = clusters ++ l.*1.
Proof.
  revert clusters. induction l as [|[clusterID pool] l IH]; intros clusters.
  - by rewrite app_nil_r.
  - cbn [fold_left fmap list_fmap fst]. rewrite IH.
    by rewrite <- app_assoc.
Qed.

Lemma GetAllClusters_keys w :
  eval GetAllClusters w = (map_to_list (pools w)).*1.
Proof.
  unfold GetAllClusters, eval, get_pools, mbind, Go_bind, mret, Go_ret.
  cbn [fst snd]. by rewrite collect_keys.
Qed.

Lemma elem_of_GetAllClusters clusterID w :
  clusterID ∈ eval GetAllClusters w ↔ is_Some (pools w !! clusterID).
Proof.
  rewrite GetAllClusters_keys, list_elem_of_fmap. split.
  - intros ([k pool] & -> & Hin). apply elem_of_map_to_list in Hin. eauto.
  - intros [pool Hp]. exists (clusterID, pool).
    split; [done|]. by apply elem_of_map_to_list.
Qed.

Lemma GetPool_lookup clusterID w :
  eval (GetPool clusterID) w =
    match pools w !! clusterID with
    | Some pool => Ok pool
    | None => Err (ErrNoPool clusterID)
    end.
Proof.
  unfold GetPool, eval, get_pools, mbind, Go_bind, mret, Go_ret.
  by destruct (pools w !! clusterID).
Qed.

(** C5: when the id is already registered, [AddCluster] fails with
    AlreadyExists whatever the configuration and the server, and leaves
    the world as it was: no pool object is built, and the registered pool
    is still returned by [GetPool], untouched, and answers health checks
    as before. *)
Theorem C5_duplicate_id_is_rejected
    (pgx : Pgx) (clusterID : string) (config : ConnectionConfig)
    (w : World) (pool : nat) :
  pools w !! clusterID = Some pool →
  let r := AddCluster pgx clusterID config w in
  r.1 = Some (ErrClusterExists clusterID) ∧
  kind (ErrClusterExists clusterID) = AlreadyExists ∧
  r.2 = w ∧
  eval (GetPool clusterID) (r.2) = Ok pool ∧
  heap (r.2) !! pool = heap w !! pool ∧
  eval (HealthCheck pgx clusterID) (r.2) = eval (HealthCheck pgx clusterID) w.
Proof.
  intros Hp. cbn zeta.
  assert (Hr : AddCluster pgx clusterID config w
               = (Some (ErrClusterExists clusterID), w)).
  { unfold AddCluster, get_pools, mbind, Go_bind, mret, Go_ret.
    rewrite bool_decide_eq_true_2; [done|]. rewrite Hp. eauto. }
  rewrite Hr. cbn [fst snd]. rewrite GetPool_lookup, Hp. by repeat split.
Qed.

(** Witness: a second registration of c1, after a first one succeeded. *)
Lemma C5_duplicate_id_is_rejected_witness :
  let r := AddCluster pgx_unreachable "c1" config0 world_registered in
  r.1 = Some (ErrClusterExists "c1") ∧
  kind (ErrClusterExists "c1") = AlreadyExists ∧
  r.2 = world_registered ∧
  eval (GetPool "c1") (r.2) = Ok 0%nat ∧
  heap (r.2) !! 0%nat = heap world_registered !! 0%nat ∧
  eval (HealthCheck pgx_unreachable "c1") (r.2)
  = eval (HealthCheck pgx_unreachable "c1") world_registered.
Proof.
  apply (C5_duplicate_id_is_rejected pgx_unreachable "c1" config0
           world_registered 0%nat).
  by vm_compute.
Defined.

(** C4 (amended): when the id is not yet registered and the connectivity
    probe of the configuration fails, [AddCluster] returns a connection
    error, closes the pool it had built, and leaves the registry
    unchanged: the id is absent from the list of cluster ids and
    [GetPool] on it fails with not-found. *)
Theorem C4_failed_probe_registers_nothing
    (pgx : Pgx) (clusterID : string) (config : ConnectionConfig)
    (w : World) (cause : error) :
  pools w !! clusterID = None →
  probe_fails pgx config cause →
  let r := AddCluster pgx clusterID config w in
  r.1 = Some (ErrPing cause) ∧
  kind (ErrPing cause) = ConnectionError ∧
  (∃ pool poolConfig,
     heap w !! pool = None ∧
     heap (r.2) = <[pool := mkPool poolConfig true]> (heap w)) ∧
  pools (r.2) = pools w ∧
  (clusterID ∉ eval GetAllClusters (r.2)) ∧
  eval (GetPool clusterID) (r.2) = Err (ErrNoPool clusterID) ∧
  kind (ErrNoPool clusterID) = NotFound.
Proof.
  intros Hnone (poolConfig & Hparse & Hnew & Hping). cbn zeta.
  assert (Hfresh : heap w !! fresh (dom (heap w)) = None).
  { apply not_elem_of_dom, is_fresh. }
  assert (Hr : AddCluster pgx clusterID config w =
    (Some (ErrPing cause),
     mkWorld (readings w) (ticks w) (log w)
       (<[fresh (dom (heap w)) :=
            mkPool (configurePool config poolConfig) true]> (heap w))
       (pools w))).
  { unfold AddCluster, get_pools, new_pool, pool_Ping, pool_Close,
      mbind, Go_bind, mret, Go_ret.
    rewrite bool_decide_eq_false_2
      by (rewrite Hnone; apply is_Some_None).
    rewrite Hparse, Hnew. cbn [heap fst snd].
    rewrite lookup_insert_eq, Hping. cbn [heap readings ticks log pools].
    by rewrite alter_insert_eq. }
  rewrite Hr. cbn [fst snd heap pools].
  split; [done|]. split; [done|]. split; [eauto|]. split; [done|].
  split.
  - rewrite elem_of_GetAllClusters. cbn [pools]. rewrite Hnone.
    apply is_Some_None.
  - rewrite GetPool_lookup. cbn [pools]. by rewrite Hnone.
Qed.

(** Witness: the registration of c2 on an unreachable host. *)
Lemma C4_failed_probe_registers_nothing_witness :
  let r := AddCluster pgx_unreachable "c2" config0 world_registered in
  r.1 = Some (ErrPing (ErrDriver "connection refused")) ∧
  kind (ErrPing (ErrDriver "connection refused")) = ConnectionError ∧
  (∃ pool poolConfig,
     heap world_registered !! pool = None ∧
     heap (r.2) = <[pool := mkPool poolConfig true]> (heap world_registered)) ∧
  pools (r.2) = pools world_registered ∧
  ("c2" ∉ eval GetAllClusters (r.2)) ∧
  eval (GetPool "c2") (r.2) = Err (ErrNoPool "c2") ∧
  kind (ErrNoPool "c2") = NotFound.
Proof.
  apply (C4_failed_probe_registers_nothing pgx_unreachable "c2" config0
           world_registered (ErrDriver "connection refused")).
  - by vm_compute.
  - eexists. split; [reflexivity|]. split; reflexivity.
Defined.

(** C4 as stated fails for a registry that already holds the id: the
    duplicate is rejected before the probe, with AlreadyExists, and the id
    stays registered. *)
Lemma C4_counterexample :
  ¬ failed_probe_as_stated pgx_unreachable "c1" config0 world_registered.
Proof.
  intros H.
  destruct (H (ErrDriver "connection refused")) as ((err & Herr & Hk) & _).
  - eexists. split; [reflexivity|]. split; reflexivity.
  - vm_compute in Herr. injection Herr as <-. discriminate Hk.
Qed.

(** ** Failure isolation of the sub-collections *)

Lemma rows_same_heap pgx pool w w' :
  heap w' = heap w →
  eval (pool_Scan pgx pool) w' = eval (pool_Scan pgx pool) w.
Proof. intros Hh. unfold pool_Scan, eval. cbn [fst]. by rewrite Hh. Qed.

(** A sub-collection that leaves the world alone, wrapped in its warning,
    hands on the record it returns and at most appends to the log. *)
Lemma warn_on_error_run what (collect : Go (Metrics.t * option error)) r w :
  collect w = (r, w) →
  ∃ w', warn_on_error what collect w = (r.1, w') ∧ heap w' = heap w.
Proof.
  intros Hc. unfold warn_on_error, logf, mbind, Go_bind, mret, Go_ret.
  rewrite Hc. destruct r as [metrics [err|]]; eauto.
Qed.

(** Each sub-collection leaves the world alone and returns the record
    with its own fields set: to the scanned values when its query
    succeeded, to what they were when it failed. *)

Lemma collectConnectionMetrics_run pgx pool metrics w :
  collectConnectionMetrics pgx pool metrics w =
  (let row := connectionRow (eval (pool_Scan pgx pool) w) in
   (Metrics.set_Connections
      (match row with
       | Ok (active, _) => active
       | Err _ => Metrics.ConnectionsActive metrics
       end)
      (match row with
       | Ok (_, maxConn) => maxConn
       | Err _ => Metrics.ConnectionsTotal metrics
       end) metrics,
    match row with Ok _ => None | Err err => Some err end), w).
Proof.
  unfold collectConnectionMetrics, pool_Scan, eval, mbind, Go_bind.
  cbn [fst]. destruct (connectionRow _) as [[]|]; by destruct metrics.
Qed.

Lemma collectCacheMetrics_run pgx pool metrics w :
  collectCacheMetrics pgx pool metrics w =
  (let row := cacheRow (eval (pool_Scan pgx pool) w) in
   (Metrics.set_CacheHitRatio
      (or_default row (Metrics.CacheHitRatio metrics)) metrics,
    match row with Ok _ => None | Err err => Some err end), w).
Proof.
  unfold collectCacheMetrics, pool_Scan, eval, mbind, Go_bind.
  cbn [fst]. destruct (cacheRow _); by destruct metrics.
Qed.

Lemma collectTransactionMetrics_run pgx pool metrics w :
  collectTransactionMetrics pgx pool metrics w =
  (let row := transactionRow (eval (pool_Scan pgx pool) w) in
   (Metrics.set_TransactionsPerSec
      (match row with
       | Ok totalTxn =>
           float64.div (float64.of_int totalTxn) (float64.of_int 60)
       | Err _ => Metrics.TransactionsPerSec metrics
       end) metrics,
    match row with Ok _ => None | Err err => Some err end), w).
Proof.
  unfold collectTransactionMetrics, pool_Scan, eval, mbind, Go_bind.
  cbn [fst]. destruct (transactionRow _); by destruct metrics.
Qed.

Lemma collectLockMetrics_run pgx pool metrics w :
  collectLockMetrics pgx pool metrics w =
  (let rows := eval (pool_Scan pgx pool) w in
   (Metrics.set_DeadlockCount
      (match lockRow rows with
       | Ok _ => or_default (deadlocksRow rows) (Metrics.DeadlockCount metrics)
       | Err _ => Metrics.DeadlockCount metrics
       end)
      (Metrics.set_LockWaits
         (or_default (lockRow rows) (Metrics.LockWaits metrics)) metrics),
    match lockRow rows with Ok _ => None | Err err => Some err end), w).
Proof.
  unfold collectLockMetrics, pool_Scan, eval, mbind, Go_bind.
  cbn [fst]. destruct (lockRow _); [|by destruct metrics].
  destruct (deadlocksRow _); by destruct metrics.
Qed.

Lemma collectReplicationMetrics_run pgx pool metrics w :
  collectReplicationMetrics pgx pool metrics w =
  (let row := replicationRow (eval (pool_Scan pgx pool) w) in
   (Metrics.set_ReplicationLag
      (or_default row (Metrics.ReplicationLag metrics)) metrics,
    match row with Ok _ => None | Err err => Some err end), w).
Proof.
  unfold collectReplicationMetrics, pool_Scan, eval, mbind, Go_bind.
  cbn [fst]. destruct (replicationRow _); by destruct metrics.
Qed.

Lemma collectBloatMetrics_run pgx pool metrics w :
  collectBloatMetrics pgx pool metrics w =
  (let row := bloatRow (eval (pool_Scan pgx pool) w) in
   (Metrics.set_TableBloat
      (or_default row (Metrics.TableBloat metrics)) metrics,
    match row with Ok _ => None | Err err => Some err end), w).
Proof.
  unfold collectBloatMetrics, pool_Scan, eval, mbind, Go_bind.
  cbn [fst]. destruct (bloatRow _); by destruct metrics.
Qed.

Lemma collectDiskIOMetrics_run pgx pool metrics w :
  collectDiskIOMetrics pgx pool metrics w =
  (let row := diskIORow (eval (pool_Scan pgx pool) w) in
   (Metrics.set_DiskIO
      (match row with
       | Ok (blocksRead, _) =>
           float64.mul (float64.of_int blocksRead) (float64.of_int 8)
       | Err _ => Metrics.DiskIORead metrics
       end)
      (match row with
       | Ok (_, blocksWritten) =>
           float64.mul (float64.of_int blocksWritten) (float64.of_int 8)
       | Err _ => Metrics.DiskIOWrite metrics
       end) metrics,
    match row with Ok _ => None | Err err => Some err end), w).
Proof.
  unfold collectDiskIOMetrics, pool_Scan, eval, mbind, Go_bind.
  cbn [fst]. destruct (diskIORow _) as [[]|]; by destruct metrics.
Qed.

(** One step of [CollectClusterMetrics]: run the wrapped sub-collection
    that comes next, and bring its rows back to those of the world the
    call started in. *)
Ltac sub_collect run Hheap :=
  match goal with
  | |- context [warn_on_error ?what (?c ?pgx ?pool ?m) ?w1] =>
      let w2 := fresh "w" in
      let Hrun := fresh "Hrun" in
      let Hh := fresh "Hh" in
      destruct (warn_on_error_run what (c pgx pool m) _ w1 (run pgx pool m w1))
        as (w2 & Hrun & Hh);
      rewrite Hrun; clear Hrun;
      rewrite (rows_same_heap pgx pool _ w1 Hheap);
      rewrite Hheap in Hh; cbv zeta; cbn [fst snd]
  end.

(** C6: for a registered cluster, [CollectClusterMetrics] always returns a
    snapshot, and each field of it depends on the outcome of its own
    sub-collection only: the scanned value when that query succeeded, the
    zero value when it failed, whatever the other six did. *)
Theorem C6_sub_collections_are_isolated
    (pgx : Pgx) (clusterID : string) (w : World) (pool : nat) :
  pools w !! clusterID = Some pool →
  let rows := eval (pool_Scan pgx pool) w in
  ∃ metrics,
    eval (CollectClusterMetrics pgx clusterID) w = Ok metrics ∧
    (Metrics.ConnectionsActive metrics, Metrics.ConnectionsTotal metrics)
      = or_default (connectionRow rows) (0, 0) ∧
    Metrics.CacheHitRatio metrics
      = or_default (cacheRow rows) float64.zero ∧
    Metrics.TransactionsPerSec metrics
      = match transactionRow rows with
        | Ok totalTxn =>
            float64.div (float64.of_int totalTxn) (float64.of_int 60)
        | Err _ => float64.zero
        end ∧
    Metrics.LockWaits metrics = or_default (lockRow rows) 0 ∧
    Metrics.DeadlockCount metrics
      = match lockRow rows with
        | Ok _ => or_default (deadlocksRow rows) 0
        | Err _ => 0
        end ∧
    Metrics.ReplicationLag metrics = or_default (replicationRow rows) 0 ∧
    Metrics.TableBloat metrics = or_default (bloatRow rows) float64.zero ∧
    (Metrics.DiskIORead metrics, Metrics.DiskIOWrite metrics)
      = match diskIORow rows with
        | Ok (blocksRead, blocksWritten) =>
            (float64.mul (float64.of_int blocksRead) (float64.of_int 8),
             float64.mul (float64.of_int blocksWritten) (float64.of_int 8))
        | Err _ => (float64.zero, float64.zero)
        end.
Proof.
  intros Hp. cbn zeta.
  set (rows := eval (pool_Scan pgx pool) w).
  unfold CollectClusterMetrics, Metrics.NewMetrics, GetPool, get_pools,
    time_Now, eval, mbind, Go_bind, mret, Go_ret.
  cbn [pools fst snd]. rewrite Hp.
  set (w1 := mkWorld _ _ _ _ _).
  assert (Hh : heap w1 = heap w) by done. clearbody w1.
  sub_collect collectConnectionMetrics_run Hh.
  sub_collect collectCacheMetrics_run Hh0.
  sub_collect collectTransactionMetrics_run Hh1.
  sub_collect collectLockMetrics_run Hh2.
  sub_collect collectReplicationMetrics_run Hh3.
  sub_collect collectBloatMetrics_run Hh4.
  sub_collect collectDiskIOMetrics_run Hh5.
  unfold logf, mret, Go_ret. cbn [fst].
  eexists. split; [reflexivity|].
  subst rows.
  cbn [Metrics.set_Connections Metrics.set_CacheHitRatio
       Metrics.set_TransactionsPerSec Metrics.set_LockWaits
       Metrics.set_DeadlockCount Metrics.set_ReplicationLag
       Metrics.set_TableBloat Metrics.set_DiskIO
       Metrics.ConnectionsActive Metrics.ConnectionsTotal
       Metrics.CacheHitRatio Metrics.TransactionsPerSec Metrics.LockWaits
       Metrics.DeadlockCount Metrics.ReplicationLag Metrics.TableBloat
       Metrics.DiskIORead Metrics.DiskIOWrite].
  repeat apply conj; try reflexivity.
  - by destruct (connectionRow _) as [[]|].
  - by destruct (diskIORow _) as [[]|].
Qed.

(** Witness: a server whose cache-ratio query fails; the ratio stays at
    zero and the connection counts are those of the connection query. *)
Lemma C6_sub_collections_are_isolated_witness :
  ∃ metrics,
    eval (CollectClusterMetrics pgx_cache_query_fails "c1") world_registered
    = Ok metrics ∧
    Metrics.CacheHitRatio metrics = float64.zero ∧
    (Metrics.ConnectionsActive metrics, Metrics.ConnectionsTotal metrics)
    = (12, 100).
Proof.
  destruct (C6_sub_collections_are_isolated pgx_cache_query_fails "c1"
              world_registered 0%nat)
    as (metrics & Hmetrics & Hconnections & Hcache & _).
  - by vm_compute.
  - exists metrics. split; [exact Hmetrics|].
    split; [exact Hcache|exact Hconnections].
Defined.

(** * Further properties *)

(** ** Registering a cluster *)

Lemma AddCluster_run_success pgx clusterID config w poolConfig :
  pools w !! clusterID = None →
  probe_succeeds pgx config poolConfig →
  AddCluster pgx clusterID config w =
  (None,
   mkWorld (readings w) (ticks w)
     (log w ++ [(InfoLevel, Sprintf "Successfully connected to cluster %s"
                              [ArgS clusterID])])
     (<[fresh (dom (heap w)) :=
          mkPool (configurePool config poolConfig) false]> (heap w))
     (<[clusterID := fresh (dom (heap w))]> (pools w))).
Proof.
  intros Hnone (Hparse & Hnew & Hping).
  unfold AddCluster, get_pools, set_pools, logf, new_pool, pool_Ping,
    mbind, Go_bind, mret, Go_ret.
  rewrite bool_decide_eq_false_2 by (rewrite Hnone; apply is_Some_None).
  rewrite Hparse, Hnew. cbn [heap fst snd].
  rewrite lookup_insert_eq, Hping. reflexivity.
Qed.

Lemma fresh_pool_unused w : heap w !! fresh (dom (heap w)) = None.
Proof. apply not_elem_of_dom, is_fresh. Qed.



(** X2: the pool of a registered cluster has a maximum of 25 and a
    minimum of 5 connections, a lifetime of one hour and an idle time of
    thirty minutes wherever the request leaves the bound unset (zero or
    negative), and the requested bound wherever it is positive and, for
    the two counts, fits an [int32]. *)
Theorem AddCluster_pool_bounds
    (pgx : Pgx) (clusterID : string) (config : ConnectionConfig)
    (w : World) (poolConfig : PoolConfig) :
  pools w !! clusterID = None →
  probe_succeeds pgx config poolConfig →
  ∃ pool p,
    eval (GetPool clusterID) (exec (AddCluster pgx clusterID config) w)
    = Ok pool ∧
    heap (exec (AddCluster pgx clusterID config) w) !! pool = Some p ∧
    closed p = false ∧
    MaxConns (Config p) =
      (if decide (0 < MaxConnections config < 2 ^ 31)
       then MaxConnections config
       else if decide (MaxConnections config ≤ 0) then 25
       else wrap 32 (MaxConnections config)) ∧
    MinConns (Config p) =
      (if decide (0 < MinConnections config < 2 ^ 31)
       then MinConnections config
       else if decide (MinConnections config ≤ 0) then 5
       else wrap 32 (MinConnections config)) ∧
    MaxConnLifetime (Config p) =
      (if decide (0 < ConnMaxLifetime config) then ConnMaxLifetime config
       else 3600 * time.Second) ∧
    MaxConnIdleTime (Config p) =
      (if decide (0 < ConnMaxIdleTime config) then ConnMaxIdleTime config
       else 1800 * time.Second) ∧
    ConnString (Config p) = ConnString poolConfig.
Proof.
  intros Hnone Hprobe. unfold exec.
  rewrite (AddCluster_run_success _ _ _ _ _ Hnone Hprobe). cbn [snd].
  exists (fresh (dom (heap w))), (mkPool (configurePool config poolConfig) false).
  rewrite GetPool_lookup. cbn [pools heap]. rewrite !lookup_insert_eq.
  split; [reflexivity|]. split; [reflexivity|]. split; [reflexivity|].
  unfold configurePool. cbn [Config MaxConns MinConns MaxConnLifetime
                             MaxConnIdleTime ConnString].
  repeat apply conj.
  - destruct (0 <? MaxConnections config) eqn:Hpos.
    + apply Z.ltb_lt in Hpos. case_decide as Hin.
      * apply wrap_small; lia.
      * case_decide; [lia|reflexivity].
    + apply Z.ltb_ge in Hpos. case_decide; [lia|]. case_decide; [done|lia].
  - destruct (0 <? MinConnections config) eqn:Hpos.
    + apply Z.ltb_lt in Hpos. case_decide as Hin.
      * apply wrap_small; lia.
      * case_decide; [lia|reflexivity].
    + apply Z.ltb_ge in Hpos. case_decide; [lia|]. case_decide; [done|lia].
  - destruct (0 <? ConnMaxLifetime config) eqn:Hpos.
    + apply Z.ltb_lt in Hpos. by case_decide.
    + apply Z.ltb_ge in Hpos. case_decide; [lia|reflexivity].
  - destruct (0 <? ConnMaxIdleTime config) eqn:Hpos.
    + apply Z.ltb_lt in Hpos. by case_decide.
    + apply Z.ltb_ge in Hpos. case_decide; [lia|reflexivity].
  - reflexivity.
Qed.

(** Witness: a request with its own bounds, on a reachable server. *)
Lemma AddCluster_pool_bounds_witness :
  ∃ pool p,
    eval (GetPool "c1") (exec (AddCluster pgx_reachable "c1" config_sized)
                              world0) = Ok pool ∧
    heap (exec (AddCluster pgx_reachable "c1" config_sized) world0) !! pool
    = Some p ∧
    closed p = false ∧
    MaxConns (Config p) = 40 ∧
    MinConns (Config p) = 2 ∧
    MaxConnLifetime (Config p) = 2 * time.Hour ∧
    MaxConnIdleTime (Config p) = time.Minute ∧
    ConnString (Config p) = connString config_sized.
Proof.
  apply (AddCluster_pool_bounds pgx_reachable "c1" config_sized world0
           (mkPoolConfig (connString config_sized) 4 0 time.Hour time.Hour)).
  - reflexivity.
  - split; [reflexivity|]. split; reflexivity.
Defined.

Lemma AddCluster_run_probe_failure pgx clusterID config w cause :
  pools w !! clusterID = None →
  probe_fails pgx config cause →
  ∃ poolConfig,
    AddCluster pgx clusterID config w =
    (Some (ErrPing cause),
     mkWorld (readings w) (ticks w) (log w)
       (<[fresh (dom (heap w)) :=
            mkPool (configurePool config poolConfig) true]> (heap w))
       (pools w)).
Proof.
  intros Hnone (poolConfig & Hparse & Hnew & Hping). exists poolConfig.
  unfold AddCluster, get_pools, new_pool, pool_Ping, pool_Close,
    mbind, Go_bind, mret, Go_ret.
  rewrite bool_decide_eq_false_2 by (rewrite Hnone; apply is_Some_None).
  rewrite Hparse, Hnew. cbn [heap fst snd].
  rewrite lookup_insert_eq, Hping. cbn [heap readings ticks log pools].
  by rewrite alter_insert_eq.
Qed.

(** The five ways [AddCluster] can run. *)
Lemma AddCluster_cases pgx clusterID config w :
  (is_Some (pools w !! clusterID) ∧
   AddCluster pgx clusterID config w = (Some (ErrClusterExists clusterID), w))
  ∨ (pools w !! clusterID = None ∧
     ∃ cause, ParseConfig pgx (connString config) = Err cause ∧
       AddCluster pgx clusterID config w
       = (Some (ErrParseConnString cause), w))
  ∨ (pools w !! clusterID = None ∧
     ∃ poolConfig cause,
       ParseConfig pgx (connString config) = Ok poolConfig ∧
       NewWithConfig pgx (configurePool config poolConfig) = Some cause ∧
       AddCluster pgx clusterID config w = (Some (ErrCreatePool cause), w))
  ∨ (pools w !! clusterID = None ∧
     ∃ cause, probe_fails pgx config cause)
  ∨ (pools w !! clusterID = None ∧
     ∃ poolConfig, probe_succeeds pgx config poolConfig).
Proof.
  destruct (pools w !! clusterID) as [pool|] eqn:Hp.
  { left. split; [eauto|].
    unfold AddCluster, get_pools, mbind, Go_bind, mret, Go_ret.
    rewrite bool_decide_eq_true_2; [done|]. rewrite Hp. eauto. }
  right.
  destruct (ParseConfig pgx (connString config)) as [poolConfig|cause]
    eqn:Hparse.
  2:{ left. split; [done|]. exists cause. split; [done|].
      unfold AddCluster, get_pools, mbind, Go_bind, mret, Go_ret.
      rewrite bool_decide_eq_false_2 by (rewrite Hp; apply is_Some_None).
      by rewrite Hparse. }
  right.
  destruct (NewWithConfig pgx (configurePool config poolConfig)) as [cause|]
    eqn:Hnew.
  { left. split; [done|]. exists poolConfig, cause. split; [done|].
    split; [done|].
    unfold AddCluster, get_pools, mbind, Go_bind, mret, Go_ret.
    rewrite bool_decide_eq_false_2 by (rewrite Hp; apply is_Some_None).
    by rewrite Hparse, Hnew. }
  right.
  destruct (Ping pgx (mkPool (configurePool config poolConfig) false))
    as [cause|] eqn:Hping.
  - left. split; [done|]. exists cause, poolConfig.
    split; [exact Hparse|]. split; [exact Hnew|exact Hping].
  - right. split; [done|]. exists poolConfig.
    split; [exact Hparse|]. split; [exact Hnew|exact Hping].
Qed.

(** X3: whatever its outcome, [AddCluster] disturbs no other cluster:
    every id registered before is still registered to the same pool, and
    every pool object that existed is as it was. *)
Theorem AddCluster_preserves_registrations
    (pgx : Pgx) (clusterID : string) (config : ConnectionConfig) (w : World) :
  let w' := exec (AddCluster pgx clusterID config) w in
  (∀ id pool, pools w !! id = Some pool → pools w' !! id = Some pool) ∧
  (∀ pool p, heap w !! pool = Some p → heap w' !! pool = Some p) ∧
  readings w' = readings w ∧ ticks w' = ticks w.
Proof.
  cbn zeta. unfold exec.
  assert (Hfresh : ∀ pool p, heap w !! pool = Some p →
            fresh (dom (heap w)) ≠ pool).
  { intros pool p Hp Heq. rewrite <- Heq in Hp.
    by rewrite fresh_pool_unused in Hp. }
  destruct (AddCluster_cases pgx clusterID config w)
    as [[_ ->]|[[_ (cause & _ & ->)]|[[_ (pc & cause & _ & _ & ->)]|
        [[Hnone (cause & Hfail)]|[Hnone (pc & Hok)]]]]].
  - done.
  - done.
  - done.
  - destruct (AddCluster_run_probe_failure _ _ _ _ _ Hnone Hfail)
      as (pc & ->).
    cbn [snd pools heap readings ticks]. split; [done|]. split; [|done].
    intros pool p Hp. rewrite lookup_insert_ne; [done|]. by eapply Hfresh.
  - rewrite (AddCluster_run_success _ _ _ _ _ Hnone Hok).
    cbn [snd pools heap readings ticks]. split; [|split; [|done]].
    + intros id pool Hid. rewrite lookup_insert_ne; [done|].
      intros ->. by rewrite Hnone in Hid.
    + intros pool p Hp. rewrite lookup_insert_ne; [done|]. by eapply Hfresh.
Qed.

(** X4: [AddCluster] registers all or nothing.  Either it returns no
    error and the registry is the old one with the id added, bound to a
    new, open pool; or it returns an error of kind AlreadyExists,
    ValidationError or ConnectionError, the registry map is unchanged, and
    any pool object the call built has been closed. *)
Theorem AddCluster_all_or_nothing
    (pgx : Pgx) (clusterID : string) (config : ConnectionConfig) (w : World) :
  let r := AddCluster pgx clusterID config w in
  (r.1 = None ∧
   ∃ pool p,
     heap w !! pool = None ∧ heap (r.2) !! pool = Some p ∧ closed p = false ∧
     pools w !! clusterID = None ∧
     pools (r.2) = <[clusterID := pool]> (pools w))
  ∨
  (∃ err,
     r.1 = Some err ∧
     (kind err = AlreadyExists ∨ kind err = ValidationError ∨
      kind err = ConnectionError) ∧
     pools (r.2) = pools w ∧
     ∀ pool p, heap w !! pool = None → heap (r.2) !! pool = Some p →
               closed p = true).
Proof.
  cbn zeta.
  destruct (AddCluster_cases pgx clusterID config w)
    as [[_ ->]|[[_ (cause & _ & ->)]|[[_ (pc & cause & _ & _ & ->)]|
        [[Hnone (cause & Hfail)]|[Hnone (pc & Hok)]]]]].
  - right. eexists. split; [reflexivity|]. split; [by left|].
    split; [done|]. cbn [snd]. intros pool p H1 H2. by rewrite H1 in H2.
  - right. eexists. split; [reflexivity|]. split; [by right; left|].
    split; [done|]. cbn [snd]. intros pool p H1 H2. by rewrite H1 in H2.
  - right. eexists. split; [reflexivity|]. split; [by right; right|].
    split; [done|]. cbn [snd]. intros pool p H1 H2. by rewrite H1 in H2.
  - right. destruct (AddCluster_run_probe_failure _ _ _ _ _ Hnone Hfail)
      as (pc & ->).
    eexists. split; [reflexivity|]. split; [by right; right|].
    split; [done|]. cbn [snd heap]. intros pool p H1 H2.
    destruct (decide (fresh (dom (heap w)) = pool)) as [<-|Hne].
    + rewrite lookup_insert_eq in H2. by injection H2 as <-.
    + rewrite lookup_insert_ne in H2 by done. by rewrite H1 in H2.
  - left. rewrite (AddCluster_run_success _ _ _ _ _ Hnone Hok).
    cbn [fst snd heap pools]. split; [done|].
    eexists _, _. split; [apply fresh_pool_unused|].
    rewrite lookup_insert_eq. done.
Qed.

(** ** Removing clusters *)

Lemma RemoveCluster_run clusterID w :
  RemoveCluster clusterID w =
  match pools w !! clusterID with
  | None => (Some (ErrClusterNotFound clusterID), w)
  | Some pool =>
      (None,
       mkWorld (readings w) (ticks w)
         (log w ++ [(InfoLevel, Sprintf "Removed cluster %s from pool"
                                  [ArgS clusterID])])
         (alter mark_closed pool (heap w))
         (delete clusterID (pools w)))
  end.
Proof.
  unfold RemoveCluster, get_pools, set_pools, pool_Close, logf,
    mbind, Go_bind, mret, Go_ret.
  by destruct (pools w !! clusterID).
Qed.

(** X5: [RemoveCluster] on an id that is not registered fails with
    NotFound and changes nothing: no pool is closed, nothing is logged. *)
Theorem RemoveCluster_unknown (clusterID : string) (w : World) :
  pools w !! clusterID = None →
  RemoveCluster clusterID w = (Some (ErrClusterNotFound clusterID), w) ∧
  kind (ErrClusterNotFound clusterID) = NotFound.
Proof. intros Hnone. by rewrite RemoveCluster_run, Hnone. Qed.

(** Witness: removal from the empty registry. *)
Lemma RemoveCluster_unknown_witness :
  RemoveCluster "c1" world0 = (Some (ErrClusterNotFound "c1"), world0) ∧
  kind (ErrClusterNotFound "c1") = NotFound.
Proof. apply (RemoveCluster_unknown "c1" world0). reflexivity. Defined.

(** X6: [RemoveCluster] on a registered id returns no error, closes the
    pool of that id and no other pool object, and removes the id: it is no
    longer listed, [GetPool] on it fails with NotFound, a second removal
    fails with NotFound, and every other id keeps its pool. *)
Theorem RemoveCluster_registered (clusterID : string) (w : World) (pool : nat) :
  pools w !! clusterID = Some pool →
  let r := RemoveCluster clusterID w in
  r.1 = None ∧
  heap (r.2) !! pool = mark_closed <$> heap w !! pool ∧
  (∀ other, other ≠ pool → heap (r.2) !! other = heap w !! other) ∧
  (clusterID ∉ eval GetAllClusters (r.2)) ∧
  eval (GetPool clusterID) (r.2) = Err (ErrNoPool clusterID) ∧
  eval (RemoveCluster clusterID) (r.2) = Some (ErrClusterNotFound clusterID) ∧
  (∀ id, id ≠ clusterID →
         eval (GetPool id) (r.2) = eval (GetPool id) w).
Proof.
  intros Hp. cbn zeta. rewrite RemoveCluster_run, Hp. cbn [fst snd].
  split; [done|]. cbn [heap]. split; [apply lookup_alter_eq|].
  split; [intros other Hne; by apply lookup_alter_ne|].
  split.
  { rewrite elem_of_GetAllClusters. cbn [pools]. rewrite lookup_delete_eq.
    apply is_Some_None. }
  split.
  { rewrite GetPool_lookup. cbn [pools]. by rewrite lookup_delete_eq. }
  split.
  { unfold eval. rewrite RemoveCluster_run. cbn [pools].
    by rewrite lookup_delete_eq. }
  intros id Hne. rewrite !GetPool_lookup. cbn [pools].
  by rewrite lookup_delete_ne.
Qed.

(** Witness: removal of the one registered cluster. *)
Lemma RemoveCluster_registered_witness :
  let r := RemoveCluster "c1" world_registered in
  r.1 = None ∧
  heap (r.2) !! 0%nat = mark_closed <$> heap world_registered !! 0%nat ∧
  (∀ other, other ≠ 0%nat →
            heap (r.2) !! other = heap world_registered !! other) ∧
  ("c1" ∉ eval GetAllClusters (r.2)) ∧
  eval (GetPool "c1") (r.2) = Err (ErrNoPool "c1") ∧
  eval (RemoveCluster "c1") (r.2) = Some (ErrClusterNotFound "c1") ∧
  (∀ id, id ≠ "c1" →
         eval (GetPool id) (r.2) = eval (GetPool id) world_registered).
Proof.
  apply (RemoveCluster_registered "c1" world_registered 0%nat).
  by vm_compute.
Defined.

(** X7: registering a cluster and removing it again restores the registry
    map; what remains of the round trip is the pool object, closed, and
    two log lines. *)
Theorem AddCluster_then_RemoveCluster
    (pgx : Pgx) (clusterID : string) (config : ConnectionConfig)
    (w : World) (poolConfig : PoolConfig) :
  pools w !! clusterID = None →
  probe_succeeds pgx config poolConfig →
  let r := (AddCluster pgx clusterID config;; RemoveCluster clusterID) w in
  r.1 = None ∧
  pools (r.2) = pools w ∧
  (∃ pool,
     heap w !! pool = None ∧
     heap (r.2)
     = <[pool := mkPool (configurePool config poolConfig) true]> (heap w)) ∧
  length (log (r.2)) = (length (log w) + 2)%nat.
Proof.
  intros Hnone Hprobe. cbn zeta. unfold mbind, Go_bind.
  rewrite (AddCluster_run_success _ _ _ _ _ Hnone Hprobe).
  rewrite RemoveCluster_run. cbn [pools heap log readings ticks].
  rewrite lookup_insert_eq. cbn [fst snd pools heap log].
  split; [done|]. split; [by rewrite delete_insert_eq, delete_id|].
  split.
  - exists (fresh (dom (heap w))). split; [apply fresh_pool_unused|].
    by rewrite alter_insert_eq.
  - rewrite !length_app. cbn. lia.
Qed.

(** Witness: a cluster added to the empty registry and removed. *)
Lemma AddCluster_then_RemoveCluster_witness :
  let r := (AddCluster pgx_reachable "c1" config0;; RemoveCluster "c1")
             world0 in
  r.1 = None ∧
  pools (r.2) = pools world0 ∧
  (∃ pool,
     heap world0 !! pool = None ∧
     heap (r.2)
     = <[pool := mkPool (configurePool config0
                           (mkPoolConfig (connString config0) 4 0
                                         time.Hour time.Hour)) true]>
         (heap world0)) ∧
  length (log (r.2)) = (length (log world0) + 2)%nat.
Proof.
  apply (AddCluster_then_RemoveCluster pgx_reachable "c1" config0 world0).
  - reflexivity.
  - split; [reflexivity|]. split; reflexivity.
Defined.

(** ** Closing the registry *)

Lemma mark_closed_idemp (p : option Pool) :
  mark_closed <$> (mark_closed <$> p) = mark_closed <$> p.
Proof. by destruct p. Qed.

Lemma close_all_lookup addresses h pool :
  close_all addresses h !! pool =
  if decide (pool ∈ addresses) then mark_closed <$> h !! pool else h !! pool.
Proof.
  revert h. induction addresses as [|r addresses IH]; intros h.
  - cbn. case_decide as Hin; [|done]. by apply elem_of_nil in Hin.
  - unfold close_all in *. cbn [fold_left]. rewrite IH.
    destruct (decide (r = pool)) as [->|Hne].
    + rewrite lookup_alter_eq, mark_closed_idemp.
      rewrite (decide_True (P := pool ∈ pool :: addresses))
        by apply list_elem_of_here.
      by case_decide.
    + rewrite lookup_alter_ne by done.
      destruct (decide (pool ∈ addresses)) as [Hin|Hin].
      * by rewrite decide_True by (by apply list_elem_of_further).
      * rewrite decide_False; [done|].
        intros [->|?]%elem_of_cons; done.
Qed.

(** The loop of [Close] over the entries of the registry. *)
Lemma Close_loop (entries : list (string * nat)) (k : Go unit) (w : World) :
  let w' :=
    exec (fold_left
            (λ (k : Go unit) '(clusterID, pool),
               k;;
               pool_Close pool;;
               logf InfoLevel
                 (Sprintf "Closed connection pool for cluster %s"
                          [ArgS clusterID]))
            entries k) w in
  heap w' = close_all entries.*2 (heap (exec k w)) ∧
  pools w' = pools (exec k w) ∧
  length (log w') = (length (log (exec k w)) + length entries)%nat.
Proof.
  revert k. induction entries as [|[clusterID pool] entries IH]; intros k.
  - cbn. split; [done|]. split; [done|lia].
  - cbn [fold_left]. cbn zeta in IH.
    match goal with
    | |- context [fold_left _ entries ?k'] =>
        destruct (IH k') as (Hheap & Hpools & Hlog)
    end.
    rewrite Hheap, Hpools, Hlog. clear IH Hheap Hpools Hlog.
    unfold exec, mbind, Go_bind, pool_Close, logf.
    destruct (k w) as [[] w1]. cbn [fst snd heap pools log fmap list_fmap].
    split; [done|]. split; [done|]. rewrite length_app. cbn. lia.
Qed.

(** X8: [Close] empties the registry and closes the pool of every id that
    was registered, one log line each; pool objects no id was bound to
    are left as they were.  Afterwards no id is listed and [GetPool]
    fails with NotFound for every id. *)
Theorem Close_closes_every_pool (w : World) :
  let w' := exec db.Close w in
  pools w' = ∅ ∧
  eval GetAllClusters w' = [] ∧
  (∀ id, eval (GetPool id) w' = Err (ErrNoPool id)) ∧
  (∀ id pool, pools w !! id = Some pool →
              heap w' !! pool = mark_closed <$> heap w !! pool) ∧
  (∀ pool, (∀ id, pools w !! id ≠ Some pool) →
           heap w' !! pool = heap w !! pool) ∧
  length (log w') = (length (log w) + size (pools w))%nat.
Proof.
  cbn zeta.
  pose proof (Close_loop (map_to_list (pools w)) (mret tt) w) as Hloop.
  cbn zeta in Hloop.
  unfold db.Close, get_pools, set_pools, exec, mbind, Go_bind in *.
  cbn [fst snd] in *.
  match type of Hloop with
  | context [fold_left ?f ?l ?k w] =>
      generalize dependent (fold_left f l k w)
  end.
  intros [[] w1]. cbn [fst snd pools heap log].
  intros (Hheap & Hpools & Hlog).
  rewrite Hheap, Hlog. clear Hheap Hpools Hlog.
  split; [done|]. split.
  { rewrite GetAllClusters_keys. cbn [pools]. by rewrite map_to_list_empty. }
  split.
  { intros id. rewrite GetPool_lookup. cbn [pools]. by rewrite lookup_empty. }
  split.
  { intros id pool Hp. rewrite close_all_lookup, decide_True; [done|].
    apply list_elem_of_fmap. exists (id, pool). split; [done|].
    by apply elem_of_map_to_list. }
  split.
  { intros pool Hnot. rewrite close_all_lookup, decide_False; [done|].
    intros ([id pool'] & -> & Hin)%list_elem_of_fmap.
    apply elem_of_map_to_list in Hin. by apply (Hnot id). }
  by rewrite length_map_to_list.
Qed.

(** ** Reading the registry *)

(** X9: [GetAllClusters] lists each registered id exactly once and no
    other id, and changes nothing. *)
Theorem GetAllClusters_lists_each_id_once (w : World) :
  NoDup (eval GetAllClusters w) ∧
  (∀ id, id ∈ eval GetAllClusters w ↔ is_Some (pools w !! id)) ∧
  length (eval GetAllClusters w) = size (pools w) ∧
  exec GetAllClusters w = w.
Proof.
  split; [|split; [|split]].
  - rewrite GetAllClusters_keys. apply NoDup_fst_map_to_list.
  - intros id. apply elem_of_GetAllClusters.
  - rewrite GetAllClusters_keys, length_fmap. apply length_map_to_list.
  - reflexivity.
Qed.

(** X10: [HealthCheck] never changes the registry, the pools or the log;
    for an id that is not registered it fails with NotFound without any
    ping, and for a registered id it returns what the ping of that pool
    answers. *)
Theorem HealthCheck_probes_without_mutating
    (pgx : Pgx) (clusterID : string) (w : World) :
  exec (db.HealthCheck pgx clusterID) w = w ∧
  (pools w !! clusterID = None →
   ∀ pgx', eval (db.HealthCheck pgx' clusterID) w
           = Some (ErrNoPool clusterID)) ∧
  (∀ pool p, pools w !! clusterID = Some pool → heap w !! pool = Some p →
             eval (db.HealthCheck pgx clusterID) w = Ping pgx p).
Proof.
  unfold db.HealthCheck, GetPool, get_pools, pool_Ping, eval, exec,
    mbind, Go_bind, mret, Go_ret.
  cbn [fst snd].
  split; [by destruct (pools w !! clusterID)|]. split.
  - by intros ->.
  - by intros pool p -> ->.
Qed.

(** ** One pass of the metrics collector *)

Lemma warn_on_error_world what (collect : Go (Metrics.t * option error)) r w :
  collect w = (r, w) →
  warn_on_error what collect w =
  (r.1, mkWorld (readings w) (ticks w) (log w ++ warning_of what r.2)
                (heap w) (pools w)).
Proof.
  intros Hc. unfold warn_on_error, logf, mbind, Go_bind, mret, Go_ret.
  rewrite Hc. destruct r as [metrics [err|]]; [reflexivity|].
  destruct w. cbn. by rewrite app_nil_r.
Qed.

Ltac sub_collect_world run :=
  match goal with
  | |- context [warn_on_error ?what (?c ?pgx ?pool ?m) ?w1] =>
      rewrite (warn_on_error_world what (c pgx pool m) _ w1
                 (run pgx pool m w1));
      cbv zeta; cbn [fst snd readings ticks log heap pools]
  end.

(** The run of [CollectClusterMetrics] on a registered cluster: the
    clock is read once, the registry and the pools are untouched, and the
    log grows by the warnings of the failed sub-collections and one debug
    line. *)
Lemma CollectClusterMetrics_run pgx clusterID w pool :
  pools w !! clusterID = Some pool →
  ∃ metrics,
    CollectClusterMetrics pgx clusterID w =
    (Ok metrics,
     mkWorld (readings w) (S (ticks w))
       (log w ++ sub_collection_warnings (eval (pool_Scan pgx pool) w) ++
        [(DebugLevel, Sprintf "Collected metrics for cluster %s"
                        [ArgS clusterID])])
       (heap w) (pools w)) ∧
    Metrics.ClusterID metrics = clusterID ∧
    Metrics.Timestamp metrics = readings w (ticks w).
Proof.
  intros Hp.
  unfold CollectClusterMetrics, Metrics.NewMetrics, GetPool, get_pools,
    time_Now, mbind, Go_bind, mret, Go_ret.
  cbn [pools fst snd]. rewrite Hp.
  set (w1 := mkWorld _ _ _ _ _).
  assert (Hrows : ∀ l, eval (pool_Scan pgx pool)
                    (mkWorld (readings w1) (ticks w1) l (heap w1) (pools w1))
                  = eval (pool_Scan pgx pool) w) by done.
  sub_collect_world collectConnectionMetrics_run.
  sub_collect_world collectCacheMetrics_run.
  sub_collect_world collectTransactionMetrics_run.
  sub_collect_world collectLockMetrics_run.
  sub_collect_world collectReplicationMetrics_run.
  sub_collect_world collectBloatMetrics_run.
  sub_collect_world collectDiskIOMetrics_run.
  unfold logf. cbn [fst snd readings ticks log heap pools].
  rewrite !Hrows. replace (eval (pool_Scan pgx pool) w1)
    with (eval (pool_Scan pgx pool) w) by done.
  subst w1. cbn [readings ticks log heap pools].
  eexists. split; [apply f_equal2; [reflexivity|]|].
  - f_equal. unfold sub_collection_warnings, failure.
    by rewrite <- !app_assoc.
  - cbn [Metrics.set_Connections Metrics.set_CacheHitRatio
         Metrics.set_TransactionsPerSec Metrics.set_LockWaits
         Metrics.set_DeadlockCount Metrics.set_ReplicationLag
         Metrics.set_TableBloat Metrics.set_DiskIO
         Metrics.ClusterID Metrics.Timestamp].
    split; reflexivity.
Qed.

Lemma CollectClusterMetrics_run_unknown pgx clusterID w :
  pools w !! clusterID = None →
  CollectClusterMetrics pgx clusterID w =
  (Err (ErrNoPool clusterID),
   mkWorld (readings w) (S (ticks w)) (log w) (heap w) (pools w)).
Proof.
  intros Hp.
  unfold CollectClusterMetrics, Metrics.NewMetrics, GetPool, get_pools,
    time_Now, mbind, Go_bind, mret, Go_ret.
  cbn [pools fst snd]. by rewrite Hp.
Qed.

(** X11: [GetMetricsSnapshot] succeeds exactly for the registered ids.
    For a registered id it returns a snapshot of that id, stamped with
    the clock reading taken at the start of the call, whatever the
    queries answer; for any other id it fails with the NotFound of the
    registry, wrapped, and logs nothing.  In both cases the clock is read
    once and the registry and the pools are untouched. *)
Theorem GetMetricsSnapshot_succeeds_iff_registered
    (pgx : Pgx) (clusterID : string) (w : World) :
  let r := GetMetricsSnapshot pgx clusterID w in
  match pools w !! clusterID with
  | Some _ =>
      ∃ metrics,
        r.1 = Ok metrics ∧
        Metrics.ClusterID metrics = clusterID ∧
        Metrics.Timestamp metrics = readings w (ticks w)
  | None =>
      r.1 = Err (ErrCollectMetrics (ErrNoPool clusterID)) ∧
      kind (ErrCollectMetrics (ErrNoPool clusterID)) = NotFound ∧
      log (r.2) = log w
  end ∧
  pools (r.2) = pools w ∧ heap (r.2) = heap w ∧ ticks (r.2) = S (ticks w).
Proof.
  cbn zeta. unfold GetMetricsSnapshot, mbind, Go_bind, mret, Go_ret.
  destruct (pools w !! clusterID) as [pool|] eqn:Hp.
  - destruct (CollectClusterMetrics_run pgx clusterID w pool Hp)
      as (metrics & -> & Hid & Htime).
    cbn [fst snd pools heap ticks]. split; [|done]. by exists metrics.
  - rewrite (CollectClusterMetrics_run_unknown _ _ _ Hp).
    cbn [fst snd pools heap ticks log]. done.
Qed.

Lemma sub_collection_warnings_level rows :
  Forall (λ entry, entry.1 = WarnLevel) (sub_collection_warnings rows).
Proof.
  unfold sub_collection_warnings, warning_of, failure.
  destruct rows as [[|] [|] [|] [|] ? [|] [|] [|]];
    cbn; repeat constructor.
Qed.

(** X12: on a registered cluster, [CollectClusterMetrics] appends to the
    log one warning for each sub-collection that returned an error, in
    the order of the sub-collections, and then one debug line; a failure
    of the deadlock query alone leaves no warning. *)
Theorem CollectClusterMetrics_logs_each_failure
    (pgx : Pgx) (clusterID : string) (w : World) (pool : nat) :
  pools w !! clusterID = Some pool →
  let rows := eval (pool_Scan pgx pool) w in
  log (exec (CollectClusterMetrics pgx clusterID) w) =
    log w ++ sub_collection_warnings rows ++
    [(DebugLevel, Sprintf "Collected metrics for cluster %s"
                    [ArgS clusterID])] ∧
  Forall (λ entry, entry.1 = WarnLevel) (sub_collection_warnings rows) ∧
  (sub_collection_warnings rows = [] ↔
   failure (connectionRow rows) = None ∧ failure (cacheRow rows) = None ∧
   failure (transactionRow rows) = None ∧ failure (lockRow rows) = None ∧
   failure (replicationRow rows) = None ∧ failure (bloatRow rows) = None ∧
   failure (diskIORow rows) = None).
Proof.
  intros Hp. cbn zeta. unfold exec.
  destruct (CollectClusterMetrics_run pgx clusterID w pool Hp)
    as (metrics & -> & _).
  cbn [snd log]. split; [done|].
  split; [apply sub_collection_warnings_level|].
  unfold sub_collection_warnings, warning_of, failure.
  destruct (eval (pool_Scan pgx pool) w) as [[|] [|] [|] [|] ? [|] [|] [|]];
    cbn; split; first [discriminate | intros (?&?&?&?&?&?&?); discriminate
                      | done].
Qed.

(** Witness: a server on which only the deadlock counter cannot be read;
    the pass logs its debug line and no warning. *)
Lemma CollectClusterMetrics_logs_each_failure_witness :
  log (exec (CollectClusterMetrics pgx_deadlock_query_fails "c1")
            world_registered) =
    log world_registered ++
    [(DebugLevel, Sprintf "Collected metrics for cluster %s" [ArgS "c1"])].
Proof.
  destruct (CollectClusterMetrics_logs_each_failure pgx_deadlock_query_fails
              "c1" world_registered 0%nat) as (Hlog & _).
  - by vm_compute.
  - exact Hlog.
Defined.

(** ** One tick of the metrics collector *)






(** ** Which alerts [AnalyzeMetrics] raises *)

Ltac run_when :=
  intros alerts w; unfold eval;
  repeat match goal with
         | |- context [if ?b then _ else _] =>
             lazymatch b with
             | context [if _ then _ else _] => fail
             | _ => destruct b eqn:?
             end
         end;
  cbn [andb when];
  unfold Alert.NewAlert, time_Now, mbind, Go_bind, mret, Go_ret;
  cbn [fst snd]; rewrite ?fmap_app, ?app_nil_r; reflexivity.

Lemma metrics_checks_emit_when pa metrics :
  Forall2 (λ metric check, emits_when (exceeds pa metrics metric) metric check)
          metric_names (metrics_checks pa metrics).
Proof.
  repeat apply List.Forall2_cons; [..|apply List.Forall2_nil].
  - unfold checkConnectionUsage. change (exceeds pa metrics _) with
      ((0 <? Metrics.ConnectionsTotal metrics) &&
       float64.gt (connPercent metrics) (MaxConnectionsPercent (thresholds pa))).
    run_when.
  - unfold checkCacheHitRatio. change (exceeds pa metrics _) with
      (float64.lt (Metrics.CacheHitRatio metrics)
                  (MinCacheHitRatio (thresholds pa))).
    run_when.
  - unfold checkCPUUsage. change (exceeds pa metrics _) with
      (float64.gt (Metrics.CPUUsage metrics) (MaxCPUPercent (thresholds pa))).
    run_when.
  - unfold checkMemoryUsage. change (exceeds pa metrics _) with
      (float64.gt (Metrics.MemoryUsage metrics)
                  (MaxMemoryPercent (thresholds pa))).
    run_when.
  - unfold checkReplicationLag. change (exceeds pa metrics _) with
      (MaxReplicationLagMs (thresholds pa) <? Metrics.ReplicationLag metrics).
    run_when.
  - unfold checkLockWaits. change (exceeds pa metrics _) with
      (100 <? Metrics.LockWaits metrics).
    run_when.
  - unfold checkDeadlocks. change (exceeds pa metrics _) with
      (0 <? Metrics.DeadlockCount metrics).
    run_when.
  - unfold checkTableBloat. change (exceeds pa metrics _) with
      (float64.gt (Metrics.TableBloat metrics)
                  (MaxTableBloatPercent (thresholds pa))).
    run_when.
Qed.

Lemma sequence_checks_emit_when (cond : string → bool) names checks :
  Forall2 (λ metric check, emits_when (cond metric) metric check)
          names checks →
  ∀ alerts w,
    Alert.Metric <$> eval (sequence_checks checks alerts) w
    = (Alert.Metric <$> alerts) ++ filter (λ metric, cond metric = true) names.
Proof.
  induction 1 as [|metric check names checks Hcheck _ IH]; intros alerts w.
  - cbn. by rewrite app_nil_r.
  - rewrite eval_sequence_checks_cons, IH, Hcheck, <- app_assoc. f_equal.
    unfold when. destruct (cond metric) eqn:Hcond.
    + by rewrite filter_cons_True.
    + rewrite filter_cons_False; [done|]. by rewrite Hcond.
Qed.

Lemma AnalyzeMetrics_metrics pa metrics w :
  Alert.Metric <$> eval (AnalyzeMetrics pa metrics) w
  = filter (λ metric, exceeds pa metrics metric = true) metric_names.
Proof.
  rewrite AnalyzeMetrics_sequence.
  by rewrite (sequence_checks_emit_when (exceeds pa metrics) metric_names
                _ (metrics_checks_emit_when pa metrics)).
Qed.

Lemma metric_names_NoDup : NoDup metric_names.
Proof. apply (bool_decide_unpack _). by vm_compute. Qed.

(** X14: [AnalyzeMetrics] raises one alert for each metric whose limit the
    snapshot exceeds and none for the others, in the order in which the
    checks are written, whatever the clock: at most eight alerts, no two
    on the same metric. *)
Theorem AnalyzeMetrics_raises_exceeded_metrics
    (pa : PerformanceAnalyzer) (metrics : Metrics.t) (w : World) :
  let alerts := eval (AnalyzeMetrics pa metrics) w in
  Alert.Metric <$> alerts
  = filter (λ metric, exceeds pa metrics metric = true) metric_names ∧
  (length alerts ≤ 8)%nat ∧
  NoDup (Alert.Metric <$> alerts) ∧
  (∀ metric,
     metric ∈ (Alert.Metric <$> alerts) ↔
     metric ∈ metric_names ∧ exceeds pa metrics metric = true).
Proof.
  cbn zeta. pose proof (AnalyzeMetrics_metrics pa metrics w) as Hm.
  split; [exact Hm|]. split.
  { rewrite <- (length_fmap Alert.Metric), Hm.
    etrans; [apply length_filter|]. reflexivity. }
  split.
  { rewrite Hm. apply NoDup_filter, metric_names_NoDup. }
  intros metric. rewrite Hm, list_elem_of_filter. tauto.
Qed.

(** ** Severities *)

Lemma float64_gt_ge x y : float64.gt x y = true → float64.ge x y = true.
Proof.
  unfold float64.gt, float64.ge, SFltb, SFleb.
  by destruct (SFcompare y x) as [[]|].
Qed.

Lemma float64_lt_le x y : float64.lt x y = true → float64.le x y = true.
Proof.
  unfold float64.lt, float64.le, SFltb, SFleb.
  by destruct (SFcompare x y) as [[]|].
Qed.

Lemma getSeverity_raised value warning high critical :
  float64.gt value warning = true →
  raised (getSeverity value warning high critical).
Proof.
  intros H%float64_gt_ge. unfold getSeverity, raised. rewrite H.
  destruct (float64.ge value critical), (float64.ge value high); auto.
Qed.

Lemma getSeverityBelow_raised value warning high critical :
  float64.lt value warning = true →
  raised (getSeverityBelow value warning high critical).
Proof.
  intros H%float64_lt_le. unfold getSeverityBelow, raised. rewrite H.
  destruct (float64.le value critical), (float64.le value high); auto.
Qed.

Lemma getSeverityLag_raised value warning high critical :
  (warning <? value) = true →
  raised (getSeverityLag value warning high critical).
Proof.
  intros H%Z.ltb_lt. unfold getSeverityLag, raised.
  destruct (critical <=? value), (high <=? value); auto.
  destruct (warning <=? value) eqn:Hle; auto. apply Z.leb_gt in Hle. lia.
Qed.

(** Run a check whose conditions were split, and leave the property of
    the alert it appends, if any, to [tac]. *)
Ltac run_check_with tac :=
  intros alerts w;
  repeat match goal with
         | |- context [if ?b then _ else _] =>
             lazymatch b with
             | context [if _ then _ else _] => fail
             | _ => destruct b eqn:?
             end
         end;
  unfold eval, Alert.NewAlert, time_Now, mbind, Go_bind, mret, Go_ret;
  cbn [fst snd];
  first [ by (exists []; rewrite ?app_nil_r)
        | eexists [_]; split; [reflexivity|]; apply Forall_singleton;
          alert_fields; tac ].

Lemma metrics_checks_raise pa metrics :
  Forall (emits (λ a, raised (Alert.Severity a))) (metrics_checks pa metrics).
Proof.
  repeat apply Forall_cons_2; [..|apply Forall_nil_2].
  - unfold checkConnectionUsage.
    run_check_with ltac:(by apply getSeverity_raised).
  - unfold checkCacheHitRatio.
    run_check_with ltac:(by apply getSeverityBelow_raised).
  - unfold checkCPUUsage.
    run_check_with ltac:(by apply getSeverity_raised).
  - unfold checkMemoryUsage.
    run_check_with ltac:(by apply getSeverity_raised).
  - unfold checkReplicationLag.
    run_check_with ltac:(by apply getSeverityLag_raised).
  - unfold checkLockWaits. run_check_with ltac:(by left).
  - unfold checkDeadlocks. run_check_with ltac:(by right; left).
  - unfold checkTableBloat.
    run_check_with ltac:(by apply getSeverity_raised).
Qed.

Lemma query_checks_raise pa qm :
  Forall (emits (λ a, raised (Alert.Severity a))) (query_checks pa qm).
Proof.
  repeat apply Forall_cons_2; [..|apply Forall_nil_2].
  - unfold checkSlowQuery.
    run_check_with ltac:(unfold raised; auto).
  - unfold checkTempBlocks. run_check_with ltac:(by left).
Qed.

(** X15: every alert of [AnalyzeMetrics] and of [AnalyzeQueryPerformance]
    has severity medium, high or critical: an alert is only built once
    its limit is exceeded, which is at least the lowest tier, so the
    severities low and info are never used. *)
Theorem alerts_are_raised_at_medium_or_above
    (pa : PerformanceAnalyzer) (metrics : Metrics.t) (qm : QueryMetrics.t)
    (w w' : World) :
  Forall (λ a, raised (Alert.Severity a)) (eval (AnalyzeMetrics pa metrics) w) ∧
  Forall (λ a, raised (Alert.Severity a))
         (eval (AnalyzeQueryPerformance pa qm) w').
Proof.
  split.
  - rewrite AnalyzeMetrics_sequence.
    destruct (sequence_checks_emits _ _ (metrics_checks_raise pa metrics)
                [] w) as (extra & -> & Hextra).
    exact Hextra.
  - rewrite AnalyzeQueryPerformance_sequence.
    destruct (sequence_checks_emits _ _ (query_checks_raise pa qm)
                [] w') as (extra & -> & Hextra).
    exact Hextra.
Qed.

(** X16: the severity of a replication-lag alert never decreases when
    the lag grows, whatever the tiers. *)
Theorem getSeverityLag_monotone (lag lag' warning high critical : Z) :
  lag ≤ lag' →
  severity_rank (getSeverityLag lag warning high critical)
  ≤ severity_rank (getSeverityLag lag' warning high critical).
Proof.
  intros Hle. unfold getSeverityLag.
  repeat match goal with
         | |- context [?a <=? ?b] =>
             let H := fresh in destruct (Z.leb_spec a b) as [H|H]
         end; cbn; lia.
Qed.

(** Witness: a lag of 20 s against a lag of 45 s, tiers 10 s, 30 s, 60 s. *)
Lemma getSeverityLag_monotone_witness :
  severity_rank (getSeverityLag 20000 10000 30000 60000)
  ≤ severity_rank (getSeverityLag 45000 10000 30000 60000).
Proof. apply getSeverityLag_monotone. lia. Defined.

(** The order of binary64 values is transitive. *)
Lemma float64_le_trans x y z :
  float64.le x y = true → float64.le y z = true → float64.le x z = true.
Proof.
  unfold float64.le, SFleb, SFcompare.
  destruct x as [[]|[]| |[] m1 e1], y as [[]|[]| |[] m2 e2],
           z as [[]|[]| |[] m3 e3]; try done;
    change (Pos.compare_cont Eq) with Pos.compare;
    destruct (Z.compare_spec e1 e2), (Z.compare_spec e2 e3),
             (Z.compare_spec e1 e3); try done; try lia;
    destruct (Pos.compare_spec m1 m2), (Pos.compare_spec m2 m3),
             (Pos.compare_spec m1 m3); cbn; try done; lia.
Qed.

(** X17: the tiered severities follow the order of the values.  For a
    metric where higher is worse the severity never decreases when the
    value grows; for one where lower is worse it never decreases when the
    value drops.  The tiers may be any numbers. *)
Theorem float_severities_are_monotone
    (value value' warning high critical : float64.t) :
  float64.le value value' = true →
  severity_rank (getSeverity value warning high critical)
  ≤ severity_rank (getSeverity value' warning high critical) ∧
  severity_rank (getSeverityBelow value' warning high critical)
  ≤ severity_rank (getSeverityBelow value warning high critical).
Proof.
  intros Hle.
  assert (Hup : ∀ tier, float64.le tier value = true →
                        float64.le tier value' = true).
  { intros tier H. by eapply float64_le_trans. }
  assert (Hdown : ∀ tier, float64.le value' tier = true →
                          float64.le value tier = true).
  { intros tier H. by eapply float64_le_trans. }
  unfold getSeverity, getSeverityBelow, float64.ge.
  change SFleb with float64.le. split.
  - destruct (float64.le critical value) eqn:H1;
      [rewrite (Hup _ H1); cbn; lia|].
    destruct (float64.le high value) eqn:H2.
    { rewrite (Hup _ H2). destruct (float64.le critical value'); cbn; lia. }
    destruct (float64.le warning value) eqn:H3.
    { rewrite (Hup _ H3).
      destruct (float64.le critical value'), (float64.le high value');
        cbn; lia. }
    destruct (float64.le critical value'), (float64.le high value'),
      (float64.le warning value'); cbn; lia.
  - destruct (float64.le value' critical) eqn:H1;
      [rewrite (Hdown _ H1); cbn; lia|].
    destruct (float64.le value' high) eqn:H2.
    { rewrite (Hdown _ H2). destruct (float64.le value critical); cbn; lia. }
    destruct (float64.le value' warning) eqn:H3.
    { rewrite (Hdown _ H3).
      destruct (float64.le value critical), (float64.le value high);
        cbn; lia. }
    destruct (float64.le value critical), (float64.le value high),
      (float64.le value warning); cbn; lia.
Qed.

(** Witness: 88 and 96 percent against the tiers 80, 90 and 95. *)
Lemma float_severities_are_monotone_witness :
  severity_rank (getSeverity (float64.of_int 88) (float64.of_int 80)
                             (float64.of_int 90) (float64.of_int 95))
  ≤ severity_rank (getSeverity (float64.of_int 96) (float64.of_int 80)
                               (float64.of_int 90) (float64.of_int 95)) ∧
  severity_rank (getSeverityBelow (float64.of_int 96) (float64.of_int 80)
                                  (float64.of_int 90) (float64.of_int 95))
  ≤ severity_rank (getSeverityBelow (float64.of_int 88) (float64.of_int 80)
                                    (float64.of_int 90) (float64.of_int 95)).
Proof. apply float_severities_are_monotone. by vm_compute. Defined.

(** ** Counting alerts in a health status *)

Lemma countAlerts_from alerts health criticalCount :
  0 ≤ HealthStatus.ActiveAlerts health → 0 ≤ criticalCount →
  criticalCount ≤ HealthStatus.ActiveAlerts health →
  HealthStatus.ActiveAlerts health + len alerts ≤ int_max →
  let r :=
    fold_left
      (λ '(health, criticalCount) alert,
         if bool_decide (Alert.Status alert = "active") then
           let health := HealthStatus.set_ActiveAlerts
             (wrap 64 (HealthStatus.ActiveAlerts health + 1)) health in
           if bool_decide (Alert.Severity alert = AlertSeverityCritical)
           then (health, wrap 64 (criticalCount + 1))
           else (health, criticalCount)
         else (health, criticalCount))
      alerts (health, criticalCount) in
  HealthStatus.ActiveAlerts r.1
  = HealthStatus.ActiveAlerts health + len (filter is_active alerts) ∧
  r.2 = criticalCount + len (filter is_active_critical alerts).
Proof.
  revert health criticalCount.
  induction alerts as [|a alerts IH]; intros health cc Hact Hcc Hle Hmax.
  - cbn. unfold len. cbn. lia.
  - change (a :: alerts) with ([a] ++ alerts) in Hmax.
    rewrite len_app in Hmax. change (len [a]) with 1 in Hmax.
    pose proof (len_nonneg alerts). unfold int_max in *.
    cbn [fold_left]. cbn zeta in *.
    destruct (decide (Alert.Status a = "active")) as [Hs|Hs].
    + rewrite (bool_decide_eq_true_2 _ Hs).
      rewrite (filter_cons_True is_active) by done.
      destruct (decide (Alert.Severity a = AlertSeverityCritical)) as [Hc|Hc].
      * rewrite (bool_decide_eq_true_2 _ Hc).
        rewrite (filter_cons_True is_active_critical) by done.
        rewrite !wrap_small by lia.
        destruct (IH (HealthStatus.set_ActiveAlerts
                        (HealthStatus.ActiveAlerts health + 1) health)
                     (cc + 1)) as [-> ->]; cbn; try lia.
        change (a :: ?l) with ([a] ++ l). rewrite !len_app.
        change (len [a]) with 1. lia.
      * rewrite (bool_decide_eq_false_2 _ Hc).
        rewrite (filter_cons_False is_active_critical)
          by (intros [_ ?]; done).
        rewrite !wrap_small by lia.
        destruct (IH (HealthStatus.set_ActiveAlerts
                        (HealthStatus.ActiveAlerts health + 1) health)
                     cc) as [-> ->]; cbn; try lia.
        change (a :: ?l) with ([a] ++ l). rewrite !len_app.
        change (len [a]) with 1. lia.
    + rewrite (bool_decide_eq_false_2 _ Hs).
      rewrite (filter_cons_False is_active) by done.
      rewrite (filter_cons_False is_active_critical)
        by (intros [? _]; done).
      apply IH; lia.
Qed.

Lemma countAlerts_count alerts health :
  0 ≤ HealthStatus.ActiveAlerts health →
  HealthStatus.ActiveAlerts health + len alerts ≤ int_max →
  HealthStatus.ActiveAlerts (countAlerts alerts health).1
  = HealthStatus.ActiveAlerts health + len (filter is_active alerts) ∧
  (countAlerts alerts health).2 = len (filter is_active_critical alerts).
Proof.
  intros Hact Hmax. unfold countAlerts.
  apply (countAlerts_from alerts health 0); lia.
Qed.

Lemma AddCheck_counts check hs :
  HealthStatus.ActiveAlerts (HealthStatus.AddCheck check hs)
  = HealthStatus.ActiveAlerts hs ∧
  HealthStatus.CriticalAlerts (HealthStatus.AddCheck check hs)
  = HealthStatus.CriticalAlerts hs ∧
  HealthStatus.ClusterID (HealthStatus.AddCheck check hs)
  = HealthStatus.ClusterID hs ∧
  HealthStatus.LastCheck (HealthStatus.AddCheck check hs)
  = HealthStatus.LastCheck hs.
Proof.
  unfold HealthStatus.AddCheck, HealthStatus.calculateScore.
  by destruct (len _ =? 0).
Qed.

(** The counts, id and time of the status [GenerateHealthStatus] returns
    are those the counting loop leaves: the checks do not touch them. *)
Lemma GenerateHealthStatus_counts pa clusterID metrics alerts w :
  let counted :=
    countAlerts alerts
      (HealthStatus.mk clusterID "unknown" 0 0 0 (readings w (ticks w)) []) in
  let hs := eval (GenerateHealthStatus pa clusterID metrics alerts) w in
  HealthStatus.ActiveAlerts hs = HealthStatus.ActiveAlerts counted.1 ∧
  HealthStatus.CriticalAlerts hs = counted.2 ∧
  HealthStatus.ClusterID hs = HealthStatus.ClusterID counted.1 ∧
  HealthStatus.LastCheck hs = HealthStatus.LastCheck counted.1.
Proof.
  cbn zeta.
  unfold GenerateHealthStatus, eval, HealthStatus.NewHealthStatus, time_Now,
    mbind, Go_bind, mret, Go_ret.
  cbn [fst snd ticks readings].
  destruct (countAlerts alerts _) as [health criticalCount].
  destruct (0 <? Metrics.ConnectionsTotal metrics);
    cbn [fst snd ticks readings];
    repeat match goal with
           | |- context [HealthStatus.AddCheck ?c ?h] =>
               destruct (AddCheck_counts c h) as (-> & -> & -> & ->)
           end;
    done.
Qed.

Lemma countAlerts_frame alerts health :
  HealthStatus.ClusterID (countAlerts alerts health).1
  = HealthStatus.ClusterID health ∧
  HealthStatus.LastCheck (countAlerts alerts health).1
  = HealthStatus.LastCheck health.
Proof.
  unfold countAlerts. generalize 0 as criticalCount.
  revert health. induction alerts as [|a alerts IH]; intros health cc.
  - done.
  - cbn [fold_left].
    destruct (bool_decide (Alert.Status a = "active")); [|apply IH].
    destruct (bool_decide (Alert.Severity a = AlertSeverityCritical));
      by destruct (IH (HealthStatus.set_ActiveAlerts
                         (wrap 64 (HealthStatus.ActiveAlerts health + 1))
                         health) (wrap 64 (cc + 1))) as [-> ->] ||
      by destruct (IH (HealthStatus.set_ActiveAlerts
                         (wrap 64 (HealthStatus.ActiveAlerts health + 1))
                         health) cc) as [-> ->].
Qed.

Lemma len_filter_critical_le alerts :
  len (filter is_active_critical alerts) ≤ len (filter is_active alerts).
Proof.
  unfold len. apply inj_le.
  induction alerts as [|a alerts IH]; [done|].
  destruct (decide (is_active_critical a)) as [Hc|Hc].
  - rewrite (filter_cons_True is_active_critical) by done.
    rewrite (filter_cons_True is_active) by (by destruct Hc).
    cbn. lia.
  - rewrite (filter_cons_False is_active_critical) by done.
    destruct (decide (is_active a)).
    + rewrite (filter_cons_True is_active) by done. cbn. lia.
    + by rewrite (filter_cons_False is_active).
Qed.

(** X18: the health status counts as active the alerts whose status is
    active, and as critical those of them whose severity is critical;
    acknowledged and resolved alerts are not counted.  The status carries
    the cluster id it was asked for and the clock reading at which it was
    created. *)
Theorem GenerateHealthStatus_counts_active_alerts
    (pa : PerformanceAnalyzer) (clusterID : string) (metrics : Metrics.t)
    (alerts : list Alert.t) (w : World) :
  len alerts ≤ int_max →
  let hs := eval (GenerateHealthStatus pa clusterID metrics alerts) w in
  HealthStatus.ActiveAlerts hs = len (filter is_active alerts) ∧
  HealthStatus.CriticalAlerts hs = len (filter is_active_critical alerts) ∧
  HealthStatus.CriticalAlerts hs ≤ HealthStatus.ActiveAlerts hs ∧
  HealthStatus.ClusterID hs = clusterID ∧
  HealthStatus.LastCheck hs = readings w (ticks w).
Proof.
  intros Hmax. cbn zeta.
  destruct (GenerateHealthStatus_counts pa clusterID metrics alerts w)
    as (-> & -> & -> & ->).
  destruct (countAlerts_frame alerts
    (HealthStatus.mk clusterID "unknown" 0 0 0 (readings w (ticks w)) []))
    as [-> ->].
  destruct (countAlerts_count alerts
    (HealthStatus.mk clusterID "unknown" 0 0 0 (readings w (ticks w)) []))
    as [-> ->]; cbn; try lia.
  pose proof (len_filter_critical_le alerts). repeat split; lia.
Qed.

(** Witness: one active critical alert. *)
Lemma GenerateHealthStatus_counts_active_alerts_witness :
  let hs := eval (GenerateHealthStatus NewPerformanceAnalyzer "c1"
                    snapshot_cache_82 [alert_critical]) world0 in
  HealthStatus.ActiveAlerts hs = 1 ∧
  HealthStatus.CriticalAlerts hs = 1 ∧
  HealthStatus.CriticalAlerts hs ≤ HealthStatus.ActiveAlerts hs ∧
  HealthStatus.ClusterID hs = "c1" ∧
  HealthStatus.LastCheck hs = 0.
Proof.
  apply (GenerateHealthStatus_counts_active_alerts NewPerformanceAnalyzer
           "c1" snapshot_cache_82 [alert_critical] world0).
  by vm_compute.
Defined.

Lemma metrics_checks_new pa metrics :
  Forall (emits (is_new (Metrics.ClusterID metrics)))
         (metrics_checks pa metrics).
Proof.
  repeat apply Forall_cons_2; [..|apply Forall_nil_2].
  - unfold checkConnectionUsage. run_check_with ltac:(by repeat split).
  - unfold checkCacheHitRatio. run_check_with ltac:(by repeat split).
  - unfold checkCPUUsage. run_check_with ltac:(by repeat split).
  - unfold checkMemoryUsage. run_check_with ltac:(by repeat split).
  - unfold checkReplicationLag. run_check_with ltac:(by repeat split).
  - unfold checkLockWaits. run_check_with ltac:(by repeat split).
  - unfold checkDeadlocks. run_check_with ltac:(by repeat split).
  - unfold checkTableBloat. run_check_with ltac:(by repeat split).
Qed.

Lemma filter_all {A} (P : A → Prop) `{!∀ a, Decision (P a)} (l : list A) :
  Forall P l → filter P l = l.
Proof.
  induction 1 as [|a l Ha _ IH]; [done|].
  by rewrite filter_cons_True, IH.
Qed.

(** X19: the alerts [AnalyzeMetrics] returns are new: active, on the
    cluster of the snapshot, neither acknowledged nor resolved.  So the
    health status built from them, as the health endpoint does, counts
    every one of them as active, at most eight, and as critical exactly
    those of critical severity. *)
Theorem health_of_analysis_counts_every_alert
    (pa : PerformanceAnalyzer) (clusterID : string) (metrics : Metrics.t)
    (w w' : World) :
  let alerts := eval (AnalyzeMetrics pa metrics) w in
  let hs := eval (GenerateHealthStatus pa clusterID metrics alerts) w' in
  Forall (is_new (Metrics.ClusterID metrics)) alerts ∧
  HealthStatus.ActiveAlerts hs = len alerts ∧
  HealthStatus.ActiveAlerts hs ≤ 8 ∧
  HealthStatus.CriticalAlerts hs
  = len (filter (λ a, Alert.Severity a = AlertSeverityCritical) alerts).
Proof.
  cbn zeta.
  assert (Hnew : Forall (is_new (Metrics.ClusterID metrics))
                        (eval (AnalyzeMetrics pa metrics) w)).
  { rewrite AnalyzeMetrics_sequence.
    destruct (sequence_checks_emits _ _ (metrics_checks_new pa metrics)
                [] w) as (extra & -> & Hextra).
    exact Hextra. }
  assert (Hlen : (length (eval (AnalyzeMetrics pa metrics) w) ≤ 8)%nat).
  { rewrite <- (length_fmap Alert.Metric), AnalyzeMetrics_metrics.
    etrans; [apply length_filter|]. reflexivity. }
  set (alerts := eval (AnalyzeMetrics pa metrics) w) in *.
  destruct (GenerateHealthStatus_counts pa clusterID metrics alerts w')
    as (-> & -> & _).
  destruct (countAlerts_count alerts
    (HealthStatus.mk clusterID "unknown" 0 0 0 (readings w' (ticks w')) []))
    as [-> ->]; cbn; try lia.
  { unfold len, int_max. lia. }
  assert (Hact : filter is_active alerts = alerts).
  { apply filter_all. eapply Forall_impl; [exact Hnew|].
    by intros a (? & _). }
  assert (Hcrit : filter is_active_critical alerts
                  = filter (λ a, Alert.Severity a = AlertSeverityCritical)
                           alerts).
  { clear -Hnew. induction Hnew as [|a l (Ha & _) _ IH]; [done|].
    destruct (decide (Alert.Severity a = AlertSeverityCritical)) as [Hc|Hc].
    - rewrite (filter_cons_True is_active_critical) by done.
      rewrite filter_cons_True by done. by rewrite IH.
    - rewrite (filter_cons_False is_active_critical)
        by (intros [_ ?]; done).
      by rewrite filter_cons_False. }
  rewrite Hact, Hcrit. split; [done|]. split; [done|].
  split; [unfold len; lia|done].
Qed.

(** ** The lifecycle of an alert *)

(** X20: acknowledging an alert records who did it and when and marks it
    acknowledged; resolving it afterwards marks it resolved, records
    when, and keeps the acknowledgement.  Neither changes the finding the
    alert carries, and neither kind of alert is counted by a health
    status.  The order is not enforced: acknowledging a resolved alert
    marks it acknowledged again, with its resolution time still set. *)
Theorem alert_lifecycle
    (by_ again : string) (a : Alert.t) (w : World)
    (pa : PerformanceAnalyzer) (clusterID : string) (metrics : Metrics.t)
    (w' : World) :
  let acked := eval (Alert.Acknowledge by_ a) w in
  let w1 := exec (Alert.Acknowledge by_ a) w in
  let resolved := eval (Alert.Resolve acked) w1 in
  let reacked := eval (Alert.Acknowledge again resolved)
                      (exec (Alert.Resolve acked) w1) in
  (Alert.Status acked = "acknowledged" ∧
   Alert.AcknowledgedBy acked = by_ ∧
   Alert.AcknowledgedAt acked = Some (readings w (ticks w)) ∧
   Alert.ResolvedAt acked = Alert.ResolvedAt a ∧
   same_finding acked a) ∧
  (Alert.Status resolved = "resolved" ∧
   Alert.AcknowledgedBy resolved = by_ ∧
   Alert.AcknowledgedAt resolved = Some (readings w (ticks w)) ∧
   Alert.ResolvedAt resolved = Some (readings w (S (ticks w))) ∧
   same_finding resolved a) ∧
  (Alert.Status reacked = "acknowledged" ∧
   Alert.AcknowledgedBy reacked = again ∧
   Alert.ResolvedAt reacked = Some (readings w (S (ticks w)))) ∧
  (let hs := eval (GenerateHealthStatus pa clusterID metrics
                     [acked; resolved]) w' in
   HealthStatus.ActiveAlerts hs = 0 ∧ HealthStatus.CriticalAlerts hs = 0).
Proof.
  cbn zeta.
  destruct (GenerateHealthStatus_counts pa clusterID metrics
              [eval (Alert.Acknowledge by_ a) w;
               eval (Alert.Resolve (eval (Alert.Acknowledge by_ a) w))
                    (exec (Alert.Acknowledge by_ a) w)] w')
    as (-> & -> & _).
  unfold Alert.Acknowledge, Alert.Resolve, eval, exec, time_Now,
    mbind, Go_bind, mret, Go_ret, same_finding.
  cbn [fst snd readings ticks].
  split; [by repeat split|]. split; [by repeat split|].
  split; [by repeat split|].
  by vm_compute.
Qed.

(** ** Health checks and alerts *)

Lemma check_agrees (cond : bool) name metric pa metrics w :
  check_metric name = Some metric →
  metric ∈ metric_names →
  exceeds pa metrics metric = cond →
  (if cond then "warning" else "ok") = "warning" ↔
  ∃ metric', check_metric name = Some metric' ∧
             metric' ∈ (Alert.Metric <$> eval (AnalyzeMetrics pa metrics) w).
Proof.
  intros Hname Hin Hcond. rewrite AnalyzeMetrics_metrics. split.
  - intros Hw. exists metric. split; [done|].
    apply list_elem_of_filter. split; [|done].
    rewrite Hcond. by destruct cond.
  - intros (metric' & Hname' & [Hex _]%list_elem_of_filter).
    rewrite Hname in Hname'. injection Hname' as <-.
    rewrite Hcond in Hex. by rewrite Hex.
Qed.

(** X21: the health checks agree with the alerts.  A check of
    [GenerateHealthStatus] is in warning exactly when [AnalyzeMetrics]
    raises an alert on the metric the check reports on, and is ok
    otherwise; the connectivity check reports on no metric and is always
    ok. *)
Theorem health_checks_agree_with_alerts
    (pa : PerformanceAnalyzer) (clusterID : string) (metrics : Metrics.t)
    (alerts : list Alert.t) (w w' : World) :
  let hs := eval (GenerateHealthStatus pa clusterID metrics alerts) w' in
  Forall (λ check,
            (HealthCheck.Status check = "warning" ↔
             ∃ metric,
               check_metric (HealthCheck.Name check) = Some metric ∧
               metric ∈ (Alert.Metric <$> eval (AnalyzeMetrics pa metrics) w))
            ∧ (HealthCheck.Status check = "ok" ∨
               HealthCheck.Status check = "warning"))
         (HealthStatus.Checks hs).
Proof.
  cbn zeta.
  destruct (GenerateHealthStatus_checks pa clusterID metrics alerts w')
    as (health & checks & Hnil & -> & Hchecks).
  rewrite with_checks_Checks, Hnil, app_nil_l.
  assert (Hconnectivity :
    ("ok" = "warning" ↔
     ∃ metric, check_metric "Database Connectivity" = Some metric ∧
       metric ∈ (Alert.Metric <$> eval (AnalyzeMetrics pa metrics) w))
    ∧ ("ok" = "ok" ∨ "ok" = "warning")).
  { split; [|by left]. split; [discriminate|]. by intros (? & ? & _). }
  assert (Hcache := check_agrees _ "Cache Performance" "cache_hit_ratio"
                      pa metrics w eq_refl ltac:(repeat first [apply list_elem_of_here | apply list_elem_of_further]) eq_refl).
  assert (Hcpu := check_agrees _ "CPU Usage" "cpu_usage"
                    pa metrics w eq_refl ltac:(repeat first [apply list_elem_of_here | apply list_elem_of_further]) eq_refl).
  assert (Hmem := check_agrees _ "Memory Usage" "memory_usage"
                    pa metrics w eq_refl ltac:(repeat first [apply list_elem_of_here | apply list_elem_of_further]) eq_refl).
  assert (Hstatus : ∀ cond : bool,
            (if cond then "warning" else "ok") = "ok" ∨
            (if cond then "warning" else "ok") = "warning")
    by (intros []; auto).
  destruct (0 <? Metrics.ConnectionsTotal metrics) eqn:Htotal;
    cbn [app] in Hchecks;
    destruct checks as [|[] [|[] [|[] [|[] [|[] [|]]]]]];
    try discriminate Hchecks; cbn in Hchecks.
  - injection Hchecks as -> -> -> -> -> -> -> -> -> ->.
    assert (Hconn := check_agrees
      (float64.gt (connPercent metrics) (MaxConnectionsPercent (thresholds pa)))
      "Connection Pool" "connections_active" pa metrics w eq_refl
      ltac:(repeat first [apply list_elem_of_here | apply list_elem_of_further])).
    repeat apply Forall_cons_2; try apply Forall_nil_2;
      cbn [HealthCheck.Name HealthCheck.Status]; try (split; [|apply Hstatus]).
    + exact Hconnectivity.
    + apply Hconn. unfold exceeds. cbn. by rewrite Htotal.
    + exact Hcache.
    + exact Hcpu.
    + exact Hmem.
  - injection Hchecks as -> -> -> -> -> -> -> ->.
    repeat apply Forall_cons_2; try apply Forall_nil_2;
      cbn [HealthCheck.Name HealthCheck.Status]; try (split; [|apply Hstatus]).
    + exact Hconnectivity.
    + exact Hcache.
    + exact Hcpu.
    + exact Hmem.
Qed.

Lemma filter_four (f : string → bool) (a b c d : string) :
  filter (λ x, f x = true) [a; b; c; d]
  = when (f a) a ++ when (f b) b ++ when (f c) c ++ when (f d) d.
Proof.
  rewrite !filter_cons, filter_nil.
  by destruct (f a), (f b), (f c), (f d).
Qed.

Lemma exceeded_resources_count pa metrics :
  exceeded_resources pa metrics =
  len (when ((0 <? Metrics.ConnectionsTotal metrics) &&
             float64.gt (connPercent metrics)
                        (MaxConnectionsPercent (thresholds pa)))
            "connections_active" ++
       when (float64.lt (Metrics.CacheHitRatio metrics)
                        (MinCacheHitRatio (thresholds pa)))
            "cache_hit_ratio" ++
       when (float64.gt (Metrics.CPUUsage metrics)
                        (MaxCPUPercent (thresholds pa)))
            "cpu_usage" ++
       when (float64.gt (Metrics.MemoryUsage metrics)
                        (MaxMemoryPercent (thresholds pa)))
            "memory_usage").
Proof.
  unfold exceeded_resources, resource_metrics.
  by rewrite filter_four.
Qed.

(** X22: the grade of a cluster.  The status of [GenerateHealthStatus]
    depends only on how many of the four resource metrics (connection use,
    cache hit ratio, CPU, memory) are beyond their threshold: none gives
    healthy, one warning, two degraded, three or more critical; the score
    is the share of the checks that are ok.  Neither the alerts handed in
    nor replication lag, lock waits, deadlocks or bloat change it. *)
Theorem GenerateHealthStatus_grades
    (pa : PerformanceAnalyzer) (clusterID : string) (metrics : Metrics.t)
    (alerts : list Alert.t) (w : World) :
  let hs := eval (GenerateHealthStatus pa clusterID metrics alerts) w in
  let failed := exceeded_resources pa metrics in
  let checks := if 0 <? Metrics.ConnectionsTotal metrics then 5 else 4 in
  HealthStatus.Score hs = 100 * (checks - failed) / checks ∧
  (HealthStatus.Status hs = "healthy" ↔ failed = 0) ∧
  (HealthStatus.Status hs = "warning" ↔ failed = 1) ∧
  (HealthStatus.Status hs = "degraded" ↔ failed = 2) ∧
  (HealthStatus.Status hs = "critical" ↔ 3 ≤ failed).
Proof.
  cbn zeta.
  destruct (GenerateHealthStatus_checks pa clusterID metrics alerts w)
    as (health & checks & Hnil & -> & Hchecks).
  rewrite exceeded_resources_count.
  destruct (0 <? Metrics.ConnectionsTotal metrics) eqn:Htotal;
    cbn [app andb] in Hchecks |- *;
    destruct checks as [|[] [|[] [|[] [|[] [|[] [|]]]]]];
    try discriminate Hchecks; cbn in Hchecks.
  - injection Hchecks as -> -> -> -> -> -> -> -> -> ->.
    match goal with
    | |- context [with_checks health ?cs] =>
        destruct (with_checks_score health cs Hnil ltac:(discriminate)
                    ltac:(vm_compute; discriminate)) as [-> ->]
    end.
    destruct (float64.gt (connPercent metrics) _),
             (float64.lt (Metrics.CacheHitRatio metrics) _),
             (float64.gt (Metrics.CPUUsage metrics) _),
             (float64.gt (Metrics.MemoryUsage metrics) _);
      vm_compute; repeat split; intros; congruence.
  - injection Hchecks as -> -> -> -> -> -> -> ->.
    match goal with
    | |- context [with_checks health ?cs] =>
        destruct (with_checks_score health cs Hnil ltac:(discriminate)
                    ltac:(vm_compute; discriminate)) as [-> ->]
    end.
    destruct (float64.lt (Metrics.CacheHitRatio metrics) _),
             (float64.gt (Metrics.CPUUsage metrics) _),
             (float64.gt (Metrics.MemoryUsage metrics) _);
      vm_compute; repeat split; intros; congruence.
Qed.

(** ** Alerts on a statement *)

(** X23: [AnalyzeQueryPerformance] returns at most two alerts, in a fixed
    order: "Slow Query Detected" exactly when the execution time is above
    the slow-query limit, then "High Temp Block Usage" exactly when more
    than 10000 temporary blocks were read or written.  Each one is new, on
    the statement's cluster, and records the statement's id under
    "query_id". *)
Theorem AnalyzeQueryPerformance_alerts
    (pa : PerformanceAnalyzer) (qm : QueryMetrics.t) (w : World) :
  let alerts := eval (AnalyzeQueryPerformance pa qm) w in
  Alert.Title <$> alerts =
    when (float64.gt (QueryMetrics.ExecutionTime qm)
                     (MaxSlowQueryTimeMs (thresholds pa)))
         "Slow Query Detected" ++
    when ((10000 <? QueryMetrics.TempBlocksRead qm) ||
          (10000 <? QueryMetrics.TempBlocksWritten qm))
         "High Temp Block Usage" ∧
  Forall (tagged_with_query qm) alerts.
Proof.
  cbn zeta.
  unfold AnalyzeQueryPerformance, checkSlowQuery, checkTempBlocks.
  destruct (float64.gt _ (MaxSlowQueryTimeMs _));
    destruct ((10000 <? _) || (10000 <? _));
    unfold eval, Alert.NewAlert, time_Now, mbind, Go_bind, mret, Go_ret;
    cbn [fst snd app]; alert_fields;
    (split; [reflexivity|]);
    repeat apply Forall_cons_2; try apply Forall_nil_2;
    (split; [by repeat split|]); alert_fields;
    apply lookup_insert_eq.
Qed.

(** ** The range of the health score *)

Lemma filter_length_all {A} (P : A → Prop) `{!∀ a, Decision (P a)}
    (l : list A) :
  len (filter P l) = len l ↔ Forall P l.
Proof.
  split; [|intros Hall; by rewrite (filter_all P l Hall)].
  unfold len. intros Hlen. apply Nat2Z.inj in Hlen.
  induction l as [|a l IH]; [by apply Forall_nil_2|].
  pose proof (length_filter P l) as Hle.
  destruct (decide (P a)) as [Ha|Ha].
  - rewrite filter_cons_True in Hlen by done. cbn in Hlen.
    apply Forall_cons_2; [done|]. apply IH. lia.
  - rewrite filter_cons_False in Hlen by done. cbn in Hlen. lia.
Qed.

(** X24: the score stays in its range.  After [AddCheck] the score lies
    between 0 and 100, it is 100 exactly when every check passes and 0
    when none does, the status is healthy exactly from a score of 90 up,
    and it is never left at unknown. *)
Theorem AddCheck_score_range (check : HealthCheck.t) (hs : HealthStatus.t) :
  (len (HealthStatus.Checks hs) + 1) * 100 ≤ int_max →
  let hs' := HealthStatus.AddCheck check hs in
  0 ≤ HealthStatus.Score hs' ≤ 100 ∧
  (HealthStatus.Score hs' = 100 ↔ Forall passes (HealthStatus.Checks hs')) ∧
  (Forall (λ c, ¬ passes c) (HealthStatus.Checks hs') →
   HealthStatus.Score hs' = 0) ∧
  (HealthStatus.Status hs' = "healthy" ↔ 90 ≤ HealthStatus.Score hs') ∧
  HealthStatus.Status hs' ≠ "unknown".
Proof.
  intros Hmax. cbn zeta. unfold HealthStatus.AddCheck.
  set (hs1 := HealthStatus.set_Checks (HealthStatus.Checks hs ++ [check]) hs).
  assert (Hchecks : HealthStatus.Checks hs1 = HealthStatus.Checks hs ++ [check])
    by reflexivity.
  assert (Hne : HealthStatus.Checks hs1 ≠ [])
    by (rewrite Hchecks; by destruct (HealthStatus.Checks hs)).
  assert (Hlen : len (HealthStatus.Checks hs1) = len (HealthStatus.Checks hs) + 1)
    by (rewrite Hchecks, len_app; reflexivity).
  destruct (calculateScore_nonempty hs1 Hne ltac:(lia)) as [Hscore Hstatus].
  rewrite calculateScore_Checks.
  pose proof (len_nonneg (HealthStatus.Checks hs)) as Hn.
  pose proof (len_nonneg (filter passes (HealthStatus.Checks hs1))) as Hp.
  pose proof (len_filter_le passes (HealthStatus.Checks hs1)) as Hle.
  pose proof (filter_length_all passes (HealthStatus.Checks hs1)) as Hall.
  rewrite <- Hall. clear Hall.
  set (n := len (HealthStatus.Checks hs1)) in *.
  set (p := len (filter passes (HealthStatus.Checks hs1))) in *.
  assert (Hrange : 0 ≤ 100 * p / n ≤ 100).
  { split; [apply Z.div_pos; lia|].
    apply Z.div_le_upper_bound; lia. }
  rewrite Hstatus, Hscore. clear Hstatus Hscore.
  split; [exact Hrange|]. split; [|split; [|split]].
  - split.
    + intros H100.
      assert (n * 100 ≤ 100 * p); [|lia].
      rewrite <- H100 at 1. apply Z.mul_div_le. lia.
    + intros ->. apply Z.div_mul. lia.
  - intros Hnone. subst p.
    assert (Hempty : filter passes (HealthStatus.Checks hs1) = []).
    { clear -Hnone. induction Hnone as [|c l Hc _ IH]; [done|].
      by rewrite filter_cons_False. }
    rewrite Hempty. reflexivity.
  - destruct (90 <=? 100 * p / n) eqn:H90; [split; [lia|done]|].
    split; [|lia].
    repeat case_match; discriminate.
  - repeat case_match; discriminate.
Qed.

Lemma AddCheck_score_range_witness :
  let hs' := HealthStatus.AddCheck (check_with_status "ok")
               (HealthStatus.mk "c1" "unknown" 0 0 0 0 []) in
  0 ≤ HealthStatus.Score hs' ≤ 100 ∧
  (HealthStatus.Score hs' = 100 ↔ Forall passes (HealthStatus.Checks hs')) ∧
  (Forall (λ c, ¬ passes c) (HealthStatus.Checks hs') →
   HealthStatus.Score hs' = 0) ∧
  (HealthStatus.Status hs' = "healthy" ↔ 90 ≤ HealthStatus.Score hs') ∧
  HealthStatus.Status hs' ≠ "unknown".
Proof.
  apply (AddCheck_score_range (check_with_status "ok")
           (HealthStatus.mk "c1" "unknown" 0 0 0 0 [])).
  vm_compute. discriminate.
Defined.

(** ** Configurations *)

Lemma validLevels_levels level :
  default false (config.validLevels !! level) = true ↔ level ∈ log_levels.
Proof.
  unfold config.validLevels, log_levels.
  rewrite !elem_of_cons, elem_of_nil.
  repeat match goal with
  | |- context [<[?k := _]> _ !! level] =>
      destruct (decide (k = level)) as [<-|?];
        [rewrite lookup_insert_eq; cbn; tauto
        |rewrite lookup_insert_ne by done]
  end.
  rewrite lookup_empty. cbn. split; [discriminate|].
  intuition congruence.
Qed.

Lemma port_check port :
  (port <? 1) || (65535 <? port) = false ↔ port_ok port.
Proof.
  unfold port_ok.
  destruct (port <? 1) eqn:H1; destruct (65535 <? port) eqn:H2; cbn; lia.
Qed.

Lemma validateClusters_accepts i clusters :
  config.validateClusters i clusters = None ↔ Forall cluster_ok clusters.
Proof.
  revert i. induction clusters as [|cluster clusters IH]; intros i.
  - cbn. split; [intros _; apply Forall_nil_2|done].
  - cbn [config.validateClusters]. rewrite Forall_cons. unfold cluster_ok at 1.
    pose proof (port_check (config.ClusterConfig.Port cluster)) as Hport.
    destruct ((_ <? 1) || (65535 <? _));
      repeat case_decide; rewrite ?IH; split;
      try discriminate; intuition congruence.
Qed.

Lemma Validate_accepts c :
  config.Validate c = None ↔ well_formed c.
Proof.
  unfold config.Validate, well_formed.
  pose proof (port_check (config.ServerConfig.Port (config.Server c)))
    as Hport.
  pose proof (validLevels_levels (config.LoggingConfig.Level (config.Logging c)))
    as Hlevel.
  rewrite <- validateClusters_accepts with (i := 0).
  destruct ((_ <? 1) || (65535 <? _));
    [split; [discriminate|intros [? _]; intuition congruence]|].
  destruct (default false _);
    cbn [negb]; [|split; [discriminate|intros (_ & ? & _); intuition congruence]].
  destruct (config.Clusters c) as [|cluster clusters].
  - cbn. split; [discriminate|]. by intros (_ & _ & ? & _).
  - replace (len (cluster :: clusters) =? 0) with false
      by (symmetry; apply Z.eqb_neq; unfold len; cbn; lia).
    intuition congruence.
Qed.

(** X25: [Validate] accepts a configuration exactly when the server port
    is a TCP port, the log level is one of debug, info, warn, error and
    fatal, there is at least one cluster, and every cluster has an id, a
    host, a TCP port, a user and a database. *)
Theorem Validate_accepts_well_formed (c : config.Config) :
  config.Validate c = None ↔ well_formed c.
Proof. apply Validate_accepts. Qed.

Lemma GetCluster_range_Returns clusters clusterID cluster :
  config.GetCluster_range clusters clusterID = config.Returns cluster ↔
  ∃ before after,
    clusters = before ++ cluster :: after ∧
    config.ClusterConfig.ID cluster = clusterID ∧
    Forall (λ other, config.ClusterConfig.ID other ≠ clusterID) before.
Proof.
  induction clusters as [|first clusters IH]; cbn.
  - split; [discriminate|]. intros ([|??] & ? & ? & _); discriminate.
  - case_decide as Hid.
    + split.
      * intros [= ->]. exists [], clusters. by repeat split.
      * intros ([|first' before] & after & Heq & Hc & Hbefore).
        -- by injection Heq as ->.
        -- injection Heq as <- _. by apply Forall_cons in Hbefore as [? _].
    + rewrite IH. split.
      * intros (before & after & -> & Hc & Hbefore).
        exists (first :: before), after.
        split; [done|]. split; [done|]. by apply Forall_cons_2.
      * intros ([|first' before] & after & Heq & Hc & Hbefore).
        -- injection Heq as -> _. congruence.
        -- injection Heq as <- ->. apply Forall_cons in Hbefore as [_ ?].
           by exists before, after.
Qed.

Lemma GetCluster_range_Fails clusters clusterID e :
  config.GetCluster_range clusters clusterID = config.Fails e ↔
  e = config.ErrNotConfigured clusterID ∧
  Forall (λ other, config.ClusterConfig.ID other ≠ clusterID) clusters.
Proof.
  induction clusters as [|first clusters IH]; cbn.
  - split; [by intros [= <-]|by intros [-> _]].
  - case_decide as Hid.
    + split; [discriminate|]. by intros [_ [? _]%Forall_cons].
    + rewrite IH, Forall_cons. tauto.
Qed.

(** X26: [GetCluster] returns the first cluster of the configuration
    that has the id, fails with "not found in configuration" exactly when
    no cluster has it, and never panics. *)
Theorem GetCluster_finds_first
    (c : config.Config) (clusterID : string) :
  (∀ cluster,
     config.GetCluster c clusterID = config.Returns cluster ↔
     ∃ before after,
       config.Clusters c = before ++ cluster :: after ∧
       config.ClusterConfig.ID cluster = clusterID ∧
       Forall (λ other, config.ClusterConfig.ID other ≠ clusterID) before) ∧
  (∀ e,
     config.GetCluster c clusterID = config.Fails e ↔
     e = config.ErrNotConfigured clusterID ∧
     clusterID ∉ config.ClusterConfig.ID <$> config.Clusters c) ∧
  config.GetCluster c clusterID ≠ config.Panics.
Proof.
  unfold config.GetCluster. split; [|split].
  - intros cluster. apply GetCluster_range_Returns.
  - intros e. rewrite GetCluster_range_Fails.
    assert (Forall (λ other, config.ClusterConfig.ID other ≠ clusterID)
                   (config.Clusters c)
            ↔ clusterID ∉ config.ClusterConfig.ID <$> config.Clusters c)
      as ->; [|done].
    rewrite Forall_forall, list_elem_of_fmap. split.
    + intros Hall (other & -> & Hin). by apply (Hall other).
    + intros Hnone other Hin Heq. apply Hnone. by exists other.
  - induction (config.Clusters c) as [|first clusters IH]; cbn; [done|].
    by case_decide.
Qed.

(** Name the first [let] of the configuration under [config.Clusters]. *)
Ltac step_let y :=
  lazymatch goal with
  | |- config.Clusters (let x := ?e in @?b x) = ?rhs =>
      pose (y := e);
      let body := eval cbv beta in (b y) in
      change (config.Clusters body = rhs)
  end.

(** The same for a step that updates the configuration [c] in a field
    other than the clusters. *)
Ltac step_config c :=
  let c' := fresh "c" in
  step_let c';
  let H := fresh "H" in
  assert (H : config.Clusters c' = config.Clusters c)
    by (subst c'; repeat first [case_decide | case_match]; reflexivity);
  clearbody c'; rewrite <- H; clear H c; rename c' into c.

Lemma overrideFromEnv_Clusters os c :
  config.Clusters (config.overrideFromEnv os c) =
  config.Clusters c ++
  (if decide (config.Getenv os "DATABASE_HOST" ≠ "")
   then [env_cluster os] else []).
Proof.
  unfold env_cluster. cbv beta delta [config.overrideFromEnv].
  do 9 (let v := fresh "v" in step_let v; subst v; step_config c).
  cbv zeta. by case_decide; [|rewrite app_nil_r].
Qed.

Lemma getEnv_nonempty os key defaultValue :
  defaultValue ≠ "" → config.getEnv os key defaultValue ≠ "".
Proof. intros Hd. unfold config.getEnv. by case_decide. Qed.

(** X27: loading a configuration.  Whatever [LoadConfig] returns passed
    [Validate].  Without a file the configuration comes from the
    defaults and the environment alone, and loading succeeds exactly when
    DATABASE_HOST is set and the server port, the log level and the
    database port that result are valid: the one cluster is then built
    from the DATABASE_ variables, whose defaults fill in its id, user and
    database, and DATABASE_NAME gives both its name and its database. *)
Theorem LoadConfig_from_environment (os : config.Os) :
  (∀ configPath cfg,
     config.LoadConfig os configPath = config.Returns cfg → well_formed cfg) ∧
  (∀ cfg,
     config.LoadConfig os "" = config.Returns cfg ↔
     cfg = config.overrideFromEnv os config.defaultConfig ∧
     config.Getenv os "DATABASE_HOST" ≠ "" ∧
     config.Clusters cfg = [env_cluster os] ∧
     port_ok (config.ServerConfig.Port (config.Server cfg)) ∧
     config.LoggingConfig.Level (config.Logging cfg) ∈ log_levels ∧
     port_ok (config.getEnvInt os "DATABASE_PORT" 5432)).
Proof.
  split.
  - intros configPath cfg. unfold config.LoadConfig.
    destruct (decide (configPath ≠ "")) as [_|_];
      [destruct (config.ReadFile os configPath) as [data|];
         [destruct (config.expandEnvVars os data) as [expandedData|];
            [destruct (config.Unmarshal os expandedData config.defaultConfig)
               as [cfg0|]|]|]|];
      try discriminate.
    + generalize (config.overrideFromEnv os cfg0). intros cfg1.
      destruct (config.Validate cfg1) eqn:Hvalid; [discriminate|].
      intros [= <-]. apply Validate_accepts. exact Hvalid.
    + generalize (config.overrideFromEnv os config.defaultConfig). intros cfg1.
      destruct (config.Validate cfg1) eqn:Hvalid; [discriminate|].
      intros [= <-]. apply Validate_accepts. exact Hvalid.
  - intros cfg. unfold config.LoadConfig.
    destruct (decide ("" ≠ "")) as [Hne|_]; [by destruct Hne|].
    pose proof (Validate_accepts
                  (config.overrideFromEnv os config.defaultConfig)) as Hvalid.
    pose proof (overrideFromEnv_Clusters os config.defaultConfig) as Hclusters.
    change (config.Clusters config.defaultConfig) with (@nil config.ClusterConfig.t)
      in Hclusters.
    rewrite app_nil_l in Hclusters.
    unfold well_formed in Hvalid. rewrite Hclusters in Hvalid.
    revert Hvalid Hclusters.
    generalize (config.overrideFromEnv os config.defaultConfig). intros cfg0.
    intros Hvalid Hclusters.
    split.
    + destruct (config.Validate cfg0); [discriminate|]. intros [= <-].
      destruct Hvalid as [(Hport & Hlevel & Hne & Hall) _]; [reflexivity|].
      rewrite Hclusters.
      destruct (decide (config.Getenv os "DATABASE_HOST" ≠ "")) as [Hhost|_];
        [|by destruct Hne].
      apply Forall_singleton in Hall as (_ & _ & Hdbport & _).
      split; [reflexivity|]. split; [exact Hhost|]. split; [reflexivity|].
      split; [exact Hport|]. split; [exact Hlevel|]. exact Hdbport.
    + intros (-> & Hhost & _ & Hport & Hlevel & Hdbport).
      rewrite (proj2 Hvalid); [reflexivity|].
      destruct (decide (config.Getenv os "DATABASE_HOST" ≠ "")) as [_|Hno];
        [|by destruct Hno].
      split; [exact Hport|]. split; [exact Hlevel|]. split; [discriminate|].
      apply Forall_singleton. unfold cluster_ok, env_cluster.
      cbn [config.ClusterConfig.ID config.ClusterConfig.Host
           config.ClusterConfig.Port config.ClusterConfig.User
           config.ClusterConfig.Database].
      split; [by apply getEnv_nonempty|]. split; [exact Hhost|].
      split; [exact Hdbport|].
      split; by apply getEnv_nonempty.
Qed.

(** ** References to environment variables *)

Lemma append_cons a s t : String a s +:+ t = String a (s +:+ t).
Proof. reflexivity. Qed.

Lemma substring_prefix s t :
  String.substring 0 (String.length s) (s +:+ t) = s.
Proof.
  induction s as [|a s IH]; [by destruct t|].
  rewrite append_cons. cbn. by rewrite IH.
Qed.

Lemma substring_all s : String.substring 0 (String.length s) s = s.
Proof. induction s as [|a s IH]; [done|]. cbn. by rewrite IH. Qed.

Lemma length_append s t :
  String.length (s +:+ t) = (String.length s + String.length t)%nat.
Proof.
  induction s as [|a s IH]; [done|].
  rewrite append_cons. cbn. by rewrite IH.
Qed.

(** X28: the callback of [expandEnvVars].  A reference ${NAME} or $NAME
    is replaced by the value of the variable NAME, and left as it is when
    the variable is unset or empty; the slices taken from the match are
    the name exactly.  The callback panics only on a match shorter than
    two bytes or made of one byte and an opening brace. *)
Theorem expandMatch_expands (os : config.Os) (name : string) :
  config.expandMatch os ("${" +:+ name +:+ "}")
  = Some (expansion os name ("${" +:+ name +:+ "}")) ∧
  (name ≠ "" → ¬ braced name →
   config.expandMatch os ("$" +:+ name)
   = Some (expansion os name ("$" +:+ name))) ∧
  (∀ reference,
     config.expandMatch os reference = None ↔
     (String.length reference < 2)%nat ∨ ∃ c, reference = String c "{").
Proof.
  split; [|split].
  - unfold config.expandMatch, expansion.
    rewrite !append_cons. change ("" +:+ name +:+ "}") with (name +:+ "}").
    cbn. rewrite length_append. cbn.
    replace (String.length name + 1 - 1)%nat with (String.length name) by lia.
    rewrite (decide_True (P := _ = _)) by reflexivity.
    rewrite decide_True by lia. cbn.
    rewrite substring_prefix. by case_decide.
  - intros Hne Hbrace. destruct name as [|c rest]; [done|].
    unfold config.expandMatch, expansion, braced in *.
    rewrite !append_cons. change ("" +:+ String c rest) with (String c rest).
    cbn in *.
    rewrite decide_False by congruence.
    cbn. rewrite ?Nat.sub_0_r, substring_all. by case_decide.
  - intros reference. unfold config.expandMatch.
    destruct reference as [|a [|b rest]]; cbn.
    + split; [intros _; left; lia|done].
    + split; [intros _; left; lia|done].
    + case_decide as Hb.
      * destruct rest as [|c rest]; cbn.
        -- split; [intros _; right; exists a; by rewrite Hb|done].
        -- rewrite decide_True by lia. cbn.
           split; [by case_decide|].
           intros [Hlen|[c' Heq]]; [cbn in Hlen; lia|discriminate Heq].
      * cbn. split; [by case_decide|].
        intros [Hlen|[c' Heq]]; [cbn in Hlen; lia|].
        injection Heq as _ Hb' _. congruence.
Qed.

(** ** The cluster collector *)

Lemma keeps_ids_refl cc : keeps_ids cc cc.
Proof. split; [done|]. intros r c Hc. by exists c. Qed.

Lemma keeps_ids_trans cc1 cc2 cc3 :
  keeps_ids cc1 cc2 → keeps_ids cc2 cc3 → keeps_ids cc1 cc3.
Proof.
  intros [Hm1 Hs1] [Hm2 Hs2]. split; [congruence|].
  intros r c Hc. destruct (Hs1 r c Hc) as (c' & Hc' & Hid').
  destruct (Hs2 r c' Hc') as (c'' & Hc'' & Hid''). exists c''.
  split; [done|congruence].
Qed.

Lemma keeps_ids_tracked cc cc' :
  keeps_ids cc cc' → tracked_by_id cc → tracked_by_id cc'.
Proof.
  intros [Hm Hs] Htracked clusterID r Hr. rewrite Hm in Hr.
  destruct (Htracked clusterID r Hr) as (c & Hc & Hid).
  destruct (Hs r c Hc) as (c' & Hc' & Hid'). exists c'.
  split; [done|congruence].
Qed.

Lemma through_keeps_ids r f cc cc' :
  (∀ c c', f c = Some c' → Cluster.ID c' = Cluster.ID c) →
  ClusterCollector.through r f cc = Some cc' → keeps_ids cc cc'.
Proof.
  intros Hf. unfold ClusterCollector.through.
  destruct (ClusterCollector.store cc !! r) as [c|] eqn:Hr; [|done]. cbn.
  destruct (f c) as [c'|] eqn:Hfc; [|done]. cbn. intros [= <-].
  split; [done|]. cbn. intros r0 c0 Hc0.
  destruct (decide (r0 = r)) as [->|Hne].
  - rewrite lookup_insert_eq. exists c'. split; [done|].
    rewrite Hr in Hc0. injection Hc0 as <-. by apply Hf.
  - rewrite lookup_insert_ne by done. by exists c0.
Qed.

Lemma set_Configuration_ID key v c c' :
  Cluster.set_Configuration key v c = Some c' → Cluster.ID c' = Cluster.ID c.
Proof.
  unfold Cluster.set_Configuration.
  destruct (Cluster.Configuration c); [|done]. by intros [= <-].
Qed.

Lemma store_result_keeps_ids {A} key (inj : A → Cluster.value) r cluster
    cc0 cc cc' :
  keeps_ids cc0 cc →
  ClusterCollector.store_result key inj r cluster (Some cc) = Some cc' →
  keeps_ids cc0 cc'.
Proof.
  intros Hkeeps. unfold ClusterCollector.store_result. cbn.
  destruct r as [v|err].
  - intros Hthrough. eapply keeps_ids_trans; [exact Hkeeps|].
    eapply through_keeps_ids; [|exact Hthrough].
    intros c c'. apply set_Configuration_ID.
  - by intros [= <-].
Qed.

Lemma store_result_None {A} key (inj : A → Cluster.value) r cluster :
  ClusterCollector.store_result key inj r cluster None = None.
Proof. reflexivity. Qed.

Lemma alloc_fresh c cc :
  ClusterCollector.store cc !! (ClusterCollector.alloc c cc).1 = None.
Proof. cbn. apply not_elem_of_dom, is_fresh. Qed.

Lemma alloc_tracked c cc :
  tracked_by_id cc → tracked_by_id (ClusterCollector.alloc c cc).2.
Proof.
  intros Htracked clusterID r Hr. cbn in *.
  destruct (Htracked clusterID r Hr) as (c0 & Hc0 & Hid). exists c0.
  split; [|done]. rewrite lookup_insert_ne; [done|].
  intros <-. pose proof (alloc_fresh c cc) as Hfresh. cbn in Hfresh. congruence.
Qed.

Lemma insert_tracked clusterID r c cc :
  ClusterCollector.store cc !! r = Some c → Cluster.ID c = clusterID →
  tracked_by_id cc →
  tracked_by_id
    (ClusterCollector.mk (ClusterCollector.store cc)
       (<[clusterID := r]> (ClusterCollector.clusters cc))).
Proof.
  intros Hc Hid Htracked id r0. cbn.
  destruct (decide (id = clusterID)) as [->|Hne].
  - rewrite lookup_insert_eq. intros [= <-]. by exists c.
  - rewrite lookup_insert_ne by done. apply Htracked.
Qed.

Lemma store_result_inv {A} key (inj : A → Cluster.value) r cluster o cc' :
  ClusterCollector.store_result key inj r cluster o = Some cc' →
  ∃ cc, o = Some cc ∧
        ClusterCollector.store_result key inj r cluster (Some cc) = Some cc'.
Proof. destruct o as [cc|]; [|done]. intros H. by exists cc. Qed.

Lemma CollectClusterInfo_tracked pgx clusterID cc w err cc' w' :
  ClusterCollector.CollectClusterInfo pgx clusterID cc w
  = (ClusterCollector.Done err, cc', w') →
  tracked_by_id cc → tracked_by_id cc'.
Proof.
  intros Hrun Htracked. unfold ClusterCollector.CollectClusterInfo in Hrun.
  unfold mbind, Go_bind, mret, Go_ret in Hrun.
  destruct (GetPool clusterID w) as [[pool|e] w1]; cbn [fst snd] in Hrun;
    [|by injection Hrun as _ <- _].
  match type of Hrun with
  | context [match ClusterCollector.clusters cc !! clusterID with
             | Some c => @?a c | None => ?b end] =>
      set (entry := match ClusterCollector.clusters cc !! clusterID with
                    | Some c => a c | None => b end) in Hrun
  end.
  assert (Hentry : tracked_by_id entry.2).
  { subst entry. destruct (ClusterCollector.clusters cc !! clusterID); [done|].
    cbn [snd ClusterCollector.alloc].
    apply (insert_tracked clusterID _
             (Cluster.NewCluster clusterID clusterID "unknown" (Some ∅))
             (ClusterCollector.alloc _ cc).2);
      [apply lookup_insert_eq|reflexivity|by apply alloc_tracked]. }
  clearbody entry. destruct entry as [cluster cc1]. cbn [snd] in Hentry.
  cbn [fst snd] in Hrun.
  destruct (HealthCheck pgx clusterID w1) as [[e|] w2]; cbn [fst snd] in Hrun.
  - destruct (ClusterCollector.through cluster _ cc1) as [cc2|] eqn:Hthrough;
      [|discriminate Hrun].
    unfold logf in Hrun. cbn [fst snd] in Hrun. injection Hrun as _ <- _.
    eapply keeps_ids_tracked; [|exact Hentry].
    eapply through_keeps_ids; [|exact Hthrough]. by intros c c' [= <-].
  - destruct (ClusterCollector.through cluster _ cc1) as [cc2|] eqn:Hthrough;
      [|discriminate Hrun].
    assert (Hkeeps : keeps_ids cc1 cc2).
    { eapply through_keeps_ids; [|exact Hthrough]. by intros c c' [= <-]. }
    destruct (ClusterCollector.collectVersion clusterID w2) as [version w3].
    destruct (ClusterCollector.collectSettings clusterID w3) as [settings w4].
    destruct (ClusterCollector.collectDatabases clusterID w4)
      as [databases w5].
    destruct (ClusterCollector.collectReplicationStatus clusterID w5)
      as [replStatus w6].
    destruct (ClusterCollector.collectExtensions clusterID w6)
      as [extensions w7].
    cbn [fst snd] in Hrun.
    match type of Hrun with
    | context [match ?o with Some _ => _ | None => _ end] =>
        destruct o as [cc7|] eqn:H5; [|discriminate Hrun]
    end.
    unfold logf in Hrun. cbn [fst snd] in Hrun. injection Hrun as _ <- _.
    apply store_result_inv in H5 as (cc6 & H4 & H5).
    apply store_result_inv in H4 as (cc5 & H3 & H4).
    apply store_result_inv in H3 as (cc4 & H2 & H3).
    apply store_result_inv in H2 as (cc3 & H1 & H2).
    eapply keeps_ids_tracked; [|exact Hentry].
    eapply store_result_keeps_ids; [|exact H5].
    eapply store_result_keeps_ids; [|exact H4].
    eapply store_result_keeps_ids; [|exact H3].
    eapply store_result_keeps_ids; [|exact H2].
    eapply store_result_keeps_ids; [|exact H1].
    exact Hkeeps.
Qed.

Lemma step_tracked pgx cc w cc' w' :
  step pgx (cc, w) (cc', w') → tracked_by_id cc → tracked_by_id cc'.
Proof.
  inversion 1 as [clusterID ? ? err ? ? Hrun|cluster ? ? ? ? Hrun
                 |clusterID ? ? err ? ? Hrun|id name status conf ? ?
                 |cluster status ? ? ? Hthrough|]; subst; intros Htracked.
  - by eapply CollectClusterInfo_tracked.
  - unfold ClusterCollector.RegisterCluster in Hrun.
    destruct (ClusterCollector.store cc !! cluster) as [c|] eqn:Hc;
      [|discriminate Hrun].
    unfold logf, mbind, Go_bind, mret, Go_ret in Hrun. cbn [fst snd] in Hrun.
    injection Hrun as <- _. by eapply insert_tracked.
  - unfold ClusterCollector.UnregisterCluster in Hrun.
    destruct (ClusterCollector.clusters cc !! clusterID) as [r|];
      unfold logf, mbind, Go_bind, mret, Go_ret in Hrun;
      cbn [fst snd] in Hrun; injection Hrun as _ <- _; [|done].
    intros id r0. cbn. intros [_ Hr0]%lookup_delete_Some. by apply Htracked.
  - by apply alloc_tracked.
  - eapply keeps_ids_tracked; [|exact Htracked].
    eapply through_keeps_ids; [|exact Hthrough]. by intros c c' [= <-].
  - done.
Qed.

Lemma steps_tracked pgx s s' :
  rtc (step pgx) s s' → tracked_by_id s.1 → tracked_by_id s'.1.
Proof.
  induction 1 as [|[cc1 w1] [cc2 w2] s3 Hstep _ IH]; [done|].
  intros Htracked. apply IH. by eapply step_tracked.
Qed.

Lemma elem_of_collector_GetAllClusters cc cluster :
  cluster ∈ ClusterCollector.GetAllClusters cc ↔
  ∃ clusterID, ClusterCollector.clusters cc !! clusterID = Some cluster.
Proof.
  unfold ClusterCollector.GetAllClusters.
  assert (Hfold : ∀ (entries : list (string * nat)) acc,
            fold_left (λ clusters '(_, cluster), clusters ++ [cluster])
                      entries acc = acc ++ entries.*2).
  { induction entries as [|[id r] entries IH]; intros acc; cbn.
    - by rewrite app_nil_r.
    - by rewrite IH, <- app_assoc. }
  rewrite Hfold, app_nil_l, list_elem_of_fmap. split.
  - intros ([id r] & -> & Hin%elem_of_map_to_list). by exists id.
  - intros (id & Hid). exists (id, cluster).
    split; [done|]. by apply elem_of_map_to_list.
Qed.

(** X30: the collector tracks clusters by their id.  In every state
    reached from a new collector by its operations (collecting,
    registering, unregistering), by what callers do with the pointers
    they hold, and by any change of the world, [GetCluster] on an id
    returns a pointer to an allocated cluster that carries this id, and
    [GetAllClusters] lists that pointer. *)
Theorem collector_tracks_clusters_by_id
    (pgx : Pgx) (w0 w : World) (cc : ClusterCollector.t) :
  rtc (step pgx) (ClusterCollector.NewClusterCollector, w0) (cc, w) →
  ∀ clusterID cluster,
    ClusterCollector.GetCluster clusterID cc = inl cluster →
    cluster ∈ ClusterCollector.GetAllClusters cc ∧
    ∃ c, ClusterCollector.store cc !! cluster = Some c ∧
         Cluster.ID c = clusterID.
Proof.
  intros Hsteps.
  assert (Htracked : tracked_by_id cc).
  { apply (steps_tracked pgx _ _ Hsteps). by intros id r. }
  intros clusterID cluster Hget. unfold ClusterCollector.GetCluster in Hget.
  destruct (ClusterCollector.clusters cc !! clusterID) as [r|] eqn:Hr;
    [|discriminate Hget].
  injection Hget as ->. split; [|by apply Htracked].
  apply elem_of_collector_GetAllClusters. by exists clusterID.
Qed.

Lemma collector_tracks_clusters_by_id_witness :
  let run := ClusterCollector.CollectClusterInfo pgx_unreachable "c1"
               ClusterCollector.NewClusterCollector world_registered in
  ∃ cluster c,
    ClusterCollector.GetCluster "c1" run.1.2 = inl cluster ∧
    ClusterCollector.store run.1.2 !! cluster = Some c ∧
    Cluster.ID c = "c1".
Proof.
  cbn zeta.
  set (run := ClusterCollector.CollectClusterInfo pgx_unreachable "c1"
                ClusterCollector.NewClusterCollector world_registered).
  assert (Hsteps : rtc (step pgx_unreachable)
                     (ClusterCollector.NewClusterCollector, world_registered)
                     (run.1.2, run.2)).
  { apply rtc_once.
    apply (step_collect _ "c1" _ _
             (Some (ErrDriver "connection refused"))).
    vm_compute. reflexivity. }
  assert (Hget : ClusterCollector.GetCluster "c1" run.1.2 = inl 0%nat)
    by (vm_compute; reflexivity).
  destruct (collector_tracks_clusters_by_id _ _ _ _ Hsteps "c1" 0%nat Hget)
    as [_ (c & Hc & Hid)].
  by exists 0%nat, c.
Defined.

(** X29: collecting a cluster for the first time.  For an id with a
    registered pool that the collector does not track yet,
    [CollectClusterInfo] does not panic and returns what the ping of the
    pool answers; it allocates a cluster named after the id, tracks it
    under the id and leaves the other ids, the registry and the pools as
    they were.  The cluster is healthy with the five collected
    configuration entries when the ping succeeds, and unhealthy with an
    empty configuration when it fails. *)
Theorem CollectClusterInfo_tracks
    (pgx : Pgx) (clusterID : string) (cc : ClusterCollector.t) (w : World)
    (pool : nat) (p : Pool) :
  pools w !! clusterID = Some pool → heap w !! pool = Some p →
  ClusterCollector.clusters cc !! clusterID = None →
  let run := ClusterCollector.CollectClusterInfo pgx clusterID cc w in
  let cc' := run.1.2 in
  run.1.1 = ClusterCollector.Done (Ping pgx p) ∧
  pools run.2 = pools w ∧ heap run.2 = heap w ∧
  (∀ other, other ≠ clusterID →
     ClusterCollector.clusters cc' !! other
     = ClusterCollector.clusters cc !! other) ∧
  ∃ cluster c,
    ClusterCollector.GetCluster clusterID cc' = inl cluster ∧
    ClusterCollector.store cc !! cluster = None ∧
    ClusterCollector.store cc' !! cluster = Some c ∧
    Cluster.ID c = clusterID ∧ Cluster.Name c = clusterID ∧
    Cluster.Status c
      = (if Ping pgx p is None then "healthy" else "unhealthy") ∧
    dom <$> Cluster.Configuration c
      = Some (if Ping pgx p is None then collected_keys else ∅).
Proof.
  intros Hpool Hheap Huntracked. cbn zeta.
  unfold ClusterCollector.CollectClusterInfo, HealthCheck,
    ClusterCollector.collectVersion, ClusterCollector.collectSettings,
    ClusterCollector.collectDatabases,
    ClusterCollector.collectReplicationStatus,
    ClusterCollector.collectExtensions, GetPool, get_pools, pool_Ping, logf,
    mbind, Go_bind, mret, Go_ret.
  cbn [fst snd]. rewrite Hpool, Huntracked.
  cbn [fst snd ClusterCollector.alloc]. rewrite Hpool.
  cbn [fst snd]. rewrite Hheap.
  set (r := fresh (dom (ClusterCollector.store cc))).
  assert (Hfresh : ClusterCollector.store cc !! r = None)
    by apply not_elem_of_dom, is_fresh.
  unfold ClusterCollector.through.
  cbn [ClusterCollector.store ClusterCollector.clusters].
  rewrite lookup_insert_eq. cbn [mbind option_bind].
  destruct (Ping pgx p) as [err|]; cbn [fst snd pools heap].
  - split; [reflexivity|]. split; [reflexivity|]. split; [reflexivity|].
    split; [intros other Hother; cbn; by rewrite lookup_insert_ne|].
    eexists r, _. unfold ClusterCollector.GetCluster. cbn.
    rewrite !lookup_insert_eq. by repeat split.
  - repeat (rewrite Hpool; cbn [fst snd]).
    unfold ClusterCollector.store_result, ClusterCollector.through.
    cbn. repeat (rewrite lookup_insert_eq; cbn).
    cbn [fst snd pools heap].
    split; [reflexivity|]. split; [reflexivity|]. split; [reflexivity|].
    split; [intros other Hother; cbn; by rewrite lookup_insert_ne|].
    eexists r, _. unfold ClusterCollector.GetCluster. cbn.
    rewrite !lookup_insert_eq.
    split; [reflexivity|]. split; [exact Hfresh|]. split; [reflexivity|].
    cbn. split; [reflexivity|]. split; [reflexivity|]. split; [reflexivity|].
    reflexivity.
Qed.

Lemma CollectClusterInfo_tracks_witness :
  let run := ClusterCollector.CollectClusterInfo pgx_reachable "c1"
               ClusterCollector.NewClusterCollector world_registered in
  run.1.1 = ClusterCollector.Done None ∧
  ∃ cluster c,
    ClusterCollector.GetCluster "c1" run.1.2 = inl cluster ∧
    ClusterCollector.store run.1.2 !! cluster = Some c ∧
    Cluster.Status c = "healthy" ∧
    dom <$> Cluster.Configuration c = Some collected_keys.
Proof.
  destruct (CollectClusterInfo_tracks pgx_reachable "c1"
              ClusterCollector.NewClusterCollector world_registered
              0%nat (mkPool (configurePool config0
                               (mkPoolConfig (connString config0) 4 0
                                             time.Hour time.Hour)) false)
              ltac:(vm_compute; reflexivity) ltac:(vm_compute; reflexivity)
              ltac:(reflexivity))
    as (Hrun & _ & _ & _ & cluster & c & Hget & _ & Hc & _ & _ & Hs & Hconf).
  split; [exact Hrun|]. exists cluster, c. by repeat split.
Defined.
